(** * Nintendo Joy-Con serial gamepad driver: a shallow embedding

    The development follows [drivers/input/joystick/joycon.c].  The driver
    keeps one [struct joycon] per serial device, a handful of file-scope
    globals holding the merged gamepad state, and three delayed works
    ([timeout_handler], [input_handler], [sync_handler]).

    Conventions.
    - A [u8] is a [Byte.byte]; it is widened to [Z] by [u8] where the C
      code promotes it to [int].
    - [int] and [u32] values are [Z]; the places where the C arithmetic can
      leave the range are wrapped with [int32] and [u32].
    - Every externally visible action (transport write, input event,
      work re-arming, log line, lock operation) is appended to a trace.
    - [buf[i]] beyond the bytes that were delivered is a [Fault]. *)

From Stdlib Require Import ZArith Lia Bool List.
From Stdlib.Strings Require Import Byte.
From Stdlib.Strings Require String.
From stdpp Require Import base option list gmap.
Import String.StringSyntax.

Local Open Scope Z_scope.

(** ** Machine integers *)

Definition u8 (b : byte) : Z := Z.of_N (Byte.to_N b).

Definition u32 (z : Z) : Z := z mod 2 ^ 32.

Definition INT_MAX : Z := 2 ^ 31 - 1.
Definition INT_MIN : Z := - 2 ^ 31.

(** Two's complement reading of the low 32 bits: the kernel is built with
    wrapping signed arithmetic. *)
Definition int32 (z : Z) : Z := (z + 2 ^ 31) mod 2 ^ 32 - 2 ^ 31.

Definition BIT (n : Z) : Z := Z.shiftl 1 n.

(** ** Constants *)

Definition magic_start : list byte := [xa1; xa2; xa3; xa4].
Definition handshake_start : list byte :=
  [x19; x01; x03; x07; x00; xa5; x02; x01; x7e; x00; x00; x00].
Definition get_mac : list byte :=
  [x19; x01; x03; x07; x00; x91; x01; x00; x00; x00; x00; x24].
Definition switch_baud : list byte :=
  [x19; x01; x03; x0f; x00; x91; x20; x08; x00; x00;
   xbd; xb1; xc0; xc6; x2d; x00; x00; x00; x00; x00].
Definition controller_status : list byte :=
  [x19; x01; x03; x08; x00; x92; x00; x01; x00; x00; x69; x2d; x1f].
Definition unk_1 : list byte :=
  [x19; x01; x03; x07; x00; x91; x11; x00; x00; x00; x00; x0e].
Definition unk_2 : list byte :=
  [x19; x01; x03; x07; x00; x91; x10; x00; x00; x00; x00; x3d].
Definition unk_3 : list byte :=
  [x19; x01; x03; x0b; x00; x91; x12; x04; x00; x00; x12; xa6; x0f; x00; x00; x00].

Definition JOYCON_COMMAND_EXTSEND : Z := 0x91.
Definition JOYCON_COMMAND_EXTRET : Z := 0x92.
Definition JOYCON_COMMAND_INITRET : Z := 0x94.
Definition JOYCON_COMMAND_HANDSHAKE : Z := 0xA5.

Definition JOYCON_INIT_MAC : Z := 0x1.
Definition JOYCON_INIT_BAUDRATE : Z := 0x20.
Definition JOYCON_INIT_UNK1 : Z := 0x11.
Definition JOYCON_INIT_UNK2 : Z := 0x10.
Definition JOYCON_INIT_UNK3 : Z := 0x12.

Definition JOYCON_EXT_INPUT : Z := 0x30.

Definition JOYCON_BUTTONS_LEFT : Z := 0xFFE900.
Definition JOYCON_BUTTONS_RIGHT : Z := 0x76FF.
Definition JOYCON_BUTTONS_ALL : Z := Z.lor JOYCON_BUTTONS_LEFT JOYCON_BUTTONS_RIGHT.

Definition JOYCON_BUTTONSET_LEFT : Z := BIT 0.
Definition JOYCON_BUTTONSET_RIGHT : Z := BIT 1.

(** [sizeof(joycon_uart_initial)]: magic[3], total_size, pad. *)
Definition sizeof_joycon_uart_initial : nat := 5.
(** [sizeof(joycon_uart_header)]: initial, command, data[5], crc. *)
Definition sizeof_joycon_uart_header : nat := 12.
(** Offsets of [header->command] and [header->data] in the frame. *)
Definition offsetof_command : nat := 5.
Definition offsetof_data : nat := 6.

(** Key and axis codes.  The driver takes them from
    [linux/input-event-codes.h]; the values below are the ones of that
    header. *)
Definition BTN_0 : Z := 0x100.
Definition BTN_1 : Z := 0x101.
Definition BTN_2 : Z := 0x102.
Definition BTN_3 : Z := 0x103.
Definition BTN_4 : Z := 0x104.
Definition BTN_5 : Z := 0x105.
Definition BTN_A : Z := 0x130.
Definition BTN_B : Z := 0x131.
Definition BTN_X : Z := 0x133.
Definition BTN_Y : Z := 0x134.
Definition BTN_Z : Z := 0x135.
Definition BTN_TL : Z := 0x136.
Definition BTN_TR : Z := 0x137.
Definition BTN_TL2 : Z := 0x138.
Definition BTN_TR2 : Z := 0x139.
Definition BTN_SELECT : Z := 0x13a.
Definition BTN_START : Z := 0x13b.
Definition BTN_MODE : Z := 0x13c.
Definition BTN_THUMBL : Z := 0x13d.
Definition BTN_THUMBR : Z := 0x13e.
Definition BTN_DPAD_UP : Z := 0x220.
Definition BTN_DPAD_DOWN : Z := 0x221.
Definition BTN_DPAD_LEFT : Z := 0x222.
Definition BTN_DPAD_RIGHT : Z := 0x223.

Definition ABS_X : Z := 0x00.
Definition ABS_Y : Z := 0x01.
Definition ABS_RX : Z := 0x03.
Definition ABS_RY : Z := 0x04.

(** Joy-Con button mappings, with the terminating entry. *)
Definition joycon_common_btn : list Z :=
  [BTN_Y; BTN_X; BTN_B; BTN_A;
   BTN_0; BTN_1; BTN_TR; BTN_TR2;
   BTN_SELECT; BTN_START;
   BTN_THUMBR; BTN_THUMBL;
   BTN_MODE; BTN_Z;
   BTN_4; BTN_5;
   BTN_DPAD_DOWN; BTN_DPAD_UP; BTN_DPAD_RIGHT; BTN_DPAD_LEFT;
   BTN_2; BTN_3; BTN_TL; BTN_TL2;
   -1].

(** Axis range registered by [joycon_serdev_probe] with
    [input_set_abs_params(input_dev, axis, 32, 255 - 32, 0, 4)]. *)
Definition abs_min : Z := 32.
Definition abs_max : Z := 255 - 32.
Definition abs_fuzz : Z := 0.
Definition abs_flat : Z := 4.

(** ** Per-Joy-Con data

    [struct joycon] without its [input_dev], [dev] and [idx] members, which
    no handler reads.  [serdev] is the handle of the serial device the
    session belongs to. *)
Record joycon : Type := Joycon {
  serdev : nat;
  handshaken : bool;
  initialized : bool;
  timeout_samples : Z;
  num_samples : Z;
  button_set : Z;
  joycon_buttons : Z;
  mac : list byte
}.

(** A session as [devm_kzalloc] returns it, bound to its device. *)
Definition joycon_zalloc (sd : nat) : joycon :=
  {| serdev := sd; handshaken := false; initialized := false;
     timeout_samples := 0; num_samples := 0; button_set := 0;
     joycon_buttons := 0; mac := [x00; x00; x00; x00; x00; x00] |}.

(** ** Globals: the merged gamepad state *)
Record globals : Type := Globals {
  buttons : Z;
  stick_lx : Z;
  stick_ly : Z;
  stick_rx : Z;
  stick_ry : Z
}.

Definition globals_init : globals :=
  {| buttons := 0; stick_lx := 0; stick_ly := 0; stick_rx := 0; stick_ry := 0 |}.

(** ** Observable actions *)

Inductive work : Type :=
| work_timeout_poll (sd : nat)
| work_input_poll (sd : nat)
| work_sync_poll.

Inductive mutex : Type := joycon_device_lock | joycon_input_lock.

Inductive log : Type :=
| LogTimeout (last cur diff : Z)
| LogSentHandshake
| LogUnknownExtret (b : Z)
| LogMac (m : list byte)
| LogBaudrateShifted
| LogUnknownInitret (b : Z)
| LogGotHandshake
| LogUnknownCommand (b : Z).

Inductive event : Type :=
| SerdevWrite (sd : nat) (data : list byte) (timeout_ms : Z)
| SerdevSetBaudrate (sd : nat) (rate : Z)
| UsleepRange (lo hi : Z)
| MutexLock (m : mutex)
| MutexUnlock (m : mutex)
| InputReportKey (code : Z) (value : Z)
| InputReportAbs (axis : Z) (value : Z)
| InputSync
| QueueDelayedWork (wk : work) (delay_ms : Z)
| Printk (m : log)
| WarnOn
| StoreOutsideMac (sd : nat) (index : Z) (b : byte).

(** ** The environment of a blocking call

    [serdev_device_write] and [usleep_range] block the calling work.  While
    they do, the serial core may hand received bytes to
    [joycon_serdev_receive_buf] on any device; this is the only way
    [joycon->handshaken] can become true inside the handshake loop.  The
    environment is a script holding one answer per blocking call: the value
    the call returns and the buffers delivered while it blocked.  Between
    two blocking calls a work runs without interference: deliveries are
    interleaved at the blocking calls only.

    [rx_j] is the value the uninitialised local [j] of
    [joycon_initret_parse] happens to hold for that delivery. *)
Record rx_frame : Type := RxFrame {
  rx_serdev : nat;
  rx_buf : list byte;
  rx_j : Z
}.

Record env_resp : Type := EnvResp {
  err : Z;
  rx : list rx_frame
}.

(** A blocking call that succeeds while nothing is received. *)
Definition quiet : env_resp := {| err := 0; rx := [] |}.

(** ** The world: sessions by device ([serdev_device_get_drvdata]), the
    globals, what has been observed so far and what the environment will
    answer. *)
Record world : Type := World {
  sessions : gmap nat joycon;
  glob : globals;
  trace : list event;
  script : list env_resp
}.

Definition set_sessions (m : gmap nat joycon) (w : world) : world :=
  {| sessions := m; glob := glob w; trace := trace w; script := script w |}.
Definition set_glob (g : globals) (w : world) : world :=
  {| sessions := sessions w; glob := g; trace := trace w; script := script w |}.
Definition set_trace (t : list event) (w : world) : world :=
  {| sessions := sessions w; glob := glob w; trace := t; script := script w |}.
Definition set_script (s : list env_resp) (w : world) : world :=
  {| sessions := sessions w; glob := glob w; trace := trace w; script := s |}.

Definition set_handshaken (b : bool) (j : joycon) : joycon :=
  {| serdev := serdev j; handshaken := b; initialized := initialized j;
     timeout_samples := timeout_samples j; num_samples := num_samples j;
     button_set := button_set j; joycon_buttons := joycon_buttons j; mac := mac j |}.
Definition set_initialized (b : bool) (j : joycon) : joycon :=
  {| serdev := serdev j; handshaken := handshaken j; initialized := b;
     timeout_samples := timeout_samples j; num_samples := num_samples j;
     button_set := button_set j; joycon_buttons := joycon_buttons j; mac := mac j |}.
Definition set_timeout_samples (n : Z) (j : joycon) : joycon :=
  {| serdev := serdev j; handshaken := handshaken j; initialized := initialized j;
     timeout_samples := n; num_samples := num_samples j;
     button_set := button_set j; joycon_buttons := joycon_buttons j; mac := mac j |}.
Definition set_num_samples (n : Z) (j : joycon) : joycon :=
  {| serdev := serdev j; handshaken := handshaken j; initialized := initialized j;
     timeout_samples := timeout_samples j; num_samples := n;
     button_set := button_set j; joycon_buttons := joycon_buttons j; mac := mac j |}.
Definition set_button_set (n : Z) (j : joycon) : joycon :=
  {| serdev := serdev j; handshaken := handshaken j; initialized := initialized j;
     timeout_samples := timeout_samples j; num_samples := num_samples j;
     button_set := n; joycon_buttons := joycon_buttons j; mac := mac j |}.
Definition set_joycon_buttons (n : Z) (j : joycon) : joycon :=
  {| serdev := serdev j; handshaken := handshaken j; initialized := initialized j;
     timeout_samples := timeout_samples j; num_samples := num_samples j;
     button_set := button_set j; joycon_buttons := n; mac := mac j |}.
Definition set_mac (m : list byte) (j : joycon) : joycon :=
  {| serdev := serdev j; handshaken := handshaken j; initialized := initialized j;
     timeout_samples := timeout_samples j; num_samples := num_samples j;
     button_set := button_set j; joycon_buttons := joycon_buttons j; mac := m |}.

Definition set_buttons (n : Z) (g : globals) : globals :=
  {| buttons := n; stick_lx := stick_lx g; stick_ly := stick_ly g;
     stick_rx := stick_rx g; stick_ry := stick_ry g |}.
Definition set_stick_lx (n : Z) (g : globals) : globals :=
  {| buttons := buttons g; stick_lx := n; stick_ly := stick_ly g;
     stick_rx := stick_rx g; stick_ry := stick_ry g |}.
Definition set_stick_ly (n : Z) (g : globals) : globals :=
  {| buttons := buttons g; stick_lx := stick_lx g; stick_ly := n;
     stick_rx := stick_rx g; stick_ry := stick_ry g |}.
Definition set_stick_rx (n : Z) (g : globals) : globals :=
  {| buttons := buttons g; stick_lx := stick_lx g; stick_ly := stick_ly g;
     stick_rx := n; stick_ry := stick_ry g |}.
Definition set_stick_ry (n : Z) (g : globals) : globals :=
  {| buttons := buttons g; stick_lx := stick_lx g; stick_ly := stick_ly g;
     stick_rx := stick_rx g; stick_ry := n |}.

(** ** The monad of driver code

    [Done a w]: the code returned [a] in world [w].  [Blocked w]: it sits in
    a blocking call that the script does not answer.  [Fault]: it read
    outside a delivered buffer or dereferenced a null session. *)
Inductive result (A : Type) : Type :=
| Done (a : A) (w : world)
| Blocked (w : world)
| Fault.
Arguments Done {A} a w.
Arguments Blocked {A} w.
Arguments Fault {A}.

Definition M (A : Type) : Type := world -> result A.

Definition ret {A} (a : A) : M A := fun w => Done a w.

Definition bind {A B} (c : M A) (k : A -> M B) : M B :=
  fun w => match c w with
           | Done a w' => k a w'
           | Blocked w' => Blocked w'
           | Fault => Fault
           end.

Notation "'let*' x ':=' c 'in' k" := (bind c (fun x => k))
  (at level 10, x name, c at level 100, k at level 200).
Notation "c ';;;' k" := (bind c (fun _ => k))
  (at level 100, k at level 200, right associativity).

Definition fault {A} : M A := fun _ => Fault.

Definition when (b : bool) (c : M unit) : M unit := if b then c else ret tt.

Definition emit (e : event) : M unit :=
  fun w => Done tt (set_trace (trace w ++ [e]) w).

Definition printk (m : log) : M unit := emit (Printk m).
Definition mutex_lock (m : mutex) : M unit := emit (MutexLock m).
Definition mutex_unlock (m : mutex) : M unit := emit (MutexUnlock m).

(** [serdev_device_get_drvdata(serdev)]. *)
Definition serdev_device_get_drvdata (sd : nat) : M (option joycon) :=
  fun w => Done (sessions w !! sd) w.

(** [joycon->field], the session being the driver data of [sd]. *)
Definition joycon_get {A} (sd : nat) (field : joycon -> A) : M A :=
  fun w => match sessions w !! sd with
           | Some j => Done (field j) w
           | None => Fault
           end.

(** [joycon->field = v], written as the update [f] of the record. *)
Definition joycon_set (sd : nat) (f : joycon -> joycon) : M unit :=
  fun w => match sessions w !! sd with
           | Some j => Done tt (set_sessions (<[sd := f j]> (sessions w)) w)
           | None => Fault
           end.

Definition glob_get {A} (field : globals -> A) : M A :=
  fun w => Done (field (glob w)) w.

Definition glob_set (f : globals -> globals) : M unit :=
  fun w => Done tt (set_glob (f (glob w)) w).

(** [packet[i]] *)
Definition rd (packet : list byte) (i : nat) : M Z :=
  fun w => match packet !! i with
           | Some b => Done (u8 b) w
           | None => Fault
           end.

(** The same, keeping the byte. *)
Definition rd_byte (packet : list byte) (i : nat) : M byte :=
  fun w => match packet !! i with
           | Some b => Done b w
           | None => Fault
           end.

(** ** Frame handlers *)

(** [joycon_extret_parse(serdev, packet, size)].  The first statement
    reads [joycon->input_dev] into a local that is not used again. *)
Definition joycon_extret_parse (sd : nat) (packet : list byte) (size : Z) : M unit :=
  joycon_get sd (fun _ => tt) ;;;
  let* p0 := rd packet 0 in
  if p0 =? JOYCON_EXT_INPUT then
    let* p3 := rd packet 3 in
    let* p4 := rd packet 4 in
    let* p5 := rd packet 5 in
    joycon_set sd (set_joycon_buttons
      (Z.lor (Z.lor p3 (Z.shiftl p4 8)) (Z.shiftl p5 16))) ;;;
    mutex_lock joycon_input_lock ;;;
    let* bs := joycon_get sd button_set in
    when (negb (Z.land bs JOYCON_BUTTONSET_LEFT =? 0)) (
      glob_set (fun g => set_buttons
        (Z.land (buttons g) (u32 (Z.lnot JOYCON_BUTTONS_LEFT))) g) ;;;
      let* jb := joycon_get sd joycon_buttons in
      glob_set (fun g => set_buttons
        (Z.lor (buttons g) (Z.land jb JOYCON_BUTTONS_LEFT)) g)) ;;;
    let* bs := joycon_get sd button_set in
    when (negb (Z.land bs JOYCON_BUTTONSET_RIGHT =? 0)) (
      glob_set (fun g => set_buttons
        (Z.land (buttons g) (u32 (Z.lnot JOYCON_BUTTONS_RIGHT))) g) ;;;
      let* jb := joycon_get sd joycon_buttons in
      glob_set (fun g => set_buttons
        (Z.lor (buttons g) (Z.land jb JOYCON_BUTTONS_RIGHT)) g)) ;;;
    let* bs := joycon_get sd button_set in
    when (negb (Z.land bs JOYCON_BUTTONSET_LEFT =? 0)) (
      let* p7 := rd packet 7 in
      let* p6 := rd packet 6 in
      glob_set (set_stick_lx
        (Z.lor (Z.shiftl (Z.land p7 0x0F) 4) (Z.shiftr (Z.land p6 0xF0) 4))) ;;;
      let* p8 := rd packet 8 in
      glob_set (set_stick_ly (256 - p8))) ;;;
    let* bs := joycon_get sd button_set in
    when (negb (Z.land bs JOYCON_BUTTONSET_RIGHT =? 0)) (
      let* p10 := rd packet 10 in
      let* p9 := rd packet 9 in
      glob_set (set_stick_rx
        (Z.lor (Z.shiftl (Z.land p10 0x0F) 4) (Z.shiftr (Z.land p9 0xF0) 4))) ;;;
      let* p11 := rd packet 11 in
      glob_set (set_stick_ry (256 - p11))) ;;;
    mutex_unlock joycon_input_lock ;;;
    let* n := joycon_get sd num_samples in
    joycon_set sd (set_num_samples (int32 (n + 1)))
  else
    printk (LogUnknownExtret p0).

(** [joycon->mac[j] = b].  [mac] has six entries; a store at any other
    index leaves the array alone and is recorded as [StoreOutsideMac]
    (what it overwrites depends on the layout of [struct joycon]).  [mac]
    is the last member and is followed by padding, so at index 6 the store
    changes no member; at other indices it lands on another member of the
    session or outside it, and the session the model gives then differs
    from the one the code leaves in what was overwritten. *)
Definition mac_store (sd : nat) (j : Z) (b : byte) : M unit :=
  if (0 <=? j) && (j <? 6) then
    joycon_set sd (fun s => set_mac (<[Z.to_nat j := b]> (mac s)) s)
  else
    emit (StoreOutsideMac sd j b).

(** [for (; i >= 0x6; i--) joycon->mac[j++] = packet[i];] *)
Fixpoint mac_loop (sd : nat) (packet : list byte) (i : nat) (j : Z) {struct i} : M unit :=
  if (6 <=? i)%nat then
    let* b := rd_byte packet i in
    mac_store sd j b ;;;
    match i with
    | S i' => mac_loop sd packet i' (int32 (j + 1))
    | O => ret tt
    end
  else ret tt.

(** [joycon_initret_parse(serdev, packet, size)].  The local [j] is read
    before it is ever assigned; [j0] is the value it holds on entry. *)
Definition joycon_initret_parse (sd : nat) (packet : list byte) (size : Z) (j0 : Z) : M unit :=
  let* p0 := rd packet 0 in
  if p0 =? JOYCON_INIT_MAC then
    mac_loop sd packet 0xC j0 ;;;
    let* m := joycon_get sd mac in
    printk (LogMac (take 6 m)) ;;;
    let* m := joycon_get sd mac in
    let* m0 := rd m 0 in
    if negb (m0 =? 0x7C) then
      joycon_set sd (set_button_set JOYCON_BUTTONSET_LEFT)
    else
      joycon_set sd (set_button_set JOYCON_BUTTONSET_RIGHT)
  else if (p0 =? JOYCON_INIT_UNK1) || (p0 =? JOYCON_INIT_UNK2) || (p0 =? JOYCON_INIT_UNK3) then
    ret tt
  else if p0 =? JOYCON_INIT_BAUDRATE then
    emit (SerdevSetBaudrate sd 3125000) ;;;
    printk LogBaudrateShifted
  else
    printk (LogUnknownInitret p0).

(** [joycon_packet_parse(serdev, packet, size)] *)
Definition joycon_packet_parse (sd : nat) (packet : list byte) (size : Z) (j0 : Z) : M unit :=
  let* command := rd packet offsetof_command in
  if command =? JOYCON_COMMAND_EXTRET then
    let* d0 := rd packet offsetof_data in
    let* d1 := rd packet (offsetof_data + 1) in
    joycon_extret_parse sd (drop sizeof_joycon_uart_header packet)
      (Z.lor (Z.shiftl d0 8) d1)
  else if command =? JOYCON_COMMAND_INITRET then
    joycon_initret_parse sd (drop (sizeof_joycon_uart_initial + 1) packet)
      (u32 (size - Z.of_nat sizeof_joycon_uart_initial - 1)) j0
  else if command =? JOYCON_COMMAND_HANDSHAKE then
    printk LogGotHandshake ;;;
    joycon_set sd (set_handshaken true)
  else
    printk (LogUnknownCommand command).

(** [joycon_serdev_receive_buf(serdev, buf, len)], [len] being the number
    of bytes in [buf]. *)
Definition joycon_serdev_receive_buf (sd : nat) (buf : list byte) (j0 : Z) : M Z :=
  let* joycon := serdev_device_get_drvdata sd in
  match joycon with
  | None => emit WarnOn ;;; ret 0
  | Some j =>
      if negb (sd =? serdev j)%nat then emit WarnOn ;;; ret 0
      else
        joycon_packet_parse sd buf (Z.of_nat (length buf)) j0 ;;;
        ret (int32 (Z.of_nat (length buf)))
  end.

(** ** Blocking calls *)

Definition next_env : M env_resp :=
  fun w => match script w with
           | [] => Blocked w
           | r :: s => Done r (set_script s w)
           end.

(** The buffers delivered while a call blocks, in arrival order.  The
    serial core drops the value [receive_buf] returns. *)
Fixpoint deliver (frames : list rx_frame) : M unit :=
  match frames with
  | [] => ret tt
  | f :: frames' =>
      joycon_serdev_receive_buf (rx_serdev f) (rx_buf f) (rx_j f) ;;;
      deliver frames'
  end.

(** [serdev_device_write(serdev, data, sizeof(data), msecs_to_jiffies(ms))] *)
Definition serdev_device_write (sd : nat) (data : list byte) (timeout_ms : Z) : M Z :=
  emit (SerdevWrite sd data timeout_ms) ;;;
  let* r := next_env in
  deliver (rx r) ;;;
  ret (err r).

(** [usleep_range(lo, hi)] *)
Definition usleep_range (lo hi : Z) : M unit :=
  emit (UsleepRange lo hi) ;;;
  let* r := next_env in
  deliver (rx r).

(** [INIT_DELAYED_WORK(&data->work, handler);
     queue_delayed_work(joycon_wq, &data->work, msecs_to_jiffies(ms))] *)
Definition queue_delayed_work (wk : work) (delay_ms : Z) : M unit :=
  emit (QueueDelayedWork wk delay_ms).

(** ** Delayed works *)

(** The test of [timeout_handler]:
    [(num_samples - timeout_samples == 0 && num_samples) || !initialized]. *)
Definition timeout_expired (j : joycon) : bool :=
  ((int32 (num_samples j - timeout_samples j) =? 0) && negb (num_samples j =? 0))
  || negb (initialized j).

(** How the handshake loop is left. *)
Inductive loop_exit : Type := goto_fail | loop_done.

(** [while (!joycon->handshaken) { ... }].  Every iteration makes three
    blocking calls, so [fuel] above the length of the script is never
    used up. *)
Fixpoint handshake_loop (fuel : nat) (sd : nat) : M loop_exit :=
  match fuel with
  | O => fun w => Blocked w
  | S fuel' =>
      let* hs := joycon_get sd handshaken in
      if hs then ret loop_done
      else
        let* e := serdev_device_write sd magic_start 200 in
        if negb (e =? 0) then ret goto_fail
        else
          let* e := serdev_device_write sd handshake_start 200 in
          if negb (e =? 0) then ret goto_fail
          else
            usleep_range 180000 200000 ;;;
            printk LogSentHandshake ;;;
            handshake_loop fuel' sd
  end.

(** The statements between the loop and the label: the four requests,
    whose return values are dropped, and the two stores. *)
Definition timeout_init (sd : nat) : M unit :=
  serdev_device_write sd get_mac 200 ;;;
  serdev_device_write sd unk_1 200 ;;;
  serdev_device_write sd unk_2 200 ;;;
  serdev_device_write sd unk_3 200 ;;;
  joycon_set sd (set_num_samples 0) ;;;
  joycon_set sd (set_initialized true).

(** The statements after the label [fail:]. *)
Definition timeout_fail (sd : nat) : M unit :=
  let* n := joycon_get sd num_samples in
  joycon_set sd (set_timeout_samples n) ;;;
  queue_delayed_work (work_timeout_poll sd) 200.

(** [timeout_handler(work)], for the work whose [joycon] is the session of
    device [sd]. *)
Definition timeout_handler (sd : nat) : M unit :=
  let* j := joycon_get sd id in
  printk (LogTimeout (timeout_samples j) (num_samples j)
            (int32 (num_samples j - timeout_samples j))) ;;;
  (if timeout_expired j then
     joycon_set sd (set_handshaken false) ;;;
     joycon_set sd (set_initialized false) ;;;
     let* fuel := (fun w => Done (S (length (script w))) w) in
     let* x := handshake_loop fuel sd in
     match x with
     | goto_fail => ret tt
     | loop_done => timeout_init sd
     end
   else ret tt) ;;;
  timeout_fail sd.

(** [input_handler(work)] *)
Definition input_handler (sd : nat) : M unit :=
  let* init := joycon_get sd initialized in
  when init (
    serdev_device_write sd controller_status 200 ;;; ret tt) ;;;
  queue_delayed_work (work_input_poll sd) 16.

(** [for (; joycon_common_btn[i] >= 0; i++)
       input_report_key(input_dev, joycon_common_btn[i], buttons & BIT(i));]
    over the entries from index [i] on.  The third argument is an [int].
    Running off the table without meeting a negative entry is a [Fault]. *)
Fixpoint report_keys (tbl : list Z) (i : Z) : M unit :=
  match tbl with
  | [] => fault
  | code :: tbl' =>
      if 0 <=? code then
        let* b := glob_get buttons in
        emit (InputReportKey code (int32 (Z.land b (BIT i)))) ;;;
        report_keys tbl' (i + 1)
      else ret tt
  end.

(** [sync_handler(work)] *)
Definition sync_handler : M unit :=
  mutex_lock joycon_input_lock ;;;
  report_keys joycon_common_btn 0 ;;;
  let* v := glob_get stick_lx in emit (InputReportAbs ABS_X v) ;;;
  let* v := glob_get stick_ly in emit (InputReportAbs ABS_Y v) ;;;
  let* v := glob_get stick_rx in emit (InputReportAbs ABS_RX v) ;;;
  let* v := glob_get stick_ry in emit (InputReportAbs ABS_RY v) ;;;
  emit InputSync ;;;
  mutex_unlock joycon_input_lock ;;;
  queue_delayed_work work_sync_poll 10.

(** ** Running code on a world *)

Definition initial_world (m : gmap nat joycon) (s : list env_resp) : world :=
  {| sessions := m; glob := globals_init; trace := []; script := s |}.

(** * Closed forms and example inputs

    Values the statements below are written with: the closed form of what a
    handler leaves behind, and the concrete sessions, frames and scripts
    the examples run on. *)

(** One freshly probed session on device 1, nothing received yet. *)
Definition fresh_world : world :=
  initial_world {[ 1%nat := joycon_zalloc 1 ]} [].

(** A session that went through the handshake and the initialisation. *)
Definition ready_joycon (sd : nat) : joycon :=
  set_initialized true (set_handshaken true (joycon_zalloc sd)).

Definition ready_world : world :=
  initial_world {[ 1%nat := ready_joycon 1 ]} [].

(** Device 2 has, as its driver data, a session that is bound to device 1. *)
Definition foreign_world : world :=
  initial_world {[ 2%nat := joycon_zalloc 1 ]} [].

(** The reply to [handshake_start]: command byte [0xA5]. *)
Definition handshake_ack : list byte :=
  [x19; x01; x03; x07; x00; xa5; x02; x01; x7e; x00; x00; x00].

(** A six-byte buffer with a wrong magic and a length byte that matches
    nothing, carrying the handshake command. *)
Definition bad_magic_ack : list byte := [x00; x00; x00; xff; x00; xa5].

(** The button word of a report: [packet[3] | packet[4] << 8 | packet[5] << 16]. *)
Definition report_buttons (b3 b4 b5 : byte) : Z :=
  Z.lor (Z.lor (u8 b3) (Z.shiftl (u8 b4) 8)) (Z.shiftl (u8 b5) 16).

(** [button_set & side] as a condition. *)
Definition owns (bs side : Z) : bool := negb (Z.land bs side =? 0).

(** The globals after a report from a session with button set [bs] and
    button word [jb], in closed form. *)
Definition merged (bs jb : Z) (b6 b7 b8 b9 b10 b11 : byte) (g : globals) : globals :=
  let g1 :=
    if owns bs JOYCON_BUTTONSET_LEFT then
      set_buttons (Z.lor (Z.land (buttons g) (u32 (Z.lnot JOYCON_BUTTONS_LEFT)))
                         (Z.land jb JOYCON_BUTTONS_LEFT)) g
    else g in
  let g2 :=
    if owns bs JOYCON_BUTTONSET_RIGHT then
      set_buttons (Z.lor (Z.land (buttons g1) (u32 (Z.lnot JOYCON_BUTTONS_RIGHT)))
                         (Z.land jb JOYCON_BUTTONS_RIGHT)) g1
    else g1 in
  let g3 :=
    if owns bs JOYCON_BUTTONSET_LEFT then
      set_stick_ly (256 - u8 b8)
        (set_stick_lx (Z.lor (Z.shiftl (Z.land (u8 b7) 0x0F) 4)
                             (Z.shiftr (Z.land (u8 b6) 0xF0) 4)) g2)
    else g2 in
  if owns bs JOYCON_BUTTONSET_RIGHT then
    set_stick_ry (256 - u8 b11)
      (set_stick_rx (Z.lor (Z.shiftl (Z.land (u8 b10) 0x0F) 4)
                           (Z.shiftr (Z.land (u8 b9) 0xF0) 4)) g3)
  else g3.

Definition int_max_joycon : joycon := set_num_samples INT_MAX (joycon_zalloc 1).

Definition int_max_world : world := initial_world {[ 1%nat := int_max_joycon ]} [].

(** An input report with every button bit clear, behind a header with
    command [0x92]. *)
Definition idle_report : list byte :=
  [x19; x01; x03; x00; x00; x92; x00; x00; x00; x00; x00; x00;
   x30; x00; x00; x00; x00; x00; x00; x00; x00; x00; x00; x00].

(** A session identified as the left half. *)
Definition left_joycon (sd : nat) : joycon :=
  set_button_set JOYCON_BUTTONSET_LEFT (ready_joycon sd).

(** A session identified as the right half. *)
Definition right_joycon (sd : nat) : joycon :=
  set_button_set JOYCON_BUTTONSET_RIGHT (ready_joycon sd).

(** The left half on device 1 and the right half on device 2. *)
Definition pair_world : world :=
  initial_world (<[ 1%nat := left_joycon 1 ]> {[ 2%nat := right_joycon 2 ]}) [].

(** An input report whose Y bytes (payload offsets 8 and 11) are zero. *)
Definition y_zero_report : list byte :=
  [x19; x01; x03; x00; x00; x92; x00; x00; x00; x00; x00; x00;
   x30; x00; x00; x00; x00; x00; x80; x07; x00; x80; x07; x00].

(** Input reports: every bit of [JOYCON_BUTTONS_LEFT] set, every bit of
    [JOYCON_BUTTONS_RIGHT] set, and bit 13 ([JOYCON_BUTTON_SCREENSHOT])
    alone. *)
Definition all_left_report : list byte :=
  [x19; x01; x03; x00; x00; x92; x00; x00; x00; x00; x00; x00;
   x30; x00; x00; x00; xe9; xff; x00; x08; x80; x00; x08; x80].
Definition all_right_report : list byte :=
  [x19; x01; x03; x00; x00; x92; x00; x00; x00; x00; x00; x00;
   x30; x00; x00; xff; x76; x00; x00; x08; x80; x00; x08; x80].
Definition screenshot_report : list byte :=
  [x19; x01; x03; x00; x00; x92; x00; x00; x00; x00; x00; x00;
   x30; x00; x00; x00; x20; x00; x00; x08; x80; x00; x08; x80].

(** Identifier replies: command [0x94], sub-command [0x01], the identifier
    in payload bytes 7 to 12.  The first identifier byte is the last of
    them. *)
Definition mac_reply (first : byte) : list byte :=
  [x19; x01; x03; x0f; x00; x94;
   x01; x00; x00; x00; x00; x00; x00; x66; x55; x44; x33; x22; first].

(** Two freshly probed sessions, and the identifier replies that make
    device 1 the left half and device 2 the right half. *)
Definition two_fresh_world : world :=
  initial_world (<[ 1%nat := joycon_zalloc 1 ]> {[ 2%nat := joycon_zalloc 2 ]}) [].

Definition identify_pair : M unit :=
  joycon_serdev_receive_buf 1 (mac_reply x32) 0 ;;;
  joycon_serdev_receive_buf 2 (mac_reply x7c) 0 ;;;
  ret tt.

(** The key events of one pass over [codes], the first of them for bit [i]. *)
Definition key_events (b : Z) (i : Z) (codes : list Z) : list event :=
  imap (fun k code => InputReportKey code (int32 (Z.land b (BIT (i + Z.of_nat k)))))
    codes.

(** An answer that delivers nothing. *)
Definition answer (e : Z) : env_resp := {| err := e; rx := [] |}.

(** The world in which a run stopped, if it did not fault. *)
Definition outcome {A} (r : result A) : option world :=
  match r with
  | Done _ w => Some w
  | Blocked w => Some w
  | Fault => None
  end.

(** Two ways in which a later world extends an earlier one: nothing
    observed is taken back, and no answer is given back to the script. *)
Definition trace_ext (w w' : world) : Prop :=
  exists t, trace w' = trace w ++ t.

Definition script_le (w w' : world) : Prop :=
  (length (script w') <= length (script w))%nat.

(** A relation between worlds that every step of driver code respects. *)
Class WorldOrder (R : world -> world -> Prop) : Prop := {
  wo_refl : forall w, R w w;
  wo_trans : forall w1 w2 w3, R w1 w2 -> R w2 w3 -> R w1 w3;
  wo_sessions : forall w m, R w (set_sessions m w);
  wo_glob : forall w g, R w (set_glob g w);
  wo_trace : forall w e, R w (set_trace (trace w ++ [e]) w);
  wo_script : forall w r s, script w = r :: s -> R w (set_script s w)
}.

(** [c] only ever moves the world along [R]. *)
Definition stable (R : world -> world -> Prop) {A} (c : M A) : Prop :=
  forall w w', outcome (c w) = Some w' -> R w w'.

(** The line [timeout_handler] logs on entry. *)
Definition timeout_log (j : joycon) : event :=
  Printk (LogTimeout (timeout_samples j) (num_samples j)
            (int32 (num_samples j - timeout_samples j))).

(** The world at the top of the handshake loop: the entry line logged and
    both flags of the session cleared. *)
Definition restarted (sd : nat) (j : joycon) (w : world) : world :=
  set_sessions (<[sd := set_initialized false (set_handshaken false j)]> (sessions w))
    (set_trace (trace w ++ [timeout_log j]) w).

(** The transport times out on the first write: [-ETIMEDOUT]. *)
Definition write_times_out : list env_resp := [answer (-110)].

(** One turn of the loop during which nothing is received. *)
Definition retry_round : list env_resp := [quiet; quiet; quiet].

(** One turn during whose sleep the handshake reply arrives. *)
Definition ack_round (sd : nat) : list env_resp :=
  [quiet; quiet; {| err := 0; rx := [RxFrame sd handshake_ack 0] |}].

Definition round_trace (sd : nat) : list event :=
  [SerdevWrite sd magic_start 200; SerdevWrite sd handshake_start 200;
   UsleepRange 180000 200000].

(** The answers to one run that handshakes at once and initialises. *)
Definition handshake_answers : list env_resp :=
  ack_round 1 ++ [answer 0; answer 0; answer 0; answer 0].

(** A session is brought up, receives one input report, passes one check,
    stalls, and is brought up again by the next check. *)
Definition recovery_run : M unit :=
  timeout_handler 1 ;;;
  joycon_serdev_receive_buf 1 idle_report 0 ;;;
  timeout_handler 1 ;;;
  timeout_handler 1.

Definition recovery_world : world :=
  set_script (handshake_answers ++ handshake_answers) fresh_world.

(** The same, except that the first write of the recovery times out; one
    more input report arrives afterwards. *)
Definition failed_recovery_run : M unit :=
  recovery_run ;;;
  joycon_serdev_receive_buf 1 idle_report 0 ;;;
  ret tt.

Definition failed_recovery_world : world :=
  set_script (handshake_answers ++ [answer (-110)]) fresh_world.

(** The session after the failed recovery and the late report. *)
Definition late_sample_joycon : joycon :=
  set_timeout_samples 1 (set_num_samples 2 (joycon_zalloc 1)).

(** A first run on a fresh session: the reply comes during the first
    sleep, and the second of the four requests times out. *)
Definition first_run_world : world :=
  set_script (ack_round 1 ++ [answer 0; answer (-110); answer 0; answer 0]) fresh_world.

(** The world in which that run leaves the loop. *)
Definition handshaken_world : world :=
  {| sessions := {[ 1%nat := set_handshaken true (joycon_zalloc 1) ]};
     glob := globals_init;
     trace := timeout_log (joycon_zalloc 1)
              :: round_trace 1 ++ [Printk LogGotHandshake; Printk LogSentHandshake];
     script := [answer 0; answer (-110); answer 0; answer 0] |}.

(** * Further definitions

    What the statements about whole runs of the driver are written with:
    the bytes a frame needs, the entry points the kernel calls, the
    worlds reachable through them and the invariants they keep. *)

(** ** The bytes a frame needs

    How many bytes of a payload [joycon_extret_parse] reads: the sub-type,
    for an input report the three button bytes, and the stick bytes of the
    sides the session owns. *)
Definition extret_need (bs : Z) (packet : list byte) : nat :=
  match packet !! 0%nat with
  | Some s =>
      if u8 s =? JOYCON_EXT_INPUT then
        if owns bs JOYCON_BUTTONSET_RIGHT then 12
        else if owns bs JOYCON_BUTTONSET_LEFT then 9
        else 6
      else 1
  | None => 1
  end.

(** The same for [joycon_initret_parse]: the copy loop starts at
    [packet[0xC]]. *)
Definition initret_need (packet : list byte) : nat :=
  match packet !! 0%nat with
  | Some s => if u8 s =? JOYCON_INIT_MAC then 13 else 1
  | None => 1
  end.

(** And for a whole buffer handed to [joycon_serdev_receive_buf]. *)
Definition frame_need (bs : Z) (buf : list byte) : nat :=
  match buf !! offsetof_command with
  | Some c =>
      if u8 c =? JOYCON_COMMAND_EXTRET then
        sizeof_joycon_uart_header + extret_need bs (drop sizeof_joycon_uart_header buf)
      else if u8 c =? JOYCON_COMMAND_INITRET then
        sizeof_joycon_uart_initial + 1
        + initret_need (drop (sizeof_joycon_uart_initial + 1) buf)
      else 6
  | None => 6
  end.

(** ** Frames that change the state

    The three kinds of frame whose handling writes to a session or to the
    globals: a handshake reply, an input report and an identifier reply. *)
Definition changes_state (buf : list byte) : bool :=
  match buf !! offsetof_command with
  | Some c =>
      (u8 c =? JOYCON_COMMAND_HANDSHAKE)
      || ((u8 c =? JOYCON_COMMAND_EXTRET)
          && match buf !! sizeof_joycon_uart_header with
             | Some s => u8 s =? JOYCON_EXT_INPUT
             | None => false
             end)
      || ((u8 c =? JOYCON_COMMAND_INITRET)
          && match buf !! (sizeof_joycon_uart_initial + 1)%nat with
             | Some s => u8 s =? JOYCON_INIT_MAC
             | None => false
             end)
  | None => false
  end.

(** What the handling of any other frame leaves in the trace. *)
Definition ignored_trace (sd : nat) (buf : list byte) : list event :=
  match buf !! offsetof_command with
  | Some c =>
      if u8 c =? JOYCON_COMMAND_EXTRET then
        match buf !! sizeof_joycon_uart_header with
        | Some s => [Printk (LogUnknownExtret (u8 s))]
        | None => []
        end
      else if u8 c =? JOYCON_COMMAND_INITRET then
        match buf !! (sizeof_joycon_uart_initial + 1)%nat with
        | Some s =>
            if (u8 s =? JOYCON_INIT_UNK1) || (u8 s =? JOYCON_INIT_UNK2)
               || (u8 s =? JOYCON_INIT_UNK3) then []
            else if u8 s =? JOYCON_INIT_BAUDRATE then
              [SerdevSetBaudrate sd 3125000; Printk LogBaudrateShifted]
            else [Printk (LogUnknownInitret (u8 s))]
        | None => []
        end
      else [Printk (LogUnknownCommand (u8 c))]
  | None => []
  end.

(** ** Stick values *)

(** [((hi & 0x0F) << 4) | ((lo & 0xF0) >> 4)] *)
Definition stick_x (lo hi : byte) : Z :=
  Z.lor (Z.shiftl (Z.land (u8 hi) 0x0F) 4) (Z.shiftr (Z.land (u8 lo) 0xF0) 4).

(** [256 - b] *)
Definition stick_y (b : byte) : Z := 256 - u8 b.

(** ** Weakest preconditions

    [wp c Q B w]: run from [w], [c] returns some [a] in a world satisfying
    [Q a], or stays in a blocking call in a world satisfying [B], or
    faults. *)
Definition wp {A} (c : M A) (Q : A -> world -> Prop) (B : world -> Prop) (w : world) : Prop :=
  match c w with
  | Done a w' => Q a w'
  | Blocked w' => B w'
  | Fault => True
  end.

Definition triple {A} (P : world -> Prop) (c : M A) (Q : A -> world -> Prop)
    (B : world -> Prop) : Prop :=
  forall w, P w -> wp c Q B w.

(** ** Invariants

    A property of the world given by a property of each of its parts; the
    one of the trace depends on whether [joycon_input_lock] is held. *)
Definition holds (J : gmap nat joycon -> Prop) (G : globals -> Prop)
    (T : bool -> list event -> Prop) (E : list env_resp -> Prop)
    (h : bool) (w : world) : Prop :=
  J (sessions w) /\ G (glob w) /\ T h (trace w) /\ E (script w).

(** [c] takes a world in which the invariant holds with the lock in state
    [h] to one in which it holds with the lock in state [h']; a blocking
    call is only entered with the lock free. *)
Definition moves (J : gmap nat joycon -> Prop) (G : globals -> Prop)
    (T : bool -> list event -> Prop) (E : list env_resp -> Prop)
    {A} (h h' : bool) (c : M A) : Prop :=
  triple (holds J G T E h) c (fun _ => holds J G T E h') (holds J G T E false).

(** The frames the works write. *)
Definition driver_frames : list (list byte) :=
  [magic_start; handshake_start; get_mac; unk_1; unk_2; unk_3; controller_status].

(** The delay each work queues itself with. *)
Definition period (wk : work) : Z :=
  match wk with
  | work_timeout_poll _ => 200
  | work_input_poll _ => 16
  | work_sync_poll => 10
  end.

(** What an invariant has to be closed under for the receive path to keep
    it: each store the path makes to the session of a device in [D], each
    store to the globals, each action it appends to the trace. *)
Class RxInvariant (D : nat -> Prop) (J : gmap nat joycon -> Prop) (G : globals -> Prop)
    (T : bool -> list event -> Prop) : Prop := {
  rx_buttons : forall m sd j b3 b4 b5,
    D sd -> m !! sd = Some j -> J m ->
    J (<[sd := set_joycon_buttons (report_buttons b3 b4 b5) j]> m);
  rx_sample : forall m sd j n,
    D sd -> m !! sd = Some j -> J m -> J (<[sd := set_num_samples n j]> m);
  rx_mac : forall m sd j i b,
    D sd -> (i < 6)%nat -> m !! sd = Some j -> J m ->
    J (<[sd := set_mac (<[i := b]> (mac j)) j]> m);
  rx_side : forall m sd j (left : bool),
    D sd -> m !! sd = Some j -> J m ->
    J (<[sd := set_button_set
                (if left then JOYCON_BUTTONSET_LEFT else JOYCON_BUTTONSET_RIGHT) j]> m);
  rx_handshaken : forall m sd j,
    D sd -> m !! sd = Some j -> J m -> J (<[sd := set_handshaken true j]> m);
  rx_clear : forall g (left : bool),
    G g ->
    G (set_buttons
         (Z.land (buttons g)
            (u32 (Z.lnot (if left then JOYCON_BUTTONS_LEFT else JOYCON_BUTTONS_RIGHT)))) g);
  rx_merge : forall g jb (left : bool),
    G g ->
    G (set_buttons
         (Z.lor (buttons g)
            (Z.land jb (if left then JOYCON_BUTTONS_LEFT else JOYCON_BUTTONS_RIGHT))) g);
  rx_stick_lx : forall g lo hi, G g -> G (set_stick_lx (stick_x lo hi) g);
  rx_stick_ly : forall g b, G g -> G (set_stick_ly (stick_y b) g);
  rx_stick_rx : forall g lo hi, G g -> G (set_stick_rx (stick_x lo hi) g);
  rx_stick_ry : forall g b, G g -> G (set_stick_ry (stick_y b) g);
  rx_lock : forall t, T false t -> T true (t ++ [MutexLock joycon_input_lock]);
  rx_unlock : forall t, T true t -> T false (t ++ [MutexUnlock joycon_input_lock]);
  rx_printk : forall t m, T false t -> T false (t ++ [Printk m]);
  rx_warn : forall t, T false t -> T false (t ++ [WarnOn]);
  rx_baudrate : forall t sd, T false t -> T false (t ++ [SerdevSetBaudrate sd 3125000]);
  rx_stray : forall t sd i b,
    ~ (0 <= i < 6) -> T false t -> T false (t ++ [StoreOutsideMac sd i b])
}.

(** The same for the blocking calls of the works ... *)
Class BlockingInvariant (T : bool -> list event -> Prop)
    (E : list env_resp -> Prop) : Prop := {
  bl_write : forall t sd data,
    In data driver_frames -> T false t -> T false (t ++ [SerdevWrite sd data 200]);
  bl_sleep : forall t, T false t -> T false (t ++ [UsleepRange 180000 200000]);
  bl_answer : forall r s, E (r :: s) -> E s
}.

(** ... and for the works themselves. *)
Class WorkInvariant (J : gmap nat joycon -> Prop) (G : globals -> Prop)
    (T : bool -> list event -> Prop) (E : list env_resp -> Prop) : Prop := {
  wk_rx :: RxInvariant (fun _ => True) J G T;
  wk_blocking :: BlockingInvariant T E;
  wk_restart : forall m sd j,
    m !! sd = Some j -> J m ->
    J (<[sd := set_initialized false (set_handshaken false j)]> m);
  wk_init : forall m sd j,
    m !! sd = Some j -> handshaken j = true -> J m ->
    J (<[sd := set_initialized true (set_num_samples 0 j)]> m);
  wk_timeout_samples : forall m sd j n,
    m !! sd = Some j -> J m -> J (<[sd := set_timeout_samples n j]> m);
  wk_queue : forall t wk, T false t -> T false (t ++ [QueueDelayedWork wk (period wk)]);
  wk_input_key : forall t g i code,
    joycon_common_btn !! i = Some code -> 0 <= code ->
    G g -> T true t ->
    T true (t ++ [InputReportKey code (int32 (Z.land (buttons g) (BIT (Z.of_nat i))))]);
  wk_input_abs : forall t g axis v,
    In (axis, v) [(ABS_X, stick_lx g); (ABS_Y, stick_ly g);
                  (ABS_RX, stick_rx g); (ABS_RY, stick_ry g)] ->
    G g -> T true t -> T true (t ++ [InputReportAbs axis v]);
  wk_input_sync : forall t, T true t -> T true (t ++ [InputSync])
}.

(** [J] together with: the session of [sd], if any, is handshaken. *)
Definition and_handshaken (J : gmap nat joycon -> Prop) (sd : nat) :
    gmap nat joycon -> Prop :=
  fun m => J m /\ forall j, m !! sd = Some j -> handshaken j = true.

(** A property of every session of a table. *)
Definition every_session (P : nat -> joycon -> Prop) (m : gmap nat joycon) : Prop :=
  forall sd j, m !! sd = Some j -> P sd j.

(** ** Entry points

    What the kernel calls into: the receive callback of the serial core
    and the three works. *)
Inductive entry : Type :=
| receive_buf_call (sd : nat) (buf : list byte) (j0 : Z)
| timeout_work (sd : nat)
| input_work (sd : nat)
| sync_work.

Definition enter (e : entry) : M unit :=
  match e with
  | receive_buf_call sd buf j0 => joycon_serdev_receive_buf sd buf j0 ;;; ret tt
  | timeout_work sd => timeout_handler sd
  | input_work sd => input_handler sd
  | sync_work => sync_handler
  end.

(** The worlds the driver can be in, started in [w0]: entry points are
    called one after the other, each against the answers [s] the
    environment gives to its blocking calls; a call returns, or stays in a
    blocking call that is not answered. *)
Inductive reachable (w0 : world) : world -> Prop :=
| reach_start : reachable w0 w0
| reach_call (w w' : world) (e : entry) (s : list env_resp) :
    reachable w0 w ->
    outcome (enter e (set_script s w)) = Some w' ->
    reachable w0 w'.

(** ** What the driver keeps true *)

(** Of a session: it is bound to the device it is the driver data of, it
    is not initialized without being handshaken, it owns at most one side,
    its button word has 24 bits and its identifier six bytes. *)
Definition joycon_ok (sd : nat) (j : joycon) : Prop :=
  serdev j = sd
  /\ (initialized j = true -> handshaken j = true)
  /\ (button_set j = 0 \/ button_set j = JOYCON_BUTTONSET_LEFT
      \/ button_set j = JOYCON_BUTTONSET_RIGHT)
  /\ 0 <= joycon_buttons j < 2 ^ 24
  /\ length (mac j) = 6%nat.

(** Of the globals: the merged word has 24 bits, the X values 8 bits, the
    Y values lie between 0 and 256. *)
Definition globals_ok (g : globals) : Prop :=
  0 <= buttons g < 2 ^ 24
  /\ 0 <= stick_lx g <= 255 /\ 0 <= stick_ly g <= 256
  /\ 0 <= stick_rx g <= 255 /\ 0 <= stick_ry g <= 256.

(** Of an input event: a key event is for a code of the table and carries
    0 or the weight of the code's bit, an axis event is for one of the four
    axes and carries a value between 0 and 256. *)
Definition input_ok (e : event) : Prop :=
  match e with
  | InputReportKey code v =>
      exists i, (i < 24)%nat /\ joycon_common_btn !! i = Some code
                /\ (v = 0 \/ v = 2 ^ Z.of_nat i)
  | InputReportAbs axis v => In axis [ABS_X; ABS_Y; ABS_RX; ABS_RY] /\ 0 <= v <= 256
  | _ => True
  end.

(** The state of [joycon_input_lock] after an action, [None] once the
    discipline is broken: the lock is taken when free and released when
    held, no other mutex is used, input events are reported with the lock
    held and nothing else is done while it is. *)
Definition lock_step (held : option bool) (e : event) : option bool :=
  match held with
  | None => None
  | Some true =>
      match e with
      | MutexUnlock joycon_input_lock => Some false
      | InputReportKey _ _ | InputReportAbs _ _ | InputSync => Some true
      | _ => None
      end
  | Some false =>
      match e with
      | MutexLock joycon_input_lock => Some true
      | MutexLock _ | MutexUnlock _ => None
      | InputReportKey _ _ | InputReportAbs _ _ | InputSync => None
      | _ => Some false
      end
  end.

Definition lock_state (t : list event) : option bool := fold_left lock_step t (Some false).

(** Of a request to the transport or to the work queue: a write carries
    one of the seven constant frames and a timeout of 200 ms, the only baud
    rate set is 3125000, the only sleep is the one of the handshake loop,
    and a work is queued with the delay of its kind. *)
Definition io_ok (e : event) : Prop :=
  match e with
  | SerdevWrite _ data ms => In data driver_frames /\ ms = 200
  | SerdevSetBaudrate _ rate => rate = 3125000
  | UsleepRange lo hi => lo = 180000 /\ hi = 200000
  | QueueDelayedWork wk ms => ms = period wk
  | _ => True
  end.

(** What the receive path appends to the trace: log lines, the warning,
    the lock and its release, the baud rate, a store outside [mac]. *)
Definition rx_event (e : event) : Prop :=
  match e with
  | Printk _ | WarnOn | MutexLock _ | MutexUnlock _
  | SerdevSetBaudrate _ _ | StoreOutsideMac _ _ _ => True
  | _ => False
  end.

(** What a delivery may change in the session it is for: the button word,
    the sample counter, the identifier, the side, and [handshaken] from
    false to true. *)
Definition rx_session (j j' : joycon) : Prop :=
  serdev j' = serdev j
  /\ initialized j' = initialized j
  /\ timeout_samples j' = timeout_samples j
  /\ (handshaken j = true -> handshaken j' = true)
  /\ length (mac j') = length (mac j).

(** What a delivery for device [sd] may change in a table of sessions:
    nothing but the session of [sd], and that one as [rx_session] says. *)
Definition rx_footprint (sd : nat) (m0 m : gmap nat joycon) : Prop :=
  (forall sd', sd' <> sd -> m !! sd' = m0 !! sd')
  /\ (forall j, m0 !! sd = Some j -> exists j', m !! sd = Some j' /\ rx_session j j').

(** ** Example runs *)

(** Entry points called one after the other, each with the answers its
    blocking calls get. *)
Fixpoint run_calls (calls : list (entry * list env_resp)) (w : world) : option world :=
  match calls with
  | [] => Some w
  | (e, s) :: calls' =>
      match outcome (enter e (set_script s w)) with
      | Some w' => run_calls calls' w'
      | None => None
      end
  end.

(** Device 1 is brought up by the liveness work, identifies itself as the
    left half and reports all its buttons; the status poll and the output
    sync run once each; a second liveness run gets no answer. *)
Definition example_calls : list (entry * list env_resp) :=
  [(timeout_work 1, handshake_answers);
   (receive_buf_call 1 (mac_reply x32) 0, []);
   (receive_buf_call 1 all_left_report 0, []);
   (input_work 1, [quiet]);
   (sync_work, []);
   (receive_buf_call 2 idle_report 0, []);
   (timeout_work 1, [])].

(** ** Deliveries whose copy index starts at 0

    The local [j] of [joycon_initret_parse] is read before it is assigned.
    When it holds 0 on entry the copy loop stores to [mac[0]] .. [mac[5]]
    and once to [mac[6]], a padding byte of [struct joycon] ([mac] is the
    last member and occupies bytes 48 to 53 of the 56 the structure has on a
    64-bit kernel).  With another value the stores land on other members
    of the session, or outside it; [mac_store] does not follow those. *)
Definition index_zeroed (e : entry) : Prop :=
  match e with
  | receive_buf_call _ _ j0 => j0 = 0
  | _ => True
  end.

(** The worlds reached by calls whose copy index starts at 0. *)
Inductive reachable_zeroed (w0 : world) : world -> Prop :=
| reachz_start : reachable_zeroed w0 w0
| reachz_call (w w' : world) (e : entry) (s : list env_resp) :
    reachable_zeroed w0 w ->
    index_zeroed e ->
    outcome (enter e (set_script s w)) = Some w' ->
    reachable_zeroed w0 w'.

(** ** The merge, bit by bit *)

(** The bits of the merged word a session with button set [bs] writes. *)
Definition owned_mask (bs : Z) : Z :=
  Z.lor (if owns bs JOYCON_BUTTONSET_LEFT then JOYCON_BUTTONS_LEFT else 0)
        (if owns bs JOYCON_BUTTONSET_RIGHT then JOYCON_BUTTONS_RIGHT else 0).

(** Bit [n] of the merged word after a report with button word [jb] from
    such a session, [old] being the merged word before. *)
Definition merged_bit (bs jb old : Z) (n : Z) : bool :=
  if Z.testbit (owned_mask bs) n then Z.testbit jb n else Z.testbit old n.

(** An input report: a 12-byte header with command [0x92], the sub-type
    [0x30], two bytes that are not read, three button bytes and six stick
    bytes. *)
Definition input_report (hdr : list byte) (b1 b2 b3 b4 b5 b6 b7 b8 b9 b10 b11 : byte)
    (tail : list byte) : list byte :=
  hdr ++ x30 :: b1 :: b2 :: b3 :: b4 :: b5 :: b6 :: b7 :: b8 :: b9 :: b10 :: b11 :: tail.

(** All 256 bytes. *)
Definition all_bytes : list byte :=
  omap (fun n => Byte.of_N (N.of_nat n)) (seq 0 256).

(** A session that was brought up, received five reports and then none
    between two runs of the liveness work. *)
Definition stalled_joycon : joycon :=
  set_num_samples 5 (set_timeout_samples 5 (ready_joycon 1)).

Definition stalled_world : world := initial_world {[ 1%nat := stalled_joycon ]} [].

(** * Binding and unbinding a device

    [joycon_serdev_probe] and [joycon_serdev_remove] work on more than the
    handlers do: the file-scope pointer [input_dev] and the input device
    behind it, and the services of the kernel that allocate, register and
    free.  The handlers' world is one component of the state. *)

Delimit Scope string_scope with string.

(** Values of [linux/input.h], [linux/input-event-codes.h] and
    [errno-base.h]. *)
Definition BUS_VIRTUAL : Z := 0x06.
Definition EV_KEY : Z := 0x01.
Definition EV_ABS : Z := 0x03.
Definition ENOMEM : Z := 12.

(** [BIT_MASK(nr)], that is [1UL << (nr % BITS_PER_LONG)], on a 64-bit
    kernel. *)
Definition BIT_MASK (nr : Z) : Z := Z.shiftl 1 (nr mod 64).

(** [struct input_id] *)
Record input_id : Type := InputId {
  bustype : Z;
  vendor : Z;
  product : Z;
  version : Z
}.

(** [struct input_dev]: the members the driver stores to, the parameters
    given for each axis (minimum, maximum, fuzz, flat), and what has become
    of the device: whether it is registered, and whether the driver has
    given up its reference to it (after which the device may be gone). *)
Record input_device : Type := InputDevice {
  in_name : option String.string;
  in_id : input_id;
  in_parent : option nat;
  evbit0 : Z;
  keybit : gset Z;
  absinfo : gmap Z (Z * Z * Z * Z);
  registered : bool;
  released : bool
}.

(** The device [input_allocate_device] returns: zeroed. *)
Definition input_device_zalloc : input_device :=
  {| in_name := None; in_id := InputId 0 0 0 0; in_parent := None; evbit0 := 0;
     keybit := ∅; absinfo := ∅; registered := false; released := false |}.

Definition set_in_name (v : String.string) (d : input_device) : input_device :=
  {| in_name := Some v; in_id := in_id d; in_parent := in_parent d; evbit0 := evbit0 d;
     keybit := keybit d; absinfo := absinfo d; registered := registered d;
     released := released d |}.
Definition set_in_id (v : input_id) (d : input_device) : input_device :=
  {| in_name := in_name d; in_id := v; in_parent := in_parent d; evbit0 := evbit0 d;
     keybit := keybit d; absinfo := absinfo d; registered := registered d;
     released := released d |}.
Definition set_in_parent (sd : nat) (d : input_device) : input_device :=
  {| in_name := in_name d; in_id := in_id d; in_parent := Some sd; evbit0 := evbit0 d;
     keybit := keybit d; absinfo := absinfo d; registered := registered d;
     released := released d |}.
Definition set_evbit0 (v : Z) (d : input_device) : input_device :=
  {| in_name := in_name d; in_id := in_id d; in_parent := in_parent d; evbit0 := v;
     keybit := keybit d; absinfo := absinfo d; registered := registered d;
     released := released d |}.
Definition set_keybit (v : gset Z) (d : input_device) : input_device :=
  {| in_name := in_name d; in_id := in_id d; in_parent := in_parent d; evbit0 := evbit0 d;
     keybit := v; absinfo := absinfo d; registered := registered d; released := released d |}.
Definition set_absinfo (v : gmap Z (Z * Z * Z * Z)) (d : input_device) : input_device :=
  {| in_name := in_name d; in_id := in_id d; in_parent := in_parent d; evbit0 := evbit0 d;
     keybit := keybit d; absinfo := v; registered := registered d; released := released d |}.
Definition set_registered (v : bool) (d : input_device) : input_device :=
  {| in_name := in_name d; in_id := in_id d; in_parent := in_parent d; evbit0 := evbit0 d;
     keybit := keybit d; absinfo := absinfo d; registered := v; released := released d |}.
Definition set_released (v : bool) (d : input_device) : input_device :=
  {| in_name := in_name d; in_id := in_id d; in_parent := in_parent d; evbit0 := evbit0 d;
     keybit := keybit d; absinfo := absinfo d; registered := registered d; released := v |}.

(** What the binding code asks of the kernel, in order.  [Handler] is an
    action the handlers perform too; [BindPrintk] carries the line without
    its newline. *)
Inductive bind_event : Type :=
| Handler (e : event)
| BindPrintk (msg : String.string)
| DevmKzalloc (sd : nat)
| InputAllocateDevice
| InputRegisterDevice
| InputUnregisterDevice
| InputFreeDevice
| Kmalloc (wk : work)
| Kfree (joycon : option nat)
| SerdevDeviceOpen (sd : nat)
| SerdevDeviceSetFlowControl (sd : nat) (enable : bool)
| SerdevDeviceSetClientOps (sd : nat).

(** What the kernel answers to one call of probe: whether each allocation
    succeeds, and what [input_register_device] returns. *)
Record probe_env : Type := ProbeEnv {
  devm_kzalloc_ok : bool;
  input_allocate_device_ok : bool;
  input_register_device_err : Z;
  kmalloc_sync_ok : bool;
  kmalloc_timeout_ok : bool;
  kmalloc_input_ok : bool
}.

(** All allocations succeed and the registration returns 0. *)
Definition all_ok : probe_env :=
  {| devm_kzalloc_ok := true; input_allocate_device_ok := true;
     input_register_device_err := 0; kmalloc_sync_ok := true;
     kmalloc_timeout_ok := true; kmalloc_input_ok := true |}.

(** The state: the handlers' world, the pointer [input_dev] with the
    device it points to ([None] is [NULL]; a released device is still
    pointed to), the devices whose session has been given to [kfree], and
    the calls made. *)
Record kernel : Type := Kernel {
  driver : world;
  input_dev : option input_device;
  freed_sessions : gset nat;
  calls : list bind_event
}.

Definition set_driver (w : world) (k : kernel) : kernel :=
  {| driver := w; input_dev := input_dev k; freed_sessions := freed_sessions k;
     calls := calls k |}.
Definition set_input_dev (d : option input_device) (k : kernel) : kernel :=
  {| driver := driver k; input_dev := d; freed_sessions := freed_sessions k;
     calls := calls k |}.
Definition set_freed_sessions (s : gset nat) (k : kernel) : kernel :=
  {| driver := driver k; input_dev := input_dev k; freed_sessions := s;
     calls := calls k |}.
Definition set_calls (c : list bind_event) (k : kernel) : kernel :=
  {| driver := driver k; input_dev := input_dev k; freed_sessions := freed_sessions k;
     calls := c |}.

(** The module just loaded: no session, zeroed globals, [input_dev] null. *)
Definition kernel_init : kernel :=
  {| driver := initial_world ∅ []; input_dev := None; freed_sessions := ∅; calls := [] |}.

(** The monad of the binding code; [None] is a null pointer dereference. *)
Definition K (A : Type) : Type := kernel -> option (A * kernel).

Definition kret {A} (a : A) : K A := fun k => Some (a, k).

Definition kbind {A B} (c : K A) (f : A -> K B) : K B :=
  fun k => match c k with
           | Some (a, k') => f a k'
           | None => None
           end.

Notation "'let+' x ':=' c 'in' k" := (kbind c (fun x => k))
  (at level 10, x name, c at level 100, k at level 200).
Notation "c ';;+' k" := (kbind c (fun _ => k))
  (at level 100, k at level 200, right associativity).

Definition kfault {A} : K A := fun _ => None.

Definition kcall (e : bind_event) : K unit :=
  fun k => Some (tt, set_calls (calls k ++ [e]) k).

(** The pointer [input_dev]: whether it is null. *)
Definition input_dev_is_set : K bool :=
  fun k => Some (bool_decide (is_Some (input_dev k)), k).

(** [input_dev->member = v], and any other access through the pointer. *)
Definition input_dev_update (f : input_device -> input_device) : K unit :=
  fun k => match input_dev k with
           | Some d => Some (tt, set_input_dev (Some (f d)) k)
           | None => None
           end.

(** [devm_kzalloc(&serdev->dev, sizeof(struct joycon), GFP_KERNEL)]: whether the
    result is not null. *)
Definition devm_kzalloc (env : probe_env) (sd : nat) : K bool :=
  kcall (DevmKzalloc sd) ;;+ kret (devm_kzalloc_ok env).

(** [input_dev = input_allocate_device()] *)
Definition input_allocate_device (env : probe_env) : K unit :=
  kcall InputAllocateDevice ;;+
  fun k => Some (tt, set_input_dev
                       (if input_allocate_device_ok env then Some input_device_zalloc
                        else None) k).

(** [__set_bit(code, input_dev->keybit)] *)
Definition set_bit_keybit (code : Z) : K unit :=
  input_dev_update (fun d => set_keybit ({[ code ]} ∪ keybit d) d).

(** [for (i = 0; joycon_common_btn[i] >= 0; i++)
       __set_bit(joycon_common_btn[i], input_dev->keybit);]
    over the entries of [tbl]; running off the table is a fault. *)
Fixpoint set_keybits (tbl : list Z) : K unit :=
  match tbl with
  | [] => kfault
  | code :: tbl' =>
      if 0 <=? code then set_bit_keybit code ;;+ set_keybits tbl'
      else kret tt
  end.

(** [input_set_abs_params(input_dev, axis, min, max, fuzz, flat)] *)
Definition input_set_abs_params (axis min max fuzz flat : Z) : K unit :=
  input_dev_update (fun d => set_absinfo (<[axis := (min, max, fuzz, flat)]> (absinfo d)) d).

(** [input_register_device(input_dev)]: the device is registered when the
    call returns 0. *)
Definition input_register_device (env : probe_env) : K Z :=
  kcall InputRegisterDevice ;;+
  (if input_register_device_err env =? 0 then input_dev_update (set_registered true)
   else kret tt) ;;+
  kret (input_register_device_err env).

(** [input_free_device(input_dev)]: the pointer is not reset. *)
Definition input_free_device : K unit :=
  kcall InputFreeDevice ;;+
  fun k => Some (tt, set_input_dev (set_released true <$> input_dev k) k).

(** [input_unregister_device(joycon->input_dev)].  Every session's
    [input_dev] member was copied from the file-scope pointer when that was
    not null, and the pointer is never assigned again once it is, so the
    member and the pointer name the same device.  The device is no longer
    registered and the driver's reference to it is dropped. *)
Definition input_unregister_device : K unit :=
  kcall InputUnregisterDevice ;;+
  input_dev_update (fun d => set_released true (set_registered false d)).

(** [work = kmalloc(size, GFP_KERNEL); INIT_DELAYED_WORK(&work->work,
    handler); queue_delayed_work(joycon_wq, &work->work, msecs_to_jiffies(ms))]:
    the result of [kmalloc] is used unchecked. *)
Definition start_work (ok : bool) (wk : work) (ms : Z) : K unit :=
  kcall (Kmalloc wk) ;;+
  (if ok then kret tt else kfault) ;;+
  kcall (Handler (QueueDelayedWork wk ms)).

(** [serdev_device_set_drvdata(serdev, joycon)], with [joycon->serdev]
    already stored. *)
Definition serdev_device_set_drvdata (sd : nat) (j : joycon) : K unit :=
  fun k => Some (tt, set_driver (set_sessions (<[sd := j]> (sessions (driver k)))
                                   (driver k)) k).

(** [kfree(joycon)]; [kfree(NULL)] does nothing. *)
Definition kfree (joycon : option nat) : K unit :=
  kcall (Kfree joycon) ;;+
  fun k => Some (tt, match joycon with
                     | Some sd => set_freed_sessions ({[ sd ]} ∪ freed_sessions k) k
                     | None => k
                     end).

(** The label [fail2:]. *)
Definition fail2 (joycon : option nat) (err : Z) : K Z :=
  kfree joycon ;;+ kret err.

(** The label [fail1:]. *)
Definition fail1 (sd : nat) (err : Z) : K Z :=
  input_free_device ;;+ fail2 (Some sd) err.

(** The label [input_exists:]. *)
Definition input_exists (env : probe_env) (sd : nat) : K Z :=
  serdev_device_set_drvdata sd (joycon_zalloc sd) ;;+
  kcall (SerdevDeviceOpen sd) ;;+
  kcall (SerdevDeviceSetFlowControl sd true) ;;+
  kcall (Handler (SerdevSetBaudrate sd 1000000)) ;;+
  kcall (BindPrintk "Brought baudrate up"%string) ;;+
  kcall (SerdevDeviceSetClientOps sd) ;;+
  start_work (kmalloc_timeout_ok env) (work_timeout_poll sd) 200 ;;+
  start_work (kmalloc_input_ok env) (work_input_poll sd) 200 ;;+
  kret 0.

(** [joycon_serdev_probe(serdev)] *)
Definition joycon_serdev_probe (env : probe_env) (sd : nat) : K Z :=
  kcall (BindPrintk "Joy-Con probe!"%string) ;;+
  let+ joycon := devm_kzalloc env sd in
  if negb joycon then fail2 None (- ENOMEM)
  else
    let+ exists_ := input_dev_is_set in
    if exists_ then input_exists env sd
    else
      input_allocate_device env ;;+
      let+ allocated := input_dev_is_set in
      if negb allocated then fail2 (Some sd) (- ENOMEM)
      else
        input_dev_update (set_in_name "Joy-Con Rails"%string) ;;+
        input_dev_update (set_in_id
          {| bustype := BUS_VIRTUAL; vendor := 0x057E; product := 0x2008;
             version := 0x0100 |}) ;;+
        input_dev_update (set_in_parent sd) ;;+
        input_dev_update (set_evbit0 (Z.lor (BIT_MASK EV_KEY) (BIT_MASK EV_ABS))) ;;+
        set_keybits joycon_common_btn ;;+
        input_set_abs_params ABS_X 32 (255 - 32) 0 4 ;;+
        input_set_abs_params ABS_Y 32 (255 - 32) 0 4 ;;+
        input_set_abs_params ABS_RX 32 (255 - 32) 0 4 ;;+
        input_set_abs_params ABS_RY 32 (255 - 32) 0 4 ;;+
        let+ err := input_register_device env in
        if negb (err =? 0) then fail1 sd err
        else
          start_work (kmalloc_sync_ok env) work_sync_poll 10 ;;+
          input_exists env sd.

(** [joycon_serdev_remove(serdev)].  The driver data is not reset and no
    work is cancelled. *)
Definition joycon_serdev_remove (sd : nat) : K unit :=
  let+ joycon := (fun k => Some (sessions (driver k) !! sd, k)) in
  kcall (BindPrintk "Joy-Con remove!"%string) ;;+
  match joycon with
  | None => kfault
  | Some _ =>
      input_unregister_device ;;+
      kfree (Some sd)
  end.

(** The device a first successful probe of [sd] registers. *)
Definition joycon_rails (sd : nat) : input_device :=
  {| in_name := Some "Joy-Con Rails"%string;
     in_id := {| bustype := BUS_VIRTUAL; vendor := 0x057E; product := 0x2008;
                 version := 0x0100 |};
     in_parent := Some sd;
     evbit0 := 0xA;
     keybit := list_to_set (take 24 joycon_common_btn);
     absinfo := list_to_map [(ABS_X, (32, 223, 0, 4)); (ABS_Y, (32, 223, 0, 4));
                             (ABS_RX, (32, 223, 0, 4)); (ABS_RY, (32, 223, 0, 4))];
     registered := true;
     released := false |}.

(** Whether a call queues a work. *)
Definition queues_work (e : bind_event) : bool :=
  match e with
  | Handler (QueueDelayedWork _ _) => true
  | _ => false
  end.

(** Whether a call allocates or registers an input device. *)
Definition makes_input_dev (e : bind_event) : bool :=
  match e with
  | InputAllocateDevice | InputRegisterDevice => true
  | _ => false
  end.

(** ** Closed forms for the binding code *)

Definition add_calls (c : list bind_event) (k : kernel) : kernel :=
  set_calls (calls k ++ c) k.

(** The state with the session of [sd] installed as its driver data. *)
Definition installed (sd : nat) (k : kernel) : kernel :=
  set_driver (set_sessions (<[sd := joycon_zalloc sd]> (sessions (driver k))) (driver k)) k.

(** The state with the session of [sd] given to [kfree]. *)
Definition session_freed (sd : nat) (k : kernel) : kernel :=
  set_freed_sessions ({[ sd ]} ∪ freed_sessions k) k.

(** The calls of probe up to the test of [input_dev]. *)
Definition probe_prologue (sd : nat) : list bind_event :=
  [BindPrintk "Joy-Con probe!"%string; DevmKzalloc sd].

(** The calls from the label [input_exists:] on. *)
Definition input_exists_calls (sd : nat) : list bind_event :=
  [SerdevDeviceOpen sd; SerdevDeviceSetFlowControl sd true;
   Handler (SerdevSetBaudrate sd 1000000);
   BindPrintk "Brought baudrate up"%string;
   SerdevDeviceSetClientOps sd;
   Kmalloc (work_timeout_poll sd);
   Handler (QueueDelayedWork (work_timeout_poll sd) 200);
   Kmalloc (work_input_poll sd);
   Handler (QueueDelayedWork (work_input_poll sd) 200)].

(** The statements from the label [input_exists:] on, in closed form. *)
Definition input_exists_result (env : probe_env) (sd : nat) (k : kernel) :
    option (Z * kernel) :=
  if kmalloc_timeout_ok env then
    if kmalloc_input_ok env then
      Some (0, add_calls (input_exists_calls sd) (installed sd k))
    else None
  else None.

(** [joycon_serdev_probe] in closed form, path by path. *)
Definition probe_result (env : probe_env) (sd : nat) (k : kernel) : option (Z * kernel) :=
  if negb (devm_kzalloc_ok env) then
    Some (- ENOMEM, add_calls (probe_prologue sd ++ [Kfree None]) k)
  else
    match input_dev k with
    | Some _ => input_exists_result env sd (add_calls (probe_prologue sd) k)
    | None =>
        if negb (input_allocate_device_ok env) then
          Some (- ENOMEM,
                session_freed sd
                  (add_calls (probe_prologue sd ++ [InputAllocateDevice; Kfree (Some sd)]) k))
        else if negb (input_register_device_err env =? 0) then
          Some (input_register_device_err env,
                session_freed sd
                  (set_input_dev (Some (set_released true
                                          (set_registered false (joycon_rails sd))))
                     (add_calls (probe_prologue sd
                                 ++ [InputAllocateDevice; InputRegisterDevice;
                                     InputFreeDevice; Kfree (Some sd)]) k)))
        else if kmalloc_sync_ok env then
          input_exists_result env sd
            (set_input_dev (Some (joycon_rails sd))
               (add_calls (probe_prologue sd
                           ++ [InputAllocateDevice; InputRegisterDevice;
                               Kmalloc work_sync_poll;
                               Handler (QueueDelayedWork work_sync_poll 10)]) k))
        else None
    end.

(** ** The whole driver

    One step of the whole driver: a device is bound, a device is unbound,
    or an entry point of the handlers is called.  Remove cancels no work and
    leaves the driver data in place, so the handlers of a device go on being
    called after its session was given to [kfree]; [step_enter] lets them
    run on the members the session had, whereas the code reads freed memory
    there.  What is stated over [driver_step] holds whatever the members of
    the sessions are: it is about [input_dev], the calls made and the codes
    reported.  What is stated about the members of sessions is stated over
    [live_step] below. *)
Inductive driver_step : kernel -> kernel -> Prop :=
| step_probe (env : probe_env) (sd : nat) (k k' : kernel) (r : Z) :
    joycon_serdev_probe env sd k = Some (r, k') -> driver_step k k'
| step_remove (sd : nat) (k k' : kernel) :
    joycon_serdev_remove sd k = Some (tt, k') -> driver_step k k'
| step_enter (e : entry) (s : list env_resp) (k : kernel) (w' : world) :
    outcome (enter e (set_script s (driver k))) = Some w' ->
    driver_step k (set_driver w' k).

(** The states the driver can be in after [k0]. *)
Inductive driver_reachable (k0 : kernel) : kernel -> Prop :=
| driver_start : driver_reachable k0 k0
| driver_next (k k' : kernel) :
    driver_reachable k0 k -> driver_step k k' -> driver_reachable k0 k'.

(** Whether a call starts the output sync work. *)
Definition starts_sync (e : bind_event) : bool :=
  match e with
  | Handler (QueueDelayedWork work_sync_poll _) => true
  | _ => false
  end.

(** Whether a call registers an input device. *)
Definition registers (e : bind_event) : bool :=
  match e with
  | InputRegisterDevice => true
  | _ => false
  end.

(** [joycon_serdev_remove] in closed form. *)
Definition remove_result (sd : nat) (k : kernel) : option (unit * kernel) :=
  match sessions (driver k) !! sd, input_dev k with
  | Some _, Some d =>
      Some (tt, session_freed sd
                  (set_input_dev (Some (set_released true (set_registered false d)))
                     (add_calls [BindPrintk "Joy-Con remove!"%string;
                                 InputUnregisterDevice; Kfree (Some sd)] k)))
  | _, _ => None
  end.

(** The input device is there but of no use: not registered. *)
Definition input_dev_dead (k : kernel) : Prop :=
  exists d, input_dev k = Some d /\ registered d = false.

(** The state after the first device, 1, is bound with every allocation
    succeeding. *)
Definition bound_kernel : kernel :=
  match joycon_serdev_probe all_ok 1 kernel_init with
  | Some (_, k) => k
  | None => kernel_init
  end.

(** The device an entry point is called for; the sync work is for none. *)
Definition entry_device (e : entry) : option nat :=
  match e with
  | receive_buf_call sd _ _ | timeout_work sd | input_work sd => Some sd
  | sync_work => None
  end.

(** One step of the driver in which no handler works on freed memory or
    stores outside a session: as [driver_step], but a handler is entered
    only for a device no session of which has been given to [kfree] (a
    device stays in [freed_sessions] when it is bound again), and with a
    copy index that starts at 0. *)
Inductive live_step : kernel -> kernel -> Prop :=
| live_probe (env : probe_env) (sd : nat) (k k' : kernel) (r : Z) :
    joycon_serdev_probe env sd k = Some (r, k') -> live_step k k'
| live_remove (sd : nat) (k k' : kernel) :
    joycon_serdev_remove sd k = Some (tt, k') -> live_step k k'
| live_enter (e : entry) (s : list env_resp) (k : kernel) (w' : world) :
    index_zeroed e ->
    (forall sd, entry_device e = Some sd -> sd ∉ freed_sessions k) ->
    outcome (enter e (set_script s (driver k))) = Some w' ->
    live_step k (set_driver w' k).

Inductive live_reachable (k0 : kernel) : kernel -> Prop :=
| live_start : live_reachable k0 k0
| live_next (k k' : kernel) :
    live_reachable k0 k -> live_step k k' -> live_reachable k0 k'.

(** The session of a device no session of which has been given to
    [kfree] is as [joycon_ok] says. *)
Definition live_session_ok (freed : gset nat) (sd : nat) (j : joycon) : Prop :=
  sd ∉ freed -> joycon_ok sd j.

(** What the handlers keep true, all together: of the sessions that have
    not been freed, of the globals and of the trace. *)
Definition driver_ok (k : kernel) : Prop :=
  every_session (live_session_ok (freed_sessions k)) (sessions (driver k))
  /\ globals_ok (glob (driver k))
  /\ Forall input_ok (trace (driver k))
  /\ lock_state (trace (driver k)) = Some false
  /\ Forall io_ok (trace (driver k)).

(** Whether a call registers an input device or starts the sync work. *)
Definition registers_or_starts (e : bind_event) : bool :=
  registers e || starts_sync e.

(** The registrations of an input device and the starts of the sync work,
    in the order they were made: none while [input_dev] is null; otherwise
    one registration, followed by one start of the sync work at 10 ms or by
    nothing. *)
Definition registered_once (k : kernel) : Prop :=
  match input_dev k with
  | None => filter registers_or_starts (calls k) = []
  | Some _ =>
      filter registers_or_starts (calls k) = [InputRegisterDevice]
      \/ filter registers_or_starts (calls k)
         = [InputRegisterDevice; Handler (QueueDelayedWork work_sync_poll 10)]
  end.

(** The state after device 1 is unbound again. *)
Definition unbound_kernel : kernel :=
  match joycon_serdev_remove 1 bound_kernel with
  | Some (_, k) => k
  | None => bound_kernel
  end.

(** The registration of the input device fails with [-EINVAL]; every
    allocation succeeds. *)
Definition registration_fails : probe_env :=
  {| devm_kzalloc_ok := true; input_allocate_device_ok := true;
     input_register_device_err := -22; kmalloc_sync_ok := true;
     kmalloc_timeout_ok := true; kmalloc_input_ok := true |}.

(** The state after device 1 is bound and the handlers have run
    [example_calls]. *)
Definition played_kernel : kernel :=
  set_driver (default (driver bound_kernel)
                (run_calls example_calls (driver bound_kernel))) bound_kernel.

(** Of an input event and an input device: the device has declared the
    code of a key event and the axis of an axis event. *)
Definition declared (d : input_device) (e : event) : Prop :=
  match e with
  | InputReportKey code _ => code ∈ keybit d
  | InputReportAbs axis _ => is_Some (absinfo d !! axis)
  | _ => True
  end.

(** The capabilities probe gives the input device. *)
Definition capabilities_set (d : input_device) : Prop :=
  evbit0 d = Z.lor (BIT_MASK EV_KEY) (BIT_MASK EV_ABS)
  /\ keybit d = list_to_set (take 24 joycon_common_btn)
  /\ absinfo d = list_to_map [(ABS_X, (32, 223, 0, 4)); (ABS_Y, (32, 223, 0, 4));
                              (ABS_RX, (32, 223, 0, 4)); (ABS_RY, (32, 223, 0, 4))].

(** * Properties *)

Arguments int32 : simpl never.
Arguments u32 : simpl never.

Ltac munfold :=
  unfold bind, ret, when, printk, mutex_lock, mutex_unlock, queue_delayed_work,
    emit, serdev_device_get_drvdata, joycon_get, joycon_set, glob_get, glob_set,
    rd, rd_byte, fault.

(** ** Machine integers *)

Lemma u8_range (b : byte) : 0 <= u8 b <= 255.
Proof.
  unfold u8. pose proof (Byte.to_N_bounded b) as H.
  split; [apply N2Z.is_nonneg|]. change 255 with (Z.of_N 255). now apply N2Z.inj_le.
Qed.

Lemma int32_id (z : Z) : INT_MIN <= z <= INT_MAX -> int32 z = z.
Proof.
  unfold int32, INT_MIN, INT_MAX. intros H.
  rewrite Z.mod_small by lia. lia.
Qed.

Lemma int32_sub_eq0 (a b : Z) :
  INT_MIN <= a <= INT_MAX -> INT_MIN <= b <= INT_MAX ->
  (int32 (a - b) =? 0) = (a =? b).
Proof.
  unfold int32, INT_MIN, INT_MAX. intros Ha Hb.
  destruct (Z.eqb_spec a b) as [->|Hne].
  - rewrite Z.sub_diag. reflexivity.
  - apply Z.eqb_neq. intros H.
    assert (Hm : (a - b + 2 ^ 31) mod 2 ^ 32 = 2 ^ 31) by lia.
    destruct (Z_lt_le_dec (a - b) (- 2 ^ 31)).
    + rewrite <- (Z.mod_add _ 1) in Hm by lia.
      rewrite Z.mod_small in Hm by lia. lia.
    + destruct (Z_lt_le_dec (a - b) (2 ^ 31)).
      * rewrite Z.mod_small in Hm by lia. lia.
      * rewrite <- (Z.mod_add _ (-1)) in Hm by lia.
        rewrite Z.mod_small in Hm by lia. lia.
Qed.

(** ** Frames: the bytes behind a header *)

Section Frames.
Context (hdr rest : list byte) (n : nat).
Hypothesis Hlen : length hdr = n.

Lemma frame_lookup (i : nat) : (hdr ++ rest) !! (n + i)%nat = rest !! i.
Proof. rewrite lookup_app_r by lia. f_equal. lia. Qed.

Lemma frame_drop (k : nat) : drop (n + k) (hdr ++ rest) = drop k rest.
Proof. apply drop_app_add'. now rewrite Hlen. Qed.

Lemma frame_length : length (hdr ++ rest) = (n + length rest)%nat.
Proof. rewrite length_app, Hlen. reflexivity. Qed.

End Frames.

(** ** Receiving a handshake reply *)

Lemma receive_handshake (w : world) (sd : nat) (j : joycon) (buf : list byte) (j0 : Z) :
  sessions w !! sd = Some j ->
  serdev j = sd ->
  buf !! offsetof_command = Some xa5 ->
  joycon_serdev_receive_buf sd buf j0 w =
    Done (int32 (Z.of_nat (length buf)))
      (set_sessions (<[sd := set_handshaken true j]> (sessions w))
         (set_trace (trace w ++ [Printk LogGotHandshake]) w)).
Proof.
  intros Hs Hsd Hc.
  unfold joycon_serdev_receive_buf, joycon_packet_parse. munfold.
  rewrite Hs, Hsd, Nat.eqb_refl. cbn [negb].
  rewrite Hc. simpl. rewrite Hs. reflexivity.
Qed.

Lemma set_handshaken_id (j : joycon) : handshaken j = true -> set_handshaken true j = j.
Proof. destruct j; simpl; intros ->; reflexivity. Qed.

(** C7.  A frame whose command byte is [0xA5] sets [handshaken] and touches
    nothing else: no other member of the session, no global, and the only
    thing observed is the log line, so no request is written to the
    transport.  On a session that is already handshaken (in particular one
    that is both handshaken and initialized) the session table is left as it
    was, and so a second reply after the first changes nothing either. *)
Theorem handshake_ack_once (w : world) (sd : nat) (j : joycon) (buf buf' : list byte) (j0 j0' : Z) :
  sessions w !! sd = Some j ->
  serdev j = sd ->
  buf !! offsetof_command = Some xa5 ->
  buf' !! offsetof_command = Some xa5 ->
  let w1 := set_sessions (<[sd := set_handshaken true j]> (sessions w))
              (set_trace (trace w ++ [Printk LogGotHandshake]) w) in
  joycon_serdev_receive_buf sd buf j0 w = Done (int32 (Z.of_nat (length buf))) w1
  /\ joycon_serdev_receive_buf sd buf' j0' w1 =
       Done (int32 (Z.of_nat (length buf')))
         (set_trace (trace w1 ++ [Printk LogGotHandshake]) w1)
  /\ (handshaken j = true -> sessions w1 = sessions w).
Proof.
  intros Hs Hsd Hc Hc' w1. split; [|split].
  - now apply receive_handshake.
  - assert (H1 : sessions w1 !! sd = Some (set_handshaken true j))
      by (subst w1; simpl; apply lookup_insert_eq).
    rewrite (receive_handshake w1 sd _ buf' j0' H1 Hsd Hc').
    rewrite set_handshaken_id by reflexivity.
    rewrite insert_id by exact H1. now destruct w1.
  - intros Hh. subst w1. simpl. rewrite set_handshaken_id by exact Hh.
    now apply insert_id.
Qed.

Lemma handshake_ack_once_witness :
  (sessions ready_world !! 1%nat = Some (ready_joycon 1)
   /\ serdev (ready_joycon 1) = 1%nat
   /\ handshake_ack !! offsetof_command = Some xa5
   /\ handshaken (ready_joycon 1) = true)
  /\ joycon_serdev_receive_buf 1 handshake_ack 0 ready_world =
       Done 12 (set_trace [Printk LogGotHandshake] ready_world)
  /\ joycon_serdev_receive_buf 1 handshake_ack 0
       (set_trace [Printk LogGotHandshake] ready_world) =
       Done 12 (set_trace [Printk LogGotHandshake; Printk LogGotHandshake] ready_world)
  /\ sessions (set_sessions (<[1%nat := set_handshaken true (ready_joycon 1)]>
                               (sessions ready_world))
                 (set_trace (trace ready_world ++ [Printk LogGotHandshake]) ready_world)) =
     sessions ready_world.
Proof.
  split; [repeat split; reflexivity|].
  destruct (handshake_ack_once ready_world 1 (ready_joycon 1)
              handshake_ack handshake_ack 0 0 eq_refl eq_refl eq_refl eq_refl)
    as (H1 & H2 & H3).
  split; [|split].
  - rewrite H1. vm_compute. reflexivity.
  - etransitivity; [|etransitivity; [exact H2|]]; vm_compute; reflexivity.
  - exact (H3 eq_refl).
Defined.

(** ** The receive callback, unfolded *)

Lemma receive_buf_eq (sd : nat) (buf : list byte) (j0 : Z) (w : world) :
  joycon_serdev_receive_buf sd buf j0 w =
    match sessions w !! sd with
    | None => Done 0 (set_trace (trace w ++ [WarnOn]) w)
    | Some j =>
        if negb (sd =? serdev j)%nat then Done 0 (set_trace (trace w ++ [WarnOn]) w)
        else match joycon_packet_parse sd buf (Z.of_nat (length buf)) j0 w with
             | Done _ w' => Done (int32 (Z.of_nat (length buf))) w'
             | Blocked w' => Blocked w'
             | Fault => Fault
             end
    end.
Proof.
  unfold joycon_serdev_receive_buf. munfold.
  destruct (sessions w !! sd) as [j|]; [|reflexivity].
  destruct (negb (sd =? serdev j)%nat); reflexivity.
Qed.

(** ** No validation of the magic or of the length byte *)

(** C2, counterexample.  The buffer [bad_magic_ack] does not start with
    [19 01 03], yet it is dispatched on its command byte and changes the
    session: [handshaken] goes from false to true. *)
Lemma bad_magic_is_dispatched :
  take 3 bad_magic_ack <> [x19; x01; x03]
  /\ sessions fresh_world !! 1%nat = Some (joycon_zalloc 1)
  /\ handshaken (joycon_zalloc 1) = false
  /\ joycon_serdev_receive_buf 1 bad_magic_ack 0 fresh_world =
       Done 6 (set_sessions {[ 1%nat := set_handshaken true (joycon_zalloc 1) ]}
                 (set_trace [Printk LogGotHandshake] fresh_world)).
Proof.
  split; [discriminate|]. split; [reflexivity|]. split; [reflexivity|].
  vm_compute. reflexivity.
Qed.

Lemma packet_parse_header_blind (w : world) (sd : nat) (hdr hdr' rest : list byte) (size j0 : Z) :
  length hdr = 5%nat ->
  length hdr' = 5%nat ->
  joycon_packet_parse sd (hdr ++ rest) size j0 w =
  joycon_packet_parse sd (hdr' ++ rest) size j0 w.
Proof.
  intros H H'. unfold joycon_packet_parse, bind, rd.
  change offsetof_command with (5 + 0)%nat.
  change (offsetof_data + 1)%nat with (5 + 2)%nat.
  change offsetof_data with (5 + 1)%nat.
  change sizeof_joycon_uart_header with (5 + 7)%nat.
  change (sizeof_joycon_uart_initial + 1)%nat with (5 + 1)%nat.
  rewrite !(frame_lookup hdr rest 5 H), !(frame_lookup hdr' rest 5 H').
  rewrite !(frame_drop hdr rest 5 H), !(frame_drop hdr' rest 5 H').
  reflexivity.
Qed.

(** C2, as the code has it.  The receive path looks at neither the magic
    nor the length byte: two buffers that differ only in their first five
    bytes are handled identically, whatever those bytes are.  The one check
    made before a buffer is parsed is on the driver data: a delivery for a
    device without driver data, or whose driver data is bound to another
    device, is dropped with a warning, return value 0 and no other change;
    every other delivery is passed whole to [joycon_packet_parse], whatever
    its bytes, and the callback then returns the length of the buffer. *)
Theorem receive_buf_header_blind (w : world) (sd : nat) (hdr hdr' rest : list byte) (j0 : Z) :
  (length hdr = 5%nat ->
   length hdr' = 5%nat ->
   joycon_serdev_receive_buf sd (hdr ++ rest) j0 w =
   joycon_serdev_receive_buf sd (hdr' ++ rest) j0 w)
  /\ (forall buf : list byte,
        sessions w !! sd = None
        \/ (exists j, sessions w !! sd = Some j /\ serdev j <> sd) ->
        joycon_serdev_receive_buf sd buf j0 w =
          Done 0 (set_trace (trace w ++ [WarnOn]) w))
  /\ (forall (buf : list byte) (j : joycon),
        sessions w !! sd = Some j ->
        serdev j = sd ->
        joycon_serdev_receive_buf sd buf j0 w =
          (joycon_packet_parse sd buf (Z.of_nat (length buf)) j0 ;;;
           ret (int32 (Z.of_nat (length buf)))) w).
Proof.
  split; [|split].
  - intros H H'. rewrite !receive_buf_eq.
    rewrite (frame_length hdr rest 5 H), (frame_length hdr' rest 5 H').
    now rewrite (packet_parse_header_blind w sd hdr hdr' rest _ j0 H H').
  - intros buf [Hs|(j & Hs & Hne)]; rewrite receive_buf_eq, Hs; [reflexivity|].
    destruct (Nat.eqb_spec sd (serdev j)) as [E|_]; [congruence|reflexivity].
  - intros buf j Hs Hsd. rewrite receive_buf_eq, Hs, Hsd, Nat.eqb_refl.
    cbn [negb]. unfold bind, ret.
    destruct (joycon_packet_parse sd buf (Z.of_nat (length buf)) j0 w); reflexivity.
Qed.

Lemma receive_buf_header_blind_witness :
  (length (take 5 handshake_ack) = 5%nat
   /\ length (take 5 bad_magic_ack) = 5%nat
   /\ sessions fresh_world !! 2%nat = None
   /\ (sessions foreign_world !! 2%nat = Some (joycon_zalloc 1)
       /\ serdev (joycon_zalloc 1) <> 2%nat)
   /\ (sessions fresh_world !! 1%nat = Some (joycon_zalloc 1)
       /\ serdev (joycon_zalloc 1) = 1%nat))
  /\ joycon_serdev_receive_buf 1 (take 5 handshake_ack ++ [xa5]) 0 fresh_world =
     joycon_serdev_receive_buf 1 (take 5 bad_magic_ack ++ [xa5]) 0 fresh_world
  /\ joycon_serdev_receive_buf 2 handshake_ack 0 fresh_world =
       Done 0 (set_trace (trace fresh_world ++ [WarnOn]) fresh_world)
  /\ joycon_serdev_receive_buf 2 handshake_ack 0 foreign_world =
       Done 0 (set_trace (trace foreign_world ++ [WarnOn]) foreign_world)
  /\ joycon_serdev_receive_buf 1 bad_magic_ack 0 fresh_world =
       (joycon_packet_parse 1 bad_magic_ack 6 0 ;;; ret 6) fresh_world.
Proof.
  split; [repeat split; first [reflexivity|discriminate]|].
  pose proof (receive_buf_header_blind fresh_world 1
                (take 5 handshake_ack) (take 5 bad_magic_ack) [xa5] 0) as (H1 & _ & H3).
  pose proof (receive_buf_header_blind fresh_world 2
                (take 5 handshake_ack) (take 5 bad_magic_ack) [xa5] 0) as (_ & H2 & _).
  pose proof (receive_buf_header_blind foreign_world 2
                (take 5 handshake_ack) (take 5 bad_magic_ack) [xa5] 0) as (_ & H2' & _).
  split; [exact (H1 eq_refl eq_refl)|].
  split; [exact (H2 handshake_ack (or_introl eq_refl))|].
  split.
  - apply (H2' handshake_ack). right. exists (joycon_zalloc 1).
    split; [reflexivity|discriminate].
  - exact (H3 bad_magic_ack (joycon_zalloc 1) eq_refl eq_refl).
Defined.

(** ** Input reports *)

Ltac mrun H :=
  repeat first
    [ rewrite H
    | rewrite lookup_insert_eq
    | progress simpl ].

Lemma extret_input (w : world) (sd : nat) (j : joycon)
    (b1 b2 b3 b4 b5 b6 b7 b8 b9 b10 b11 : byte) (tail : list byte) (size : Z) :
  sessions w !! sd = Some j ->
  joycon_extret_parse sd
    (x30 :: b1 :: b2 :: b3 :: b4 :: b5 :: b6 :: b7 :: b8 :: b9 :: b10 :: b11 :: tail)
    size w =
  Done tt
    (set_sessions
       (<[sd := set_num_samples (int32 (num_samples j + 1))
                  (set_joycon_buttons (report_buttons b3 b4 b5) j)]> (sessions w))
       (set_glob
          (merged (button_set j) (report_buttons b3 b4 b5) b6 b7 b8 b9 b10 b11 (glob w))
          (set_trace
             (trace w ++ [MutexLock joycon_input_lock; MutexUnlock joycon_input_lock])
             w))).
Proof.
  intros Hs. destruct w as [m g t s]. simpl in Hs.
  unfold joycon_extret_parse, merged, owns, report_buttons. munfold.
  destruct (Z.land (button_set j) JOYCON_BUTTONSET_LEFT =? 0) eqn:HL;
  destruct (Z.land (button_set j) JOYCON_BUTTONSET_RIGHT =? 0) eqn:HR;
    mrun Hs; rewrite ?HL, ?HR; mrun Hs; rewrite ?HL, ?HR; mrun Hs;
    rewrite ?HL, ?HR; mrun Hs; rewrite ?HL, ?HR; mrun Hs;
    rewrite insert_insert_eq, <- app_assoc; reflexivity.
Qed.

(** The same for a session that owns no side, where the stick bytes are
    never read and need not be there. *)
Lemma extret_input_unowned (w : world) (sd : nat) (j : joycon)
    (b1 b2 b3 b4 b5 : byte) (tail : list byte) (size : Z) :
  sessions w !! sd = Some j ->
  Z.land (button_set j) JOYCON_BUTTONSET_LEFT = 0 ->
  Z.land (button_set j) JOYCON_BUTTONSET_RIGHT = 0 ->
  joycon_extret_parse sd (x30 :: b1 :: b2 :: b3 :: b4 :: b5 :: tail) size w =
  Done tt
    (set_sessions
       (<[sd := set_num_samples (int32 (num_samples j + 1))
                  (set_joycon_buttons (report_buttons b3 b4 b5) j)]> (sessions w))
       (set_trace
          (trace w ++ [MutexLock joycon_input_lock; MutexUnlock joycon_input_lock])
          w)).
Proof.
  intros Hs HL HR. destruct w as [m g t s]. simpl in Hs.
  unfold joycon_extret_parse, report_buttons. munfold.
  mrun Hs; rewrite ?HL, ?HR; mrun Hs; rewrite ?HL, ?HR; mrun Hs;
    rewrite ?HL, ?HR; mrun Hs; rewrite ?HL, ?HR; mrun Hs.
  rewrite insert_insert_eq, <- app_assoc. reflexivity.
Qed.

(** A frame is a 12-byte header followed by the payload. *)
Lemma receive_extret (w : world) (sd : nat) (j : joycon) (hdr payload : list byte) (j0 : Z) :
  sessions w !! sd = Some j ->
  serdev j = sd ->
  length hdr = sizeof_joycon_uart_header ->
  hdr !! offsetof_command = Some x92 ->
  exists size,
    joycon_serdev_receive_buf sd (hdr ++ payload) j0 w =
      match joycon_extret_parse sd payload size w with
      | Done _ w' => Done (int32 (Z.of_nat (length (hdr ++ payload)))) w'
      | Blocked w' => Blocked w'
      | Fault => Fault
      end.
Proof.
  intros Hs Hsd Hlen Hc.
  destruct (lookup_lt_is_Some_2 hdr offsetof_data) as [d0 Hd0];
    [rewrite Hlen; unfold sizeof_joycon_uart_header, offsetof_data; lia|].
  destruct (lookup_lt_is_Some_2 hdr (offsetof_data + 1)) as [d1 Hd1];
    [rewrite Hlen; unfold sizeof_joycon_uart_header, offsetof_data; lia|].
  exists (Z.lor (Z.shiftl (u8 d0) 8) (u8 d1)).
  rewrite receive_buf_eq, Hs, Hsd, Nat.eqb_refl. cbn [negb].
  unfold joycon_packet_parse, bind, rd.
  rewrite (lookup_app_l_Some _ _ _ _ Hc), (lookup_app_l_Some _ _ _ _ Hd0),
    (lookup_app_l_Some _ _ _ _ Hd1).
  change (u8 x92 =? JOYCON_COMMAND_EXTRET) with true. cbv iota.
  now rewrite (drop_app_length' hdr payload _ (eq_sym Hlen)).
Qed.

(** ** A session that owns no side *)

(** C10, counterexample.  With [num_samples] at [INT_MAX] the increment
    wraps: the counter goes to [INT_MIN], not up by one. *)
Lemma num_samples_wraps :
  sessions int_max_world !! 1%nat = Some int_max_joycon
  /\ button_set int_max_joycon = 0
  /\ num_samples int_max_joycon = 2147483647
  /\ joycon_serdev_receive_buf 1 idle_report 0 int_max_world =
       Done 24
         (set_sessions {[ 1%nat := set_num_samples (-2147483648) int_max_joycon ]}
            (set_trace [MutexLock joycon_input_lock; MutexUnlock joycon_input_lock]
               int_max_world)).
Proof.
  split; [reflexivity|]. split; [reflexivity|]. split; [reflexivity|].
  vm_compute. reflexivity.
Qed.

(** C10, as the code has it.  For a session that owns no side, an input
    report leaves the globals untouched (merged buttons and the four stick
    values); in the session only the button word and [num_samples] change.
    The counter is incremented in [int] arithmetic: it goes up by exactly
    one from any value below [INT_MAX]. *)
Theorem unowned_report_frame (w : world) (sd : nat) (j : joycon) (hdr : list byte)
    (b1 b2 b3 b4 b5 : byte) (tail : list byte) (j0 : Z) :
  sessions w !! sd = Some j ->
  serdev j = sd ->
  length hdr = sizeof_joycon_uart_header ->
  hdr !! offsetof_command = Some x92 ->
  Z.land (button_set j) JOYCON_BUTTONSET_LEFT = 0 ->
  Z.land (button_set j) JOYCON_BUTTONSET_RIGHT = 0 ->
  let buf := hdr ++ x30 :: b1 :: b2 :: b3 :: b4 :: b5 :: tail in
  let n' := int32 (num_samples j + 1) in
  joycon_serdev_receive_buf sd buf j0 w =
    Done (int32 (Z.of_nat (length buf)))
      {| sessions := <[sd := set_num_samples n'
                               (set_joycon_buttons (report_buttons b3 b4 b5) j)]>
                       (sessions w);
         glob := glob w;
         trace := trace w ++ [MutexLock joycon_input_lock;
                              MutexUnlock joycon_input_lock];
         script := script w |}
  /\ (INT_MIN <= num_samples j < INT_MAX -> n' = num_samples j + 1).
Proof.
  intros Hs Hsd Hlen Hc HL HR buf n'. subst buf. split.
  - destruct (receive_extret w sd j hdr
                (x30 :: b1 :: b2 :: b3 :: b4 :: b5 :: tail) j0 Hs Hsd Hlen Hc)
      as [size ->].
    now rewrite (extret_input_unowned w sd j b1 b2 b3 b4 b5 tail size Hs HL HR).
  - intros Hn. subst n'. apply int32_id. unfold INT_MIN, INT_MAX in *. lia.
Qed.

Lemma unowned_report_frame_witness :
  (sessions fresh_world !! 1%nat = Some (joycon_zalloc 1)
   /\ serdev (joycon_zalloc 1) = 1%nat
   /\ length (take 12 idle_report) = sizeof_joycon_uart_header
   /\ take 12 idle_report !! offsetof_command = Some x92
   /\ Z.land (button_set (joycon_zalloc 1)) JOYCON_BUTTONSET_LEFT = 0
   /\ Z.land (button_set (joycon_zalloc 1)) JOYCON_BUTTONSET_RIGHT = 0
   /\ INT_MIN <= num_samples (joycon_zalloc 1) < INT_MAX)
  /\ joycon_serdev_receive_buf 1
       (take 12 idle_report ++ x30 :: x00 :: x00 :: x02 :: x00 :: x00 :: []) 0 fresh_world =
     Done 18
       {| sessions := {[ 1%nat := set_num_samples 1
                                   (set_joycon_buttons 2 (joycon_zalloc 1)) ]};
          glob := globals_init;
          trace := [MutexLock joycon_input_lock; MutexUnlock joycon_input_lock];
          script := [] |}
  /\ int32 (num_samples (joycon_zalloc 1) + 1) = num_samples (joycon_zalloc 1) + 1.
Proof.
  assert (Hn : INT_MIN <= num_samples (joycon_zalloc 1) < INT_MAX)
    by (vm_compute; split; [discriminate|reflexivity]).
  split; [repeat split; first [reflexivity | apply Hn]|].
  destruct (unowned_report_frame fresh_world 1 (joycon_zalloc 1) (take 12 idle_report)
              x00 x00 x02 x00 x00 [] 0 eq_refl eq_refl eq_refl eq_refl eq_refl eq_refl)
    as [Hrun Hinc].
  split; [|exact (Hinc Hn)].
  rewrite Hrun. vm_compute. reflexivity.
Defined.

(** ** Stick decoding *)

Lemma merged_left (bs jb : Z) (b6 b7 b8 b9 b10 b11 : byte) (g : globals) :
  Z.land bs JOYCON_BUTTONSET_LEFT <> 0 ->
  stick_lx (merged bs jb b6 b7 b8 b9 b10 b11 g) =
    Z.lor (Z.shiftl (Z.land (u8 b7) 0x0F) 4) (Z.shiftr (Z.land (u8 b6) 0xF0) 4)
  /\ stick_ly (merged bs jb b6 b7 b8 b9 b10 b11 g) = 256 - u8 b8.
Proof.
  intros H%Z.eqb_neq. unfold merged, owns. rewrite H. cbn [negb].
  destruct (negb (Z.land bs JOYCON_BUTTONSET_RIGHT =? 0)); split; reflexivity.
Qed.

Lemma merged_right (bs jb : Z) (b6 b7 b8 b9 b10 b11 : byte) (g : globals) :
  Z.land bs JOYCON_BUTTONSET_RIGHT <> 0 ->
  stick_rx (merged bs jb b6 b7 b8 b9 b10 b11 g) =
    Z.lor (Z.shiftl (Z.land (u8 b10) 0x0F) 4) (Z.shiftr (Z.land (u8 b9) 0xF0) 4)
  /\ stick_ry (merged bs jb b6 b7 b8 b9 b10 b11 g) = 256 - u8 b11.
Proof.
  intros H%Z.eqb_neq. unfold merged, owns. rewrite H. cbn [negb].
  split; reflexivity.
Qed.

(** C9.  For an input report handled by a session that owns the left side,
    [stick_lx = ((payload[7] & 0x0F) << 4) | ((payload[6] & 0xF0) >> 4)] and
    [stick_ly = 256 - payload[8]]; for one that owns the right side the same
    holds of [stick_rx], [stick_ry] and payload bytes 10, 9 and 11.  The Y
    values lie between 1 and 256 and are above the registered maximum
    [abs_max = 223] exactly when the payload byte is at most 32; with a zero
    byte the stored value is 256. *)
Theorem stick_decoding :
  (forall (w : world) (sd : nat) (j : joycon) (hdr : list byte)
          (b1 b2 b3 b4 b5 b6 b7 b8 b9 b10 b11 : byte) (tail : list byte) (j0 : Z),
     sessions w !! sd = Some j ->
     serdev j = sd ->
     length hdr = sizeof_joycon_uart_header ->
     hdr !! offsetof_command = Some x92 ->
     let buf := hdr ++ x30 :: b1 :: b2 :: b3 :: b4 :: b5 :: b6 :: b7 :: b8
                      :: b9 :: b10 :: b11 :: tail in
     exists w',
       joycon_serdev_receive_buf sd buf j0 w = Done (int32 (Z.of_nat (length buf))) w'
       /\ (Z.land (button_set j) JOYCON_BUTTONSET_LEFT <> 0 ->
           stick_lx (glob w') =
             Z.lor (Z.shiftl (Z.land (u8 b7) 0x0F) 4) (Z.shiftr (Z.land (u8 b6) 0xF0) 4)
           /\ stick_ly (glob w') = 256 - u8 b8
           /\ 1 <= stick_ly (glob w') <= 256
           /\ (abs_max < stick_ly (glob w') <-> u8 b8 <= 32))
       /\ (Z.land (button_set j) JOYCON_BUTTONSET_RIGHT <> 0 ->
           stick_rx (glob w') =
             Z.lor (Z.shiftl (Z.land (u8 b10) 0x0F) 4) (Z.shiftr (Z.land (u8 b9) 0xF0) 4)
           /\ stick_ry (glob w') = 256 - u8 b11
           /\ 1 <= stick_ry (glob w') <= 256
           /\ (abs_max < stick_ry (glob w') <-> u8 b11 <= 32)))
  /\ (exists w1 w2,
        joycon_serdev_receive_buf 1 y_zero_report 0 pair_world = Done 24 w1
        /\ stick_ly (glob w1) = 256 /\ abs_max < stick_ly (glob w1)
        /\ joycon_serdev_receive_buf 2 y_zero_report 0 pair_world = Done 24 w2
        /\ stick_ry (glob w2) = 256 /\ abs_max < stick_ry (glob w2)).
Proof.
  split.
  - intros w sd j hdr b1 b2 b3 b4 b5 b6 b7 b8 b9 b10 b11 tail j0 Hs Hsd Hlen Hc buf.
    subst buf.
    destruct (receive_extret w sd j hdr
                (x30 :: b1 :: b2 :: b3 :: b4 :: b5 :: b6 :: b7 :: b8
                     :: b9 :: b10 :: b11 :: tail) j0 Hs Hsd Hlen Hc)
      as [size ->].
    rewrite (extret_input w sd j b1 b2 b3 b4 b5 b6 b7 b8 b9 b10 b11 tail size Hs).
    eexists. split; [reflexivity|]. cbn [glob set_sessions set_glob].
    split; intros Hown.
    + destruct (merged_left (button_set j) (report_buttons b3 b4 b5)
                  b6 b7 b8 b9 b10 b11 (glob w) Hown) as [Hx Hy].
      rewrite Hx, Hy. pose proof (u8_range b8). unfold abs_max.
      repeat split; lia.
    + destruct (merged_right (button_set j) (report_buttons b3 b4 b5)
                  b6 b7 b8 b9 b10 b11 (glob w) Hown) as [Hx Hy].
      rewrite Hx, Hy. pose proof (u8_range b11). unfold abs_max.
      repeat split; lia.
  - eexists. eexists.
    split; [vm_compute; reflexivity|].
    split; [reflexivity|]. split; [reflexivity|].
    split; [vm_compute; reflexivity|].
    split; reflexivity.
Qed.

Lemma stick_decoding_witness :
  (sessions pair_world !! 1%nat = Some (left_joycon 1)
   /\ serdev (left_joycon 1) = 1%nat
   /\ length (take 12 y_zero_report) = sizeof_joycon_uart_header
   /\ take 12 y_zero_report !! offsetof_command = Some x92)
  /\ exists w',
       joycon_serdev_receive_buf 1 y_zero_report 0 pair_world = Done 24 w'
       /\ stick_lx (glob w') = 120
       /\ stick_ly (glob w') = 256.
Proof.
  split; [repeat split; reflexivity|].
  destruct (proj1 stick_decoding pair_world 1%nat (left_joycon 1) (take 12 y_zero_report)
              x00 x00 x00 x00 x00 x80 x07 x00 x80 x07 x00 [] 0
              eq_refl eq_refl eq_refl eq_refl) as (w' & Hrun & HL & _).
  exists w'. split; [exact Hrun|].
  destruct (HL ltac:(vm_compute; discriminate)) as (Hx & Hy & _).
  split; [exact Hx | exact Hy].
Defined.

(** ** The two halves share bits 13 and 14 *)

(** C1.  [JOYCON_BUTTONS_LEFT] and [JOYCON_BUTTONS_RIGHT] are not disjoint:
    they share bits 13 and 14.  With device 1 identified as the left half
    and device 2 as the right half, the all-left report followed by the
    all-right report does give the union [0xFFFFFF].  But a report of the
    right half with no button down, arriving after the left half reported
    the screenshot button (or all its bits), clears bits of the left half
    in the merged word. *)
Theorem overlapping_masks_clobber :
  Z.land JOYCON_BUTTONS_LEFT JOYCON_BUTTONS_RIGHT = 0x6000
  /\ (exists w',
        (identify_pair ;;; joycon_get 1 button_set) two_fresh_world =
          Done JOYCON_BUTTONSET_LEFT w')
  /\ (exists w',
        (identify_pair ;;; joycon_get 2 button_set) two_fresh_world =
          Done JOYCON_BUTTONSET_RIGHT w')
  /\ (exists w',
        (identify_pair ;;;
         joycon_serdev_receive_buf 1 all_left_report 0 ;;;
         joycon_serdev_receive_buf 2 all_right_report 0 ;;;
         glob_get buttons) two_fresh_world = Done 0xFFFFFF w')
  /\ (exists w',
        (identify_pair ;;;
         joycon_serdev_receive_buf 1 screenshot_report 0 ;;;
         glob_get buttons) two_fresh_world = Done 0x002000 w')
  /\ (exists w',
        (identify_pair ;;;
         joycon_serdev_receive_buf 1 screenshot_report 0 ;;;
         joycon_serdev_receive_buf 2 idle_report 0 ;;;
         glob_get buttons) two_fresh_world = Done 0 w')
  /\ (exists w',
        (identify_pair ;;;
         joycon_serdev_receive_buf 1 all_left_report 0 ;;;
         joycon_serdev_receive_buf 2 idle_report 0 ;;;
         glob_get buttons) two_fresh_world = Done 0xFF8900 w').
Proof.
  split; [reflexivity|].
  repeat split; eexists; vm_compute; reflexivity.
Qed.

(** ** Identifier replies *)

Lemma receive_initret (w : world) (sd : nat) (j : joycon) (hdr payload : list byte) (j0 : Z) :
  sessions w !! sd = Some j ->
  serdev j = sd ->
  length hdr = (sizeof_joycon_uart_initial + 1)%nat ->
  hdr !! offsetof_command = Some x94 ->
  exists size,
    joycon_serdev_receive_buf sd (hdr ++ payload) j0 w =
      match joycon_initret_parse sd payload size j0 w with
      | Done _ w' => Done (int32 (Z.of_nat (length (hdr ++ payload)))) w'
      | Blocked w' => Blocked w'
      | Fault => Fault
      end.
Proof.
  intros Hs Hsd Hlen Hc. eexists.
  rewrite receive_buf_eq, Hs, Hsd, Nat.eqb_refl. cbn [negb].
  unfold joycon_packet_parse, bind, rd.
  rewrite (lookup_app_l_Some _ _ _ _ Hc).
  change (u8 x94 =? JOYCON_COMMAND_EXTRET) with false.
  change (u8 x94 =? JOYCON_COMMAND_INITRET) with true. cbv iota.
  rewrite (drop_app_length' hdr payload _ (eq_sym Hlen)). reflexivity.
Qed.

(** The copy loop and the classification, for [j] starting at 0. *)
Lemma initret_mac (w : world) (sd : nat) (j : joycon)
    (q1 q2 q3 q4 q5 b6 b7 b8 b9 b10 b11 b12 : byte) (tail : list byte) (size : Z) :
  sessions w !! sd = Some j ->
  length (mac j) = 6%nat ->
  joycon_initret_parse sd
    (x01 :: q1 :: q2 :: q3 :: q4 :: q5 :: b6 :: b7 :: b8 :: b9 :: b10 :: b11 :: b12 :: tail)
    size 0 w =
  Done tt
    (set_sessions
       (<[sd := set_button_set
                  (if u8 b12 =? 0x7C then JOYCON_BUTTONSET_RIGHT else JOYCON_BUTTONSET_LEFT)
                  (set_mac [b12; b11; b10; b9; b8; b7] j)]> (sessions w))
       (set_trace
          (trace w ++ [StoreOutsideMac sd 6 b6;
                       Printk (LogMac [b12; b11; b10; b9; b8; b7])])
          w)).
Proof.
  intros Hs Hm. destruct w as [m g t s]. simpl in Hs.
  destruct j as [sdj hs ini tmo num bs jb mc]. simpl in Hm.
  destruct mc as [|m0 [|m1 [|m2 [|m3 [|m4 [|m5 [|]]]]]]]; try discriminate.
  unfold joycon_initret_parse. munfold.
  cbn [lookup list_lookup].
  change (u8 x01 =? JOYCON_INIT_MAC) with true. cbv iota.
  unfold mac_loop, mac_store. munfold.
  mrun Hs.
  change (u8 b12 =? 0x7C) with (u8 b12 =? 124).
  destruct (u8 b12 =? 124); cbn [negb]; mrun Hs;
    rewrite !insert_insert_eq, <- !app_assoc; reflexivity.
Qed.

(** What the copy does depends on the value [j] happens to hold.  From 7
    on, no store lands in [mac]: the identifier stays as it was and a reply
    whose first identifier byte is [0x7C] makes the session the left
    half. *)
Example stray_index_misclassifies :
  exists w',
    (joycon_serdev_receive_buf 1 (mac_reply x7c) 7 ;;;
     let* m := joycon_get 1 mac in
     let* bs := joycon_get 1 button_set in
     ret (m, bs)) fresh_world =
    Done ([x00; x00; x00; x00; x00; x00], JOYCON_BUTTONSET_LEFT) w'.
Proof. eexists. vm_compute. reflexivity. Qed.

(** C4, counterexample.  A session that has been made the right half by
    one identifier reply is made the left half by the next: the side is
    assigned again by every reply. *)
Lemma side_assigned_again :
  (exists w',
     (joycon_serdev_receive_buf 1 (mac_reply x7c) 0 ;;;
      joycon_get 1 button_set) fresh_world = Done JOYCON_BUTTONSET_RIGHT w')
  /\ (exists w',
        (joycon_serdev_receive_buf 1 (mac_reply x7c) 0 ;;;
         joycon_serdev_receive_buf 1 (mac_reply x32) 0 ;;;
         joycon_get 1 button_set) fresh_world = Done JOYCON_BUTTONSET_LEFT w')
  /\ JOYCON_BUTTONSET_RIGHT <> JOYCON_BUTTONSET_LEFT.
Proof.
  split; [eexists; vm_compute; reflexivity|].
  split; [eexists; vm_compute; reflexivity|].
  discriminate.
Qed.

(** C4, as the code has it.  With the copy index starting at 0, an
    identifier reply stores payload bytes 12 down to 7 as identifier bytes
    0 to 5 and makes the session the right half if the first identifier
    byte is [0x7C], the left half otherwise.  Nothing is asked of the
    session's earlier side: every identifier reply assigns it. *)
Theorem identifier_reply_side (w : world) (sd : nat) (j : joycon) (hdr : list byte)
    (q1 q2 q3 q4 q5 b6 b7 b8 b9 b10 b11 b12 : byte) (tail : list byte) :
  sessions w !! sd = Some j ->
  serdev j = sd ->
  length hdr = (sizeof_joycon_uart_initial + 1)%nat ->
  hdr !! offsetof_command = Some x94 ->
  length (mac j) = 6%nat ->
  let buf := hdr ++ x01 :: q1 :: q2 :: q3 :: q4 :: q5 :: b6 :: b7 :: b8 :: b9
                 :: b10 :: b11 :: b12 :: tail in
  exists w',
    joycon_serdev_receive_buf sd buf 0 w = Done (int32 (Z.of_nat (length buf))) w'
    /\ sessions w' =
         <[sd := set_button_set
                   (if u8 b12 =? 0x7C then JOYCON_BUTTONSET_RIGHT
                    else JOYCON_BUTTONSET_LEFT)
                   (set_mac [b12; b11; b10; b9; b8; b7] j)]> (sessions w)
    /\ glob w' = glob w.
Proof.
  intros Hs Hsd Hlen Hc Hm buf. subst buf.
  destruct (receive_initret w sd j hdr
              (x01 :: q1 :: q2 :: q3 :: q4 :: q5 :: b6 :: b7 :: b8 :: b9
                   :: b10 :: b11 :: b12 :: tail) 0 Hs Hsd Hlen Hc) as [size ->].
  rewrite (initret_mac w sd j q1 q2 q3 q4 q5 b6 b7 b8 b9 b10 b11 b12 tail size Hs Hm).
  eexists. split; [reflexivity|]. split; reflexivity.
Qed.

Lemma identifier_reply_side_witness :
  (sessions pair_world !! 2%nat = Some (right_joycon 2)
   /\ serdev (right_joycon 2) = 2%nat
   /\ length (take 6 (mac_reply x32)) = (sizeof_joycon_uart_initial + 1)%nat
   /\ take 6 (mac_reply x32) !! offsetof_command = Some x94
   /\ length (mac (right_joycon 2)) = 6%nat)
  /\ exists w',
       joycon_serdev_receive_buf 2 (mac_reply x32) 0 pair_world = Done 19 w'
       /\ sessions w' =
            <[2%nat := set_button_set JOYCON_BUTTONSET_LEFT
                         (set_mac [x32; x22; x33; x44; x55; x66] (right_joycon 2))]>
              (sessions pair_world)
       /\ glob w' = glob pair_world.
Proof.
  split; [repeat split; reflexivity|].
  apply (identifier_reply_side pair_world 2 (right_joycon 2) (take 6 (mac_reply x32))
           x00 x00 x00 x00 x00 x00 x66 x55 x44 x33 x22 x32 []); reflexivity.
Defined.

(** ** The output sync work *)

Lemma land_BIT (b : Z) (i : nat) :
  Z.land b (BIT (Z.of_nat i)) = if Z.testbit b (Z.of_nat i) then 2 ^ Z.of_nat i else 0.
Proof.
  unfold BIT. rewrite Z.shiftl_1_l.
  apply Z.bits_inj'. intros n Hn.
  rewrite Z.land_spec, Z.pow2_bits_eqb by lia.
  destruct (Z.eqb_spec (Z.of_nat i) n) as [<-|Hne].
  - destruct (Z.testbit b (Z.of_nat i)).
    + rewrite Z.pow2_bits_true by lia. reflexivity.
    + rewrite Z.bits_0. reflexivity.
  - rewrite andb_false_r.
    destruct (Z.testbit b (Z.of_nat i)).
    + rewrite Z.pow2_bits_false by lia. reflexivity.
    + rewrite Z.bits_0. reflexivity.
Qed.

Lemma report_keys_run (codes : list Z) (stop : Z) (rest : list Z) :
  Forall (fun c => 0 <= c) codes ->
  stop < 0 ->
  forall (i : Z) (w : world),
    report_keys (codes ++ stop :: rest) i w =
      Done tt (set_trace (trace w ++ key_events (buttons (glob w)) i codes) w).
Proof.
  intros Hpos Hstop. induction Hpos as [|c codes Hc _ IH]; intros i w.
  - simpl. destruct (Z.leb_spec 0 stop); [lia|].
    unfold ret, key_events. simpl. rewrite app_nil_r. now destruct w.
  - simpl. destruct (Z.leb_spec 0 c); [|lia].
    unfold bind, glob_get, emit. rewrite IH.
    destruct w as [m g t s]. unfold key_events, set_trace. simpl.
    rewrite <- app_assoc. simpl. rewrite Z.add_0_r.
    erewrite imap_ext; [reflexivity|].
    intros k x _. simpl. do 4 f_equal. lia.
Qed.

(** C8.  One run of [sync_handler] takes [joycon_input_lock], reports the
    24 keys of [joycon_common_btn] in table order, the event for entry [i]
    carrying [buttons & BIT(i)] (which is [2^i] when bit [i] of the merged
    word is set and 0 when it is clear), then the four axes X, Y, RX, RY
    with the four stick globals, then calls [input_sync] once, releases the
    lock and queues itself again 10 ms later.  Nothing else changes. *)
Theorem sync_handler_emits (w : world) :
  sync_handler w =
    Done tt
      (set_trace
         (trace w
          ++ [MutexLock joycon_input_lock]
          ++ key_events (buttons (glob w)) 0 (take 24 joycon_common_btn)
          ++ [InputReportAbs ABS_X (stick_lx (glob w));
              InputReportAbs ABS_Y (stick_ly (glob w));
              InputReportAbs ABS_RX (stick_rx (glob w));
              InputReportAbs ABS_RY (stick_ry (glob w));
              InputSync;
              MutexUnlock joycon_input_lock;
              QueueDelayedWork work_sync_poll 10]) w)
  /\ length (key_events (buttons (glob w)) 0 (take 24 joycon_common_btn)) = 24%nat
  /\ forall (i : nat),
       key_events (buttons (glob w)) 0 (take 24 joycon_common_btn) !! i =
         (fun code => InputReportKey code
            (if Z.testbit (buttons (glob w)) (Z.of_nat i) then 2 ^ Z.of_nat i else 0))
         <$> take 24 joycon_common_btn !! i.
Proof.
  split; [|split].
  - unfold sync_handler.
    unfold bind at 1. unfold mutex_lock, emit.
    unfold bind at 1.
    rewrite (report_keys_run (take 24 joycon_common_btn) (-1) []);
      [|repeat constructor; discriminate|reflexivity].
    destruct w as [m g t s]. munfold. unfold set_trace.
    cbn [sessions glob trace script].
    rewrite <- !app_assoc. reflexivity.
  - unfold key_events. rewrite length_imap. reflexivity.
  - intros i. unfold key_events. rewrite list_lookup_imap.
    destruct (take 24 joycon_common_btn !! i) as [code|] eqn:Hi; [|reflexivity].
    apply lookup_lt_Some in Hi. change (length (take 24 joycon_common_btn)) with 24%nat in Hi.
    simpl. do 2 f_equal.
    change (0 + Z.of_nat i) with (Z.of_nat i). rewrite land_BIT.
    destruct (Z.testbit (buttons (glob w)) (Z.of_nat i)); [|reflexivity].
    apply int32_id. unfold INT_MIN, INT_MAX.
    assert (0 < 2 ^ Z.of_nat i <= 2 ^ 23).
    { split; [apply Z.pow_pos_nonneg; lia|apply Z.pow_le_mono_r; lia]. }
    lia.
Qed.

(** ** Blocking calls against a script *)

Lemma write_answered (w : world) (sd : nat) (data : list byte) (ms e : Z) (s : list env_resp) :
  script w = answer e :: s ->
  serdev_device_write sd data ms w =
    Done e (set_script s (set_trace (trace w ++ [SerdevWrite sd data ms]) w)).
Proof.
  intros Hs. unfold serdev_device_write, next_env. munfold. simpl.
  rewrite Hs. reflexivity.
Qed.

Lemma write_blocked (w : world) (sd : nat) (data : list byte) (ms : Z) :
  script w = [] ->
  serdev_device_write sd data ms w =
    Blocked (set_trace (trace w ++ [SerdevWrite sd data ms]) w).
Proof.
  intros Hs. unfold serdev_device_write, next_env. munfold. simpl.
  rewrite Hs. reflexivity.
Qed.

(** ** What driver code never undoes *)

#[export] Instance trace_ext_order : WorldOrder trace_ext.
Proof.
  split; unfold trace_ext; simpl.
  - intros w. exists []. now rewrite app_nil_r.
  - intros w1 w2 w3 [t1 H1] [t2 H2]. exists (t1 ++ t2). now rewrite H2, H1, app_assoc.
  - intros w m. exists []. now rewrite app_nil_r.
  - intros w g. exists []. now rewrite app_nil_r.
  - intros w e. now exists [e].
  - intros w r s _. exists []. now rewrite app_nil_r.
Qed.

#[export] Instance script_le_order : WorldOrder script_le.
Proof.
  split; unfold script_le; simpl; try (intros; lia).
  intros w r s ->. simpl. lia.
Qed.

Section Stable.
Context (R : world -> world -> Prop) `{!WorldOrder R}.

Lemma stable_ret {A} (a : A) : stable R (ret a).
Proof. intros w w' [= <-]. apply wo_refl. Qed.

Lemma stable_fault {A} : stable R (@fault A).
Proof. intros w w' [=]. Qed.

Lemma stable_bind {A B} (c : M A) (k : A -> M B) :
  stable R c -> (forall a, stable R (k a)) -> stable R (bind c k).
Proof.
  intros Hc Hk w w'. unfold bind.
  destruct (c w) as [a w1| w1|] eqn:E; simpl; intros H.
  - apply (wo_trans w w1 w'); [|now apply (Hk a)].
    apply Hc. now rewrite E.
  - injection H as <-. apply Hc. now rewrite E.
  - discriminate.
Qed.

Lemma stable_emit (e : event) : stable R (emit e).
Proof. intros w w' [= <-]. apply wo_trace. Qed.

Lemma stable_joycon_get {A} (sd : nat) (f : joycon -> A) : stable R (joycon_get sd f).
Proof.
  intros w w'. unfold joycon_get. destruct (sessions w !! sd); simpl; [|discriminate].
  intros [= <-]. apply wo_refl.
Qed.

Lemma stable_joycon_set (sd : nat) (f : joycon -> joycon) : stable R (joycon_set sd f).
Proof.
  intros w w'. unfold joycon_set. destruct (sessions w !! sd); simpl; [|discriminate].
  intros [= <-]. apply wo_sessions.
Qed.

Lemma stable_glob_get {A} (f : globals -> A) : stable R (glob_get f).
Proof. intros w w' [= <-]. apply wo_refl. Qed.

Lemma stable_glob_set (f : globals -> globals) : stable R (glob_set f).
Proof. intros w w' [= <-]. apply wo_glob. Qed.

Lemma stable_rd (p : list byte) (i : nat) : stable R (rd p i).
Proof.
  intros w w'. unfold rd. destruct (p !! i); simpl; [|discriminate].
  intros [= <-]. apply wo_refl.
Qed.

Lemma stable_rd_byte (p : list byte) (i : nat) : stable R (rd_byte p i).
Proof.
  intros w w'. unfold rd_byte. destruct (p !! i); simpl; [|discriminate].
  intros [= <-]. apply wo_refl.
Qed.

Lemma stable_get_drvdata (sd : nat) : stable R (serdev_device_get_drvdata sd).
Proof. intros w w' [= <-]. apply wo_refl. Qed.

Lemma stable_next_env : stable R next_env.
Proof.
  intros w w'. unfold next_env.
  destruct (script w) as [|r s] eqn:E; simpl; intros [= <-].
  - apply wo_refl.
  - now apply (wo_script w r s).
Qed.

End Stable.

Create HintDb stable.

#[export] Hint Resolve trace_ext_order script_le_order stable_ret stable_fault
  stable_emit stable_joycon_get stable_joycon_set stable_glob_get stable_glob_set
  stable_rd stable_rd_byte stable_get_drvdata stable_next_env : stable.

Ltac stable_bind := apply stable_bind; [solve [auto with stable] | | ].

(** Goes through a piece of driver code statement by statement. *)
Ltac stable :=
  repeat first
    [ stable_bind; [|intros ?]
    | match goal with
      | |- stable _ (if ?b then _ else _) => destruct b
      | |- stable _ (match ?x with _ => _ end) => destruct x
      | |- stable _ (when ?b _) => unfold when
      | |- stable _ (printk _) => unfold printk
      | |- stable _ (mutex_lock _) => unfold mutex_lock
      | |- stable _ (mutex_unlock _) => unfold mutex_unlock
      | |- stable _ (queue_delayed_work _ _) => unfold queue_delayed_work
      end
    | solve [auto with stable] ].

Section StableCode.
Context (R : world -> world -> Prop) `{!WorldOrder R}.

Lemma stable_extret_parse (sd : nat) (p : list byte) (size : Z) :
  stable R (joycon_extret_parse sd p size).
Proof. unfold joycon_extret_parse. stable. Qed.

Lemma stable_mac_store (sd : nat) (j : Z) (b : byte) : stable R (mac_store sd j b).
Proof. unfold mac_store. stable. Qed.

Lemma mac_loop_eq (sd : nat) (p : list byte) (i : nat) (j : Z) :
  mac_loop sd p i j =
    if (6 <=? i)%nat then
      let* b := rd_byte p i in
      mac_store sd j b ;;;
      match i with
      | S i' => mac_loop sd p i' (int32 (j + 1))
      | O => ret tt
      end
    else ret tt.
Proof. destruct i; reflexivity. Qed.

Lemma stable_mac_loop (sd : nat) (p : list byte) (i : nat) :
  forall j, stable R (mac_loop sd p i j).
Proof.
  induction i as [|i IH]; intros j; rewrite mac_loop_eq.
  - simpl. stable.
  - destruct (6 <=? S i)%nat; [|stable].
    stable_bind; [stable|intros b].
    stable_bind; [apply stable_mac_store|intros _]. apply IH.
Qed.

Lemma stable_initret_parse (sd : nat) (p : list byte) (size j0 : Z) :
  stable R (joycon_initret_parse sd p size j0).
Proof.
  unfold joycon_initret_parse.
  stable_bind; [stable|intros p0].
  destruct (p0 =? JOYCON_INIT_MAC).
  - stable_bind; [apply stable_mac_loop|intros _]. stable.
  - stable.
Qed.

Lemma stable_packet_parse (sd : nat) (p : list byte) (size j0 : Z) :
  stable R (joycon_packet_parse sd p size j0).
Proof.
  unfold joycon_packet_parse.
  stable_bind; [stable|intros command].
  destruct (command =? JOYCON_COMMAND_EXTRET).
  - stable_bind; [stable|intros d0].
    stable_bind; [stable|intros d1]. apply stable_extret_parse.
  - destruct (command =? JOYCON_COMMAND_INITRET); [apply stable_initret_parse|stable].
Qed.

Lemma stable_receive_buf (sd : nat) (buf : list byte) (j0 : Z) :
  stable R (joycon_serdev_receive_buf sd buf j0).
Proof.
  unfold joycon_serdev_receive_buf.
  stable_bind; [stable|intros [j|]]; [|stable].
  destruct (negb (sd =? serdev j)%nat); [stable|].
  stable_bind; [apply stable_packet_parse|intros _]. stable.
Qed.

Lemma stable_deliver (frames : list rx_frame) : stable R (deliver frames).
Proof.
  induction frames as [|f frames IH]; simpl; [stable|].
  stable_bind; [apply stable_receive_buf|intros _]. exact IH.
Qed.

Lemma stable_write (sd : nat) (data : list byte) (ms : Z) :
  stable R (serdev_device_write sd data ms).
Proof.
  unfold serdev_device_write.
  stable_bind; [stable|intros _].
  stable_bind; [stable|intros r].
  stable_bind; [apply stable_deliver|intros _]. stable.
Qed.

Lemma stable_usleep (lo hi : Z) : stable R (usleep_range lo hi).
Proof.
  unfold usleep_range.
  stable_bind; [stable|intros _].
  stable_bind; [stable|intros r]. apply stable_deliver.
Qed.

End StableCode.

#[export] Hint Resolve stable_extret_parse stable_mac_store stable_mac_loop
  stable_initret_parse stable_packet_parse stable_receive_buf stable_deliver
  stable_write stable_usleep : stable.

Lemma stable_handshake_loop (R : world -> world -> Prop) `{!WorldOrder R}
    (sd : nat) (fuel : nat) :
  stable R (handshake_loop fuel sd).
Proof.
  induction fuel as [|fuel IH]; simpl.
  - intros w w' [= <-]. apply wo_refl.
  - stable.
Qed.

Lemma stable_timeout_init (R : world -> world -> Prop) `{!WorldOrder R} (sd : nat) :
  stable R (timeout_init sd).
Proof. unfold timeout_init. stable. Qed.

Lemma stable_timeout_fail (R : world -> world -> Prop) `{!WorldOrder R} (sd : nat) :
  stable R (timeout_fail sd).
Proof. unfold timeout_fail. stable. Qed.

#[export] Hint Resolve stable_handshake_loop stable_timeout_init stable_timeout_fail
  : stable.

(** ** The fuel of the handshake loop

    Driver code only ever consumes answers, and every blocking call
    consumes one; so a loop started with more fuel than there are answers
    stops for want of an answer, never for want of fuel. *)

(** A blocking call that returns has consumed an answer. *)
Lemma blocking_consumes {A} (k : env_resp -> M A) (e : event) (w w' : world) (a : A) :
  (forall r, stable script_le (k r)) ->
  (emit e ;;; let* r := next_env in k r) w = Done a w' ->
  (length (script w') < length (script w))%nat.
Proof.
  intros Hk. unfold bind, emit, next_env. simpl script.
  destruct (script w) as [|r s] eqn:Hsc; [discriminate|].
  intros H.
  assert (H1 := Hk r (set_script s (set_trace (trace w ++ [e]) w)) w').
  rewrite H in H1. specialize (H1 eq_refl).
  unfold script_le in H1. simpl in H1. simpl. lia.
Qed.

Lemma write_consumes (sd : nat) (data : list byte) (ms e : Z) (w w' : world) :
  serdev_device_write sd data ms w = Done e w' ->
  (length (script w') < length (script w))%nat.
Proof.
  unfold serdev_device_write. apply blocking_consumes. intros r. stable.
Qed.

Lemma usleep_consumes (lo hi : Z) (w w' : world) :
  usleep_range lo hi w = Done tt w' ->
  (length (script w') < length (script w))%nat.
Proof.
  unfold usleep_range. apply blocking_consumes. intros r. stable.
Qed.

Lemma bind_ext {A B} (c : M A) (k k' : A -> M B) (w : world) :
  (forall a w1, c w = Done a w1 -> k a w1 = k' a w1) ->
  bind c k w = bind c k' w.
Proof.
  intros H. unfold bind. destruct (c w) as [a w1| |]; [|reflexivity..].
  now apply H.
Qed.

(** Two amounts of fuel above the number of answers left give the same
    run of the loop. *)
Lemma handshake_loop_fuel (sd : nat) (fuel : nat) :
  forall (fuel' : nat) (w : world),
    (length (script w) < fuel)%nat ->
    (length (script w) < fuel')%nat ->
    handshake_loop fuel sd w = handshake_loop fuel' sd w.
Proof.
  induction fuel as [|fuel IH]; intros fuel' w Hf Hf'; [lia|].
  destruct fuel' as [|fuel']; [lia|].
  cbn [handshake_loop].
  apply bind_ext. intros hs w0 H0.
  assert (w0 = w) as ->.
  { unfold joycon_get in H0. destruct (sessions w !! sd); [|discriminate].
    now injection H0. }
  destruct hs; [reflexivity|].
  apply bind_ext. intros e1 w1 H1. apply write_consumes in H1.
  destruct (negb (e1 =? 0)); [reflexivity|].
  apply bind_ext. intros e2 w2 H2. apply write_consumes in H2.
  destruct (negb (e2 =? 0)); [reflexivity|].
  apply bind_ext. intros [] w3 H3. apply usleep_consumes in H3.
  apply bind_ext. intros [] w4 H4. injection H4 as <-.
  apply IH; simpl; lia.
Qed.

(** The fuel [timeout_handler] gives the loop is of that kind, and stays
    so however much more is given. *)
Lemma handshake_loop_enough_fuel (sd : nat) (w : world) (extra : nat) :
  handshake_loop (S (length (script w))) sd w =
  handshake_loop (S (length (script w)) + extra) sd w.
Proof. apply handshake_loop_fuel; lia. Qed.

(** ** The status poll work *)


Lemma input_handler_writes_first (w : world) (sd : nat) (j : joycon) :
  sessions w !! sd = Some j ->
  initialized j = true ->
  forall w',
    outcome (input_handler sd w) = Some w' ->
    exists t, trace w' = trace w ++ [SerdevWrite sd controller_status 200] ++ t.
Proof.
  intros Hs Hi w'. unfold input_handler.
  unfold bind at 1. unfold joycon_get at 1. rewrite Hs, Hi.
  unfold when. unfold bind at 1. unfold bind at 1.
  unfold serdev_device_write at 1. unfold bind at 1. unfold emit at 1.
  set (w1 := set_trace (trace w ++ [SerdevWrite sd controller_status 200]) w).
  set (rest :=
    ((let* r := next_env in deliver (rx r) ;;; ret (err r)) ;;; ret tt) ;;;
    queue_delayed_work (work_input_poll sd) 16).
  assert (Hrest : stable trace_ext rest) by (subst rest; stable).
  intros H. destruct (Hrest w1 w' H) as [t Ht].
  exists t. rewrite Ht. subst w1. simpl. rewrite <- !app_assoc. reflexivity.
Qed.



(** ** The liveness work *)

Lemma bind_done_inv {A B} (c : M A) (k : A -> M B) (w w' : world) (b : B) :
  bind c k w = Done b w' -> exists a w1, c w = Done a w1 /\ k a w1 = Done b w'.
Proof.
  unfold bind. destruct (c w) as [a w1| |]; [|discriminate..].
  intros H. now exists a, w1.
Qed.

Lemma timeout_fail_run (w : world) (sd : nat) (j : joycon) :
  sessions w !! sd = Some j ->
  timeout_fail sd w =
    Done tt
      (set_sessions (<[sd := set_timeout_samples (num_samples j) j]> (sessions w))
         (set_trace (trace w ++ [QueueDelayedWork (work_timeout_poll sd) 200]) w)).
Proof.
  intros Hs. destruct w as [m g t s]. simpl in Hs.
  unfold timeout_fail. munfold. mrun Hs. reflexivity.
Qed.

Lemma timeout_fail_done (w w' : world) (sd : nat) :
  timeout_fail sd w = Done tt w' ->
  exists j',
    sessions w' !! sd = Some j'
    /\ timeout_samples j' = num_samples j'
    /\ trace w' = trace w ++ [QueueDelayedWork (work_timeout_poll sd) 200].
Proof.
  destruct (sessions w !! sd) as [j|] eqn:Hs.
  - rewrite (timeout_fail_run w sd j Hs). intros [= <-].
    exists (set_timeout_samples (num_samples j) j). simpl.
    rewrite lookup_insert_eq. repeat split.
  - unfold timeout_fail, bind, joycon_get. rewrite Hs. discriminate.
Qed.

Lemma timeout_handler_idle (w : world) (sd : nat) (j : joycon) :
  sessions w !! sd = Some j ->
  timeout_expired j = false ->
  timeout_handler sd w =
    Done tt
      (set_sessions (<[sd := set_timeout_samples (num_samples j) j]> (sessions w))
         (set_trace (trace w ++ [timeout_log j;
                                 QueueDelayedWork (work_timeout_poll sd) 200]) w)).
Proof.
  intros Hs He. destruct w as [m g t s]. simpl in Hs.
  unfold timeout_handler, timeout_fail, timeout_log. munfold.
  mrun Hs. rewrite He. mrun Hs. rewrite <- app_assoc. reflexivity.
Qed.

(** On an expired session the work clears both flags and enters the loop. *)
Lemma timeout_handler_expired (w : world) (sd : nat) (j : joycon) :
  sessions w !! sd = Some j ->
  timeout_expired j = true ->
  timeout_handler sd w =
    ((let* x := handshake_loop (S (length (script w))) sd in
      match x with
      | goto_fail => ret tt
      | loop_done => timeout_init sd
      end) ;;;
     timeout_fail sd) (restarted sd j w).
Proof.
  intros Hs He. destruct w as [m g t s]. simpl in Hs.
  unfold timeout_handler, restarted, timeout_log.
  unfold bind at 1. unfold joycon_get at 1. simpl sessions. rewrite Hs.
  unfold bind at 1. unfold printk, emit. cbn [id]. rewrite He.
  unfold bind at 1. unfold bind at 1. unfold bind at 1.
  unfold joycon_set at 1. simpl sessions. rewrite Hs.
  unfold bind at 1. unfold joycon_set at 1. simpl sessions.
  rewrite lookup_insert_eq, insert_insert_eq.
  unfold bind at 1. simpl. reflexivity.
Qed.

(** The first thing the loop does in that world is to write [magic_start]. *)
Lemma handshake_loop_first (w : world) (sd : nat) (j : joycon) (fuel : nat) :
  handshake_loop (S fuel) sd (restarted sd j w) =
    (let* e := serdev_device_write sd magic_start 200 in
     if negb (e =? 0) then ret goto_fail
     else
       let* e := serdev_device_write sd handshake_start 200 in
       if negb (e =? 0) then ret goto_fail
       else
         usleep_range 180000 200000 ;;;
         printk LogSentHandshake ;;;
         handshake_loop fuel sd) (restarted sd j w).
Proof.
  simpl handshake_loop. unfold bind at 1. unfold joycon_get at 1.
  unfold restarted at 1. simpl sessions. rewrite lookup_insert_eq. reflexivity.
Qed.

(** After the two stores the work is inside its first [serdev_device_write]:
    whatever the environment does next, the entry line and the write of
    [magic_start] have been observed. *)
Lemma timeout_handler_restarts (w : world) (sd : nat) (j : joycon) :
  sessions w !! sd = Some j ->
  timeout_expired j = true ->
  forall w',
    outcome (timeout_handler sd w) = Some w' ->
    exists t, trace w' = trace w ++ [timeout_log j; SerdevWrite sd magic_start 200] ++ t.
Proof.
  intros Hs He w'.
  rewrite (timeout_handler_expired w sd j Hs He).
  unfold bind at 1. unfold bind at 1.
  rewrite handshake_loop_first.
  unfold bind at 1. unfold serdev_device_write at 1. unfold bind at 1.
  unfold emit at 1.
  set (w1 := set_trace (trace (restarted sd j w) ++ [SerdevWrite sd magic_start 200])
               (restarted sd j w)).
  set (rest :=
    (let* x :=
       (let* e := (let* r := next_env in deliver (rx r) ;;; ret (err r)) in
        if negb (e =? 0) then ret goto_fail
        else
          let* e := serdev_device_write sd handshake_start 200 in
          if negb (e =? 0) then ret goto_fail
          else
            usleep_range 180000 200000 ;;;
            printk LogSentHandshake ;;;
            handshake_loop (length (script w)) sd) in
     match x with
     | goto_fail => ret tt
     | loop_done => timeout_init sd
     end) ;;;
    timeout_fail sd).
  assert (Hrest : stable trace_ext rest) by (subst rest; stable).
  intros H. destruct (Hrest w1 w' H) as [t Ht].
  exists t. rewrite Ht. subst w1. simpl. rewrite <- !app_assoc. reflexivity.
Qed.

Lemma timeout_handler_blocked (w : world) (sd : nat) (j : joycon) :
  sessions w !! sd = Some j ->
  timeout_expired j = true ->
  script w = [] ->
  timeout_handler sd w =
    Blocked (set_trace (trace (restarted sd j w) ++ [SerdevWrite sd magic_start 200])
               (restarted sd j w)).
Proof.
  intros Hs He Hsc.
  rewrite (timeout_handler_expired w sd j Hs He).
  unfold bind at 1. unfold bind at 1.
  rewrite handshake_loop_first.
  unfold bind at 1.
  now rewrite (write_blocked (restarted sd j w) sd magic_start 200 Hsc).
Qed.

Lemma timeout_handler_write_fails (w : world) (sd : nat) (j : joycon)
    (e : Z) (s : list env_resp) :
  sessions w !! sd = Some j ->
  timeout_expired j = true ->
  script w = answer e :: s ->
  e <> 0 ->
  timeout_handler sd w =
    Done tt
      {| sessions := <[sd := set_timeout_samples (num_samples j)
                               (set_initialized false (set_handshaken false j))]>
                       (sessions w);
         glob := glob w;
         trace := trace w ++ [timeout_log j;
                              SerdevWrite sd magic_start 200;
                              QueueDelayedWork (work_timeout_poll sd) 200];
         script := s |}.
Proof.
  intros Hs He Hsc Hne.
  rewrite (timeout_handler_expired w sd j Hs He).
  unfold bind at 1. unfold bind at 1.
  rewrite handshake_loop_first.
  unfold bind at 1.
  rewrite (write_answered (restarted sd j w) sd magic_start 200 e s Hsc).
  apply Z.eqb_neq in Hne. rewrite Hne. cbn [negb]. unfold ret at 1. unfold ret at 1.
  erewrite timeout_fail_run by (simpl; apply lookup_insert_eq).
  destruct w as [m g t sc]. unfold restarted, set_script, set_trace, set_sessions.
  simpl. rewrite insert_insert_eq, <- !app_assoc. reflexivity.
Qed.

Lemma timeout_handler_done (w w' : world) (sd : nat) :
  timeout_handler sd w = Done tt w' ->
  exists j' t,
    sessions w' !! sd = Some j'
    /\ timeout_samples j' = num_samples j'
    /\ trace w' = t ++ [QueueDelayedWork (work_timeout_poll sd) 200].
Proof.
  unfold timeout_handler. intros H.
  apply bind_done_inv in H as (j & w1 & _ & H).
  apply bind_done_inv in H as (? & w2 & _ & H).
  apply bind_done_inv in H as (? & w3 & _ & H).
  apply timeout_fail_done in H as (j' & Hs & Ht & Htr).
  exists j', (trace w3). auto.
Qed.

(** The test of the work, in terms of the two counters. *)
Lemma timeout_expired_iff (j : joycon) :
  INT_MIN <= num_samples j <= INT_MAX ->
  INT_MIN <= timeout_samples j <= INT_MAX ->
  timeout_expired j = true <->
  (num_samples j = timeout_samples j /\ num_samples j <> 0) \/ initialized j = false.
Proof.
  intros Hn Ht. unfold timeout_expired.
  rewrite (int32_sub_eq0 _ _ Hn Ht).
  rewrite orb_true_iff, andb_true_iff, !negb_true_iff, Z.eqb_eq, Z.eqb_neq.
  reflexivity.
Qed.

(** C3, counterexample.  The test looks at the state, not at the history.
    - After [recovery_run] the session is initialized again with both
      counters at 0.  The next check finds that the counter has not moved
      and that an input report did arrive earlier in the session, and yet
      does not restart the handshake: it logs, stores and re-arms only.
    - After [failed_recovery_run] the session, which had been initialized
      before, is not initialized, and its counter has moved since the last
      check (2 against 1).  The next check restarts the handshake. *)
Lemma liveness_test_forgets_history :
  (exists w4,
     recovery_run recovery_world = Done tt w4
     /\ sessions w4 = {[ 1%nat := ready_joycon 1 ]}
     /\ timeout_handler 1 w4 =
          Done tt
            (set_trace (trace w4 ++ [timeout_log (ready_joycon 1);
                                     QueueDelayedWork (work_timeout_poll 1) 200]) w4))
  /\ (exists w4,
        failed_recovery_run failed_recovery_world = Done tt w4
        /\ sessions w4 = {[ 1%nat := late_sample_joycon ]}
        /\ timeout_handler 1 w4 =
             Blocked
               (set_sessions {[ 1%nat := late_sample_joycon ]}
                  (set_trace (trace w4 ++ [timeout_log late_sample_joycon;
                                           SerdevWrite 1 magic_start 200]) w4))).
Proof.
  split; eexists; (split; [vm_compute; reflexivity|]);
    (split; [reflexivity|]); vm_compute; reflexivity.
Qed.

(** C3, as the code has it.  One run of [timeout_handler] on a session
    whose counters are [int]s.  The session is sent back to the
    unhandshaken state, and the handshake restarted inside the run, exactly
    when [num_samples] has not moved since the last run and is not zero,
    or the session is not initialized:
    - otherwise the run leaves both flags alone and writes nothing;
    - in that case the entry line and the write of [magic_start] are
      observed whatever the environment does; with no answer from the
      transport the run sits in that write with both flags cleared; with a
      failing first write it ends with both flags cleared.
    Every run that ends, after a failed write or not, leaves
    [timeout_samples] equal to [num_samples] and its last action is to queue
    itself again 200 ms later. *)
Theorem timeout_handler_tick (w : world) (sd : nat) (j : joycon) :
  sessions w !! sd = Some j ->
  INT_MIN <= num_samples j <= INT_MAX ->
  INT_MIN <= timeout_samples j <= INT_MAX ->
  let stalled :=
    (num_samples j = timeout_samples j /\ num_samples j <> 0) \/ initialized j = false in
  (~ stalled ->
   timeout_handler sd w =
     Done tt
       {| sessions := <[sd := set_timeout_samples (num_samples j) j]> (sessions w);
          glob := glob w;
          trace := trace w ++ [timeout_log j;
                               QueueDelayedWork (work_timeout_poll sd) 200];
          script := script w |})
  /\ (stalled ->
      (forall w',
         outcome (timeout_handler sd w) = Some w' ->
         exists t,
           trace w' = trace w ++ [timeout_log j; SerdevWrite sd magic_start 200] ++ t)
      /\ (script w = [] ->
          timeout_handler sd w =
            Blocked
              {| sessions := <[sd := set_initialized false (set_handshaken false j)]>
                               (sessions w);
                 glob := glob w;
                 trace := trace w ++ [timeout_log j; SerdevWrite sd magic_start 200];
                 script := [] |})
      /\ (forall (e : Z) (s : list env_resp),
            script w = answer e :: s ->
            e <> 0 ->
            timeout_handler sd w =
              Done tt
                {| sessions := <[sd := set_timeout_samples (num_samples j)
                                         (set_initialized false (set_handshaken false j))]>
                                 (sessions w);
                   glob := glob w;
                   trace := trace w ++ [timeout_log j;
                                        SerdevWrite sd magic_start 200;
                                        QueueDelayedWork (work_timeout_poll sd) 200];
                   script := s |}))
  /\ (forall w',
        timeout_handler sd w = Done tt w' ->
        exists j' t,
          sessions w' !! sd = Some j'
          /\ timeout_samples j' = num_samples j'
          /\ trace w' = t ++ [QueueDelayedWork (work_timeout_poll sd) 200]).
Proof.
  intros Hs Hn Ht stalled.
  pose proof (timeout_expired_iff j Hn Ht) as Hiff. fold stalled in Hiff.
  split; [|split].
  - intros Hno.
    assert (He : timeout_expired j = false).
    { destruct (timeout_expired j); [|reflexivity]. exfalso. apply Hno, Hiff. reflexivity. }
    now rewrite (timeout_handler_idle w sd j Hs He).
  - intros Hst. apply Hiff in Hst. split; [|split].
    + now apply timeout_handler_restarts.
    + intros Hsc. rewrite (timeout_handler_blocked w sd j Hs Hst Hsc).
      destruct w as [m g t sc]. simpl in Hsc. subst sc.
      unfold restarted. simpl. rewrite <- app_assoc. reflexivity.
    + intros e s Hsc Hne.
      exact (timeout_handler_write_fails w sd j e s Hs Hst Hsc Hne).
  - intros w'. apply timeout_handler_done.
Qed.

Lemma timeout_handler_tick_witness :
  (sessions (set_script write_times_out fresh_world) !! 1%nat = Some (joycon_zalloc 1)
   /\ INT_MIN <= num_samples (joycon_zalloc 1) <= INT_MAX
   /\ INT_MIN <= timeout_samples (joycon_zalloc 1) <= INT_MAX
   /\ initialized (joycon_zalloc 1) = false
   /\ script (set_script write_times_out fresh_world) = answer (-110) :: []
   /\ -110 <> 0)
  /\ timeout_handler 1 (set_script write_times_out fresh_world) =
       Done tt
         {| sessions := <[1%nat := set_timeout_samples (num_samples (joycon_zalloc 1))
                                  (set_initialized false
                                     (set_handshaken false (joycon_zalloc 1)))]>
                          (sessions (set_script write_times_out fresh_world));
            glob := glob (set_script write_times_out fresh_world);
            trace := trace (set_script write_times_out fresh_world)
                     ++ [timeout_log (joycon_zalloc 1);
                         SerdevWrite 1 magic_start 200;
                         QueueDelayedWork (work_timeout_poll 1) 200];
            script := [] |}.
Proof.
  assert (Hn : INT_MIN <= num_samples (joycon_zalloc 1) <= INT_MAX)
    by (vm_compute; split; discriminate).
  assert (Ht : INT_MIN <= timeout_samples (joycon_zalloc 1) <= INT_MAX)
    by (vm_compute; split; discriminate).
  split.
  - repeat split; try reflexivity; try apply Hn; try apply Ht; discriminate.
  - apply (proj2 (proj2 (proj1 (proj2
             (timeout_handler_tick (set_script write_times_out fresh_world) 1
                (joycon_zalloc 1) eq_refl Hn Ht))
             (or_intror eq_refl))) (-110) [] eq_refl).
    discriminate.
Defined.

(** ** Initialisation after the handshake *)

(** The loop is only left normally with [handshaken] set. *)
Lemma handshake_loop_done (sd : nat) (fuel : nat) :
  forall w w1,
    handshake_loop fuel sd w = Done loop_done w1 ->
    exists j1, sessions w1 !! sd = Some j1 /\ handshaken j1 = true.
Proof.
  induction fuel as [|fuel IH]; intros w w1; simpl; [discriminate|].
  intros H. apply bind_done_inv in H as (hs & w2 & Hget & H).
  unfold joycon_get in Hget.
  destruct (sessions w !! sd) as [j|] eqn:Hs; [|discriminate].
  injection Hget as <- <-.
  destruct (handshaken j) eqn:Hh.
  - injection H as <-. now exists j.
  - apply bind_done_inv in H as (e1 & w3 & _ & H).
    destruct (negb (e1 =? 0)); [discriminate|].
    apply bind_done_inv in H as (e2 & w4 & _ & H).
    destruct (negb (e2 =? 0)); [discriminate|].
    apply bind_done_inv in H as (? & w5 & _ & H).
    apply bind_done_inv in H as (? & w6 & _ & H).
    now apply (IH w6 w1).
Qed.

Lemma timeout_init_run (w : world) (sd : nat) (j : joycon)
    (e1 e2 e3 e4 : Z) (s : list env_resp) :
  sessions w !! sd = Some j ->
  script w = answer e1 :: answer e2 :: answer e3 :: answer e4 :: s ->
  timeout_init sd w =
    Done tt
      {| sessions := <[sd := set_initialized true (set_num_samples 0 j)]> (sessions w);
         glob := glob w;
         trace := trace w ++ [SerdevWrite sd get_mac 200; SerdevWrite sd unk_1 200;
                              SerdevWrite sd unk_2 200; SerdevWrite sd unk_3 200];
         script := s |}.
Proof.
  intros Hs Hsc. destruct w as [m g t sc]. simpl in Hs, Hsc. subst sc.
  unfold timeout_init, serdev_device_write, next_env. munfold.
  mrun Hs. rewrite insert_insert_eq, <- !app_assoc. reflexivity.
Qed.

Lemma write_done_trace (sd : nat) (data : list byte) (ms e : Z) (w w' : world) :
  serdev_device_write sd data ms w = Done e w' ->
  exists t, trace w' = trace w ++ [SerdevWrite sd data ms] ++ t.
Proof.
  unfold serdev_device_write. unfold bind at 1. unfold emit at 1. intros H.
  assert (Hrest : stable trace_ext (let* r := next_env in deliver (rx r) ;;; ret (err r)))
    by stable.
  destruct (Hrest (set_trace (trace w ++ [SerdevWrite sd data ms]) w) w') as [t Ht];
    [now rewrite H|].
  exists t. rewrite Ht. simpl. now rewrite <- app_assoc.
Qed.

(** Whatever is received meanwhile, a run of the four requests that ends
    has written [get_mac] first and leaves the session initialized with
    [num_samples] at 0. *)
Lemma timeout_init_done (w w' : world) (sd : nat) :
  timeout_init sd w = Done tt w' ->
  exists j' t,
    sessions w' !! sd = Some (set_initialized true (set_num_samples 0 j'))
    /\ trace w' = trace w ++ [SerdevWrite sd get_mac 200] ++ t.
Proof.
  unfold timeout_init. intros H.
  apply bind_done_inv in H as (e1 & w1 & H1 & H).
  apply bind_done_inv in H as (e2 & w2 & H2 & H).
  apply bind_done_inv in H as (e3 & w3 & H3 & H).
  apply bind_done_inv in H as (e4 & w4 & H4 & H).
  apply bind_done_inv in H as ([] & w5 & H5 & H6).
  apply write_done_trace in H1 as [t1 Ht1].
  destruct (stable_write trace_ext sd unk_1 200 w1 w2) as [t2 Ht2]; [now rewrite H2|].
  destruct (stable_write trace_ext sd unk_2 200 w2 w3) as [t3 Ht3]; [now rewrite H3|].
  destruct (stable_write trace_ext sd unk_3 200 w3 w4) as [t4 Ht4]; [now rewrite H4|].
  unfold joycon_set in H5, H6.
  destruct (sessions w4 !! sd) as [j4|] eqn:Hs4; [|discriminate].
  injection H5 as <-. simpl in H6. rewrite lookup_insert_eq in H6.
  injection H6 as <-. simpl.
  exists j4, (t1 ++ t2 ++ t3 ++ t4). split.
  - rewrite insert_insert_eq. apply lookup_insert_eq.
  - rewrite Ht4, Ht3, Ht2, Ht1, <- !app_assoc. reflexivity.
Qed.


(** ** Scripts under which the handshake completes *)

Lemma usleep_quiet (w : world) (lo hi : Z) (s : list env_resp) :
  script w = quiet :: s ->
  usleep_range lo hi w = Done tt (set_script s (set_trace (trace w ++ [UsleepRange lo hi]) w)).
Proof.
  intros Hs. unfold usleep_range, next_env. munfold. simpl. rewrite Hs. reflexivity.
Qed.

Lemma usleep_ack (w : world) (sd : nat) (j : joycon) (lo hi : Z) (s : list env_resp) :
  sessions w !! sd = Some j ->
  serdev j = sd ->
  script w = {| err := 0; rx := [RxFrame sd handshake_ack 0] |} :: s ->
  usleep_range lo hi w =
    Done tt
      {| sessions := <[sd := set_handshaken true j]> (sessions w);
         glob := glob w;
         trace := trace w ++ [UsleepRange lo hi; Printk LogGotHandshake];
         script := s |}.
Proof.
  intros Hs Hsd Hsc. unfold usleep_range.
  unfold bind at 1. unfold emit at 1. unfold bind at 1. unfold next_env at 1.
  simpl script. rewrite Hsc. cbn [rx deliver rx_serdev rx_buf rx_j].
  unfold bind at 1.
  erewrite receive_handshake; [|exact Hs|exact Hsd|reflexivity].
  unfold ret, set_sessions, set_trace, set_script. simpl.
  rewrite <- app_assoc. reflexivity.
Qed.

(** After [n] turns without a reply and one turn with it, the loop is left
    with [handshaken] set: enough script gives the result. *)
Lemma handshake_loop_retries (sd : nat) (n : nat) :
  forall (fuel : nat) (w : world) (j : joycon) (s : list env_resp),
    sessions w !! sd = Some j ->
    serdev j = sd ->
    handshaken j = false ->
    script w = concat (replicate n retry_round) ++ ack_round sd ++ s ->
    (n + 2 <= fuel)%nat ->
    handshake_loop fuel sd w =
      Done loop_done
        {| sessions := <[sd := set_handshaken true j]> (sessions w);
           glob := glob w;
           trace := trace w
                    ++ concat (replicate n (round_trace sd ++ [Printk LogSentHandshake]))
                    ++ round_trace sd ++ [Printk LogGotHandshake; Printk LogSentHandshake];
           script := s |}.
Proof.
  induction n as [|n IH]; intros fuel w j s Hs Hsd Hh Hsc Hfuel.
  - destruct fuel as [|[|fuel]]; [lia..|].
    destruct w as [m g t sc]. simpl in Hs, Hsc. subst sc.
    cbn [handshake_loop]. unfold bind at 1. unfold joycon_get at 1. simpl sessions.
    rewrite Hs, Hh.
    unfold bind at 1. erewrite write_answered by reflexivity.
    cbn [negb Z.eqb]. unfold bind at 1. erewrite write_answered by reflexivity.
    cbn [negb Z.eqb]. unfold bind at 1.
    erewrite usleep_ack; [|exact Hs|exact Hsd|reflexivity].
    unfold bind at 1. unfold printk, emit. unfold bind at 1.
    unfold joycon_get. simpl sessions. rewrite lookup_insert_eq. simpl.
    rewrite <- !app_assoc. reflexivity.
  - destruct fuel as [|fuel]; [lia|].
    destruct w as [m g t sc]. simpl in Hs, Hsc. subst sc.
    cbn [handshake_loop]. unfold bind at 1. unfold joycon_get at 1. simpl sessions.
    rewrite Hs, Hh.
    unfold bind at 1. erewrite write_answered by reflexivity.
    cbn [negb Z.eqb]. unfold bind at 1. erewrite write_answered by reflexivity.
    cbn [negb Z.eqb]. unfold bind at 1.
    erewrite usleep_quiet by reflexivity.
    unfold bind at 1. unfold printk, emit.
    erewrite (IH fuel _ j s); [|exact Hs|exact Hsd|exact Hh|reflexivity|lia].
    simpl. rewrite <- !app_assoc. reflexivity.
Qed.

Lemma length_rounds {A} (n : nat) (l : list A) :
  length (concat (replicate n l)) = (n * length l)%nat.
Proof.
  induction n as [|n IH]; simpl; [reflexivity|]. now rewrite length_app, IH.
Qed.

(** The whole run: an expired session, [n] turns without a reply, the
    reply, and the four requests answered. *)
Lemma timeout_handler_handshakes (w : world) (sd : nat) (j : joycon) (n : nat)
    (e1 e2 e3 e4 : Z) (s : list env_resp) :
  sessions w !! sd = Some j ->
  serdev j = sd ->
  timeout_expired j = true ->
  script w = concat (replicate n retry_round) ++ ack_round sd
             ++ answer e1 :: answer e2 :: answer e3 :: answer e4 :: s ->
  timeout_handler sd w =
    Done tt
      {| sessions := <[sd := set_timeout_samples 0
                               (set_initialized true
                                  (set_num_samples 0 (set_handshaken true j)))]>
                       (sessions w);
         glob := glob w;
         trace := trace w ++ [timeout_log j]
                  ++ concat (replicate n (round_trace sd ++ [Printk LogSentHandshake]))
                  ++ round_trace sd ++ [Printk LogGotHandshake; Printk LogSentHandshake]
                  ++ [SerdevWrite sd get_mac 200; SerdevWrite sd unk_1 200;
                      SerdevWrite sd unk_2 200; SerdevWrite sd unk_3 200;
                      QueueDelayedWork (work_timeout_poll sd) 200];
         script := s |}.
Proof.
  intros Hs Hsd He Hsc.
  rewrite (timeout_handler_expired w sd j Hs He).
  unfold bind at 1. unfold bind at 1.
  erewrite (handshake_loop_retries sd n _ (restarted sd j w)
              (set_initialized false (set_handshaken false j)));
    [|simpl; apply lookup_insert_eq|exact Hsd|reflexivity|exact Hsc
     |rewrite Hsc, length_app, length_rounds; simpl; lia].
  erewrite timeout_init_run; [|simpl; apply lookup_insert_eq|reflexivity].
  erewrite timeout_fail_run by (simpl; apply lookup_insert_eq).
  destruct w as [m g t sc]. destruct j. unfold restarted, set_sessions, set_trace. simpl.
  rewrite !insert_insert_eq, <- !app_assoc. reflexivity.
Qed.


(** * Further properties *)

(** ** The bytes a frame needs *)

Lemma bind_rd {B} (p : list byte) (i : nat) (k : Z -> M B) (w : world) (b : byte) :
  p !! i = Some b -> bind (rd p i) k w = k (u8 b) w.
Proof. intros H. unfold bind, rd. now rewrite H. Qed.

Lemma bind_rd_none {B} (p : list byte) (i : nat) (k : Z -> M B) (w : world) :
  p !! i = None -> bind (rd p i) k w = Fault.
Proof. intros H. unfold bind, rd. now rewrite H. Qed.

Lemma extret_need_range (bs : Z) (p : list byte) : (1 <= extret_need bs p <= 12)%nat.
Proof.
  unfold extret_need.
  repeat match goal with
         | |- context [match ?x with _ => _ end] => destruct x
         end; lia.
Qed.

Lemma initret_need_range (p : list byte) : (1 <= initret_need p <= 13)%nat.
Proof.
  unfold initret_need.
  repeat match goal with
         | |- context [match ?x with _ => _ end] => destruct x
         end; lia.
Qed.

Lemma frame_need_range (bs : Z) (buf : list byte) : (6 <= frame_need bs buf <= 24)%nat.
Proof.
  unfold frame_need, sizeof_joycon_uart_header, sizeof_joycon_uart_initial.
  pose proof (extret_need_range bs (drop 12 buf)).
  pose proof (initret_need_range (drop (5 + 1) buf)).
  repeat match goal with
         | |- context [match ?x with _ => _ end] => destruct x
         end; lia.
Qed.

Lemma extret_parse_bounds (w : world) (sd : nat) (j : joycon) (p : list byte) (size : Z) :
  sessions w !! sd = Some j ->
  ((length p < extret_need (button_set j) p)%nat -> joycon_extret_parse sd p size w = Fault)
  /\ ((extret_need (button_set j) p <= length p)%nat ->
      exists w', joycon_extret_parse sd p size w = Done tt w').
Proof.
  intros Hs. destruct w as [m g t s]. simpl in Hs.
  unfold extret_need, owns, joycon_extret_parse, JOYCON_EXT_INPUT. munfold.
  destruct p as [|b0 p]; [mrun Hs; split; [reflexivity|lia]|].
  cbn [lookup list_lookup].
  destruct (u8 b0 =? 48) eqn:H0; [|mrun Hs; split; [lia|eauto]].
  destruct (Z.land (button_set j) JOYCON_BUTTONSET_LEFT =? 0) eqn:HL;
  destruct (Z.land (button_set j) JOYCON_BUTTONSET_RIGHT =? 0) eqn:HR; cbn [negb];
  destruct p as [|b1 [|b2 [|b3 [|b4 [|b5 [|b6 [|b7 [|b8 [|b9 [|b10 [|b11 p]]]]]]]]]]];
    mrun Hs; rewrite ?H0; mrun Hs; rewrite ?HL, ?HR; mrun Hs; rewrite ?HL, ?HR; mrun Hs;
    rewrite ?HL, ?HR; mrun Hs; rewrite ?HL, ?HR; mrun Hs;
    (split; [first [reflexivity | lia] | first [lia | eauto]]).
Qed.

Lemma mac_store_done (w : world) (sd : nat) (j : joycon) (i : Z) (b : byte) :
  sessions w !! sd = Some j ->
  exists w' j',
    mac_store sd i b w = Done tt w'
    /\ sessions w' !! sd = Some j'
    /\ length (mac j') = length (mac j).
Proof.
  intros Hs. unfold mac_store, joycon_set, emit.
  destruct ((0 <=? i) && (i <? 6)).
  - rewrite Hs. eexists. eexists. split; [reflexivity|]. simpl.
    rewrite lookup_insert_eq. split; [reflexivity|]. simpl. apply length_insert.
  - eexists. exists j. split; [reflexivity|]. simpl. auto.
Qed.

(** The copy loop does not fault when the bytes it reads are there. *)
Lemma mac_loop_done (sd : nat) (p : list byte) (i : nat) :
  forall (j0 : Z) (w : world) (j : joycon),
    sessions w !! sd = Some j ->
    (i < length p)%nat ->
    exists w' j',
      mac_loop sd p i j0 w = Done tt w'
      /\ sessions w' !! sd = Some j'
      /\ length (mac j') = length (mac j).
Proof.
  induction i as [|i IH]; intros j0 w j Hs Hi; rewrite mac_loop_eq.
  - exists w, j. auto.
  - destruct (6 <=? S i)%nat; [|exists w, j; auto].
    destruct (lookup_lt_is_Some_2 p (S i) Hi) as [b Hb].
    destruct (mac_store_done w sd j j0 b Hs) as (w1 & j1 & H1 & Hs1 & Hl1).
    destruct (IH (int32 (j0 + 1)) w1 j1 Hs1 ltac:(lia)) as (w2 & j2 & H2 & Hs2 & Hl2).
    exists w2, j2. unfold bind, rd_byte. rewrite Hb, H1.
    split; [exact H2|]. split; [exact Hs2|]. congruence.
Qed.

Lemma initret_parse_bounds (w : world) (sd : nat) (j : joycon) (p : list byte) (size j0 : Z) :
  sessions w !! sd = Some j ->
  length (mac j) = 6%nat ->
  ((length p < initret_need p)%nat -> joycon_initret_parse sd p size j0 w = Fault)
  /\ ((initret_need p <= length p)%nat ->
      exists w', joycon_initret_parse sd p size j0 w = Done tt w').
Proof.
  intros Hs Hm. unfold initret_need, joycon_initret_parse.
  destruct p as [|b0 p];
    [rewrite bind_rd_none by reflexivity; split; [reflexivity|simpl; lia]|].
  rewrite !(bind_rd _ _ _ _ b0) by reflexivity.
  cbn [lookup list_lookup].
  destruct (u8 b0 =? JOYCON_INIT_MAC).
  - split.
    + intros Hlt. unfold bind. rewrite mac_loop_eq. unfold bind, rd_byte.
      rewrite (proj2 (lookup_ge_None _ _)) by lia. reflexivity.
    + intros Hge.
      destruct (mac_loop_done sd (b0 :: p) 12 j0 w j Hs ltac:(lia))
        as (w1 & j1 & H1 & Hs1 & Hl1).
      unfold bind. rewrite H1. munfold. rewrite Hs1. simpl. rewrite Hs1.
      destruct (mac j1) as [|m0 ms] eqn:Hmac; [simpl in Hl1; lia|].
      simpl. destruct (negb (u8 m0 =? 124)); simpl; rewrite Hs1; eauto.
  - split; [simpl; lia|intros _].
    destruct ((u8 b0 =? JOYCON_INIT_UNK1) || (u8 b0 =? JOYCON_INIT_UNK2)
              || (u8 b0 =? JOYCON_INIT_UNK3)); [eexists; reflexivity|].
    destruct (u8 b0 =? JOYCON_INIT_BAUDRATE); eexists; reflexivity.
Qed.

(** X1.  How long a buffer has to be.  For a device whose driver data is a
    session bound to it, [joycon_serdev_receive_buf] reads past the bytes it
    was given exactly when the buffer is shorter than [frame_need]: 6 bytes
    for a handshake reply or an unknown command, 7 for an initialisation
    reply other than the identifier, 19 for an identifier reply, 13 for an
    extended reply other than an input report, and for an input report 18,
    21 or 24 bytes according to the side the session owns.  In all other
    cases the callback returns the length of the buffer.  So a buffer
    shorter than 6 bytes, the empty one too, is always read past its end,
    and one of 24 bytes or more never is. *)
Theorem receive_buf_bounds (w : world) (sd : nat) (j : joycon) (buf : list byte) (j0 : Z) :
  sessions w !! sd = Some j ->
  serdev j = sd ->
  length (mac j) = 6%nat ->
  ((length buf < frame_need (button_set j) buf)%nat ->
   joycon_serdev_receive_buf sd buf j0 w = Fault)
  /\ ((frame_need (button_set j) buf <= length buf)%nat ->
      exists w',
        joycon_serdev_receive_buf sd buf j0 w = Done (int32 (Z.of_nat (length buf))) w')
  /\ (6 <= frame_need (button_set j) buf <= 24)%nat.
Proof.
  intros Hs Hsd Hm. split; [|split; [|apply frame_need_range]].
  - intros Hlt. rewrite receive_buf_eq, Hs, Hsd, Nat.eqb_refl. cbn [negb].
    revert Hlt. unfold frame_need, joycon_packet_parse.
    unfold bind at 1. unfold rd at 1.
    destruct (buf !! offsetof_command) as [c|] eqn:Hc; [|reflexivity].
    destruct (u8 c =? JOYCON_COMMAND_EXTRET).
    + intros Hlt. unfold bind, rd.
      destruct (buf !! offsetof_data); [|reflexivity].
      destruct (buf !! (offsetof_data + 1)%nat); [|reflexivity].
      rewrite (proj1 (extret_parse_bounds w sd j _ _ Hs)); [reflexivity|].
      pose proof (extret_need_range (button_set j) (drop sizeof_joycon_uart_header buf)).
      rewrite length_drop. lia.
    + destruct (u8 c =? JOYCON_COMMAND_INITRET).
      * intros Hlt.
        rewrite (proj1 (initret_parse_bounds w sd j _ _ j0 Hs Hm)); [reflexivity|].
        pose proof (initret_need_range (drop (sizeof_joycon_uart_initial + 1) buf)).
        rewrite length_drop. lia.
      * intros Hlt. apply lookup_lt_Some in Hc. unfold offsetof_command in Hc. lia.
  - intros Hge. rewrite receive_buf_eq, Hs, Hsd, Nat.eqb_refl. cbn [negb].
    revert Hge. unfold frame_need, joycon_packet_parse.
    unfold bind at 1. unfold rd at 1.
    destruct (buf !! offsetof_command) as [c|] eqn:Hc;
      [|intros Hge; apply lookup_ge_None in Hc; unfold offsetof_command in Hc; lia].
    destruct (u8 c =? JOYCON_COMMAND_EXTRET).
    + intros Hge. unfold bind, rd.
      destruct (lookup_lt_is_Some_2 buf offsetof_data) as [d0 ->];
        [unfold offsetof_data, sizeof_joycon_uart_header in *; lia|].
      destruct (lookup_lt_is_Some_2 buf (offsetof_data + 1)) as [d1 ->];
        [unfold offsetof_data, sizeof_joycon_uart_header in *; lia|].
      destruct (proj2 (extret_parse_bounds w sd j (drop sizeof_joycon_uart_header buf)
                         (Z.lor (Z.shiftl (u8 d0) 8) (u8 d1)) Hs)) as [w' ->];
        [rewrite length_drop; lia|]. eauto.
    + destruct (u8 c =? JOYCON_COMMAND_INITRET).
      * intros Hge.
        destruct (proj2 (initret_parse_bounds w sd j
                           (drop (sizeof_joycon_uart_initial + 1) buf)
                           (u32 (Z.of_nat (length buf) - Z.of_nat sizeof_joycon_uart_initial - 1))
                           j0 Hs Hm)) as [w' ->];
          [rewrite length_drop; lia|]. eauto.
      * intros _. destruct (u8 c =? JOYCON_COMMAND_HANDSHAKE).
        -- munfold. simpl. rewrite Hs. eauto.
        -- eauto.
Qed.

Lemma receive_buf_bounds_witness :
  (sessions pair_world !! 2%nat = Some (right_joycon 2)
   /\ serdev (right_joycon 2) = 2%nat
   /\ length (mac (right_joycon 2)) = 6%nat
   /\ (length (take 23 idle_report) < frame_need (button_set (right_joycon 2))
                                        (take 23 idle_report))%nat
   /\ (frame_need (button_set (right_joycon 2)) idle_report <= length idle_report)%nat)
  /\ joycon_serdev_receive_buf 2 [] 0 pair_world = Fault
  /\ joycon_serdev_receive_buf 2 (take 23 idle_report) 0 pair_world = Fault
  /\ exists w', joycon_serdev_receive_buf 2 idle_report 0 pair_world = Done 24 w'.
Proof.
  split; [repeat split; vm_compute; first [reflexivity | lia]|].
  split; [|split].
  - apply (proj1 (receive_buf_bounds pair_world 2 (right_joycon 2) [] 0
                    eq_refl eq_refl eq_refl)).
    vm_compute. lia.
  - apply (proj1 (receive_buf_bounds pair_world 2 (right_joycon 2) (take 23 idle_report) 0
                    eq_refl eq_refl eq_refl)).
    vm_compute. lia.
  - apply (proj1 (proj2 (receive_buf_bounds pair_world 2 (right_joycon 2) idle_report 0
                           eq_refl eq_refl eq_refl))).
    vm_compute. lia.
Defined.

(** ** Walking the code with an invariant *)

Lemma wp_bind {A B} (c : M A) (k : A -> M B) (Q : B -> world -> Prop)
    (Bl : world -> Prop) (w : world) :
  wp (bind c k) Q Bl w <-> wp c (fun a => wp (k a) Q Bl) Bl w.
Proof. unfold wp, bind. destruct (c w); reflexivity. Qed.

Lemma triple_bind {A B} (P : world -> Prop) (c : M A) (k : A -> M B)
    (R : A -> world -> Prop) (Q : B -> world -> Prop) (Bl : world -> Prop) :
  triple P c R Bl -> (forall a, triple (R a) (k a) Q Bl) -> triple P (bind c k) Q Bl.
Proof.
  intros Hc Hk w HP. apply wp_bind. specialize (Hc w HP). unfold wp in *.
  destruct (c w) as [a w1|w1|]; [|exact Hc|exact I].
  exact (Hk a w1 Hc).
Qed.

Lemma triple_conseq {A} (P P' : world -> Prop) (c : M A)
    (Q Q' : A -> world -> Prop) (B B' : world -> Prop) :
  (forall w, P' w -> P w) ->
  (forall a w, Q a w -> Q' a w) ->
  (forall w, B w -> B' w) ->
  triple P c Q B -> triple P' c Q' B'.
Proof.
  intros HP HQ HB H w Hw. specialize (H w (HP w Hw)). unfold wp in *.
  destruct (c w); auto.
Qed.

Lemma triple_outcome {A} (P Q : world -> Prop) (c : M A) :
  triple P c (fun _ => Q) Q ->
  forall w w', P w -> outcome (c w) = Some w' -> Q w'.
Proof.
  intros H w w' HP. specialize (H w HP). unfold wp in H.
  destruct (c w); simpl; intros [= <-]; exact H.
Qed.

Section Walk.
Context (J : gmap nat joycon -> Prop) (G : globals -> Prop)
  (T : bool -> list event -> Prop) (E : list env_resp -> Prop).

Lemma moves_ret {A} (h : bool) (a : A) : moves J G T E h h (ret a).
Proof. intros w H. exact H. Qed.

Lemma moves_fault {A} (h h' : bool) : moves J G T E h h' (@fault A).
Proof. intros w H. exact I. Qed.

Lemma moves_bind {A B} (h h1 h' : bool) (c : M A) (k : A -> M B) :
  moves J G T E h h1 c -> (forall a, moves J G T E h1 h' (k a)) ->
  moves J G T E h h' (bind c k).
Proof. apply triple_bind. Qed.

Lemma moves_rd {B} (h h' : bool) (p : list byte) (i : nat) (k : Z -> M B) :
  (forall b, moves J G T E h h' (k (u8 b))) -> moves J G T E h h' (bind (rd p i) k).
Proof.
  intros Hk w H. unfold wp, bind, rd. destruct (p !! i) as [b|]; [|exact I].
  exact (Hk b w H).
Qed.

Lemma moves_rd_byte {B} (h h' : bool) (p : list byte) (i : nat) (k : byte -> M B) :
  (forall b, moves J G T E h h' (k b)) -> moves J G T E h h' (bind (rd_byte p i) k).
Proof.
  intros Hk w H. unfold wp, bind, rd_byte. destruct (p !! i) as [b|]; [|exact I].
  exact (Hk b w H).
Qed.

Lemma moves_joycon_get {A} (h : bool) (sd : nat) (f : joycon -> A) :
  moves J G T E h h (joycon_get sd f).
Proof.
  intros w H. unfold wp, joycon_get. destruct (sessions w !! sd); [exact H|exact I].
Qed.

Lemma moves_glob_get {A} (h : bool) (f : globals -> A) : moves J G T E h h (glob_get f).
Proof. intros w H. exact H. Qed.

Lemma moves_get_drvdata (h : bool) (sd : nat) :
  moves J G T E h h (serdev_device_get_drvdata sd).
Proof. intros w H. exact H. Qed.

Lemma holds_sessions (h : bool) (w : world) (m : gmap nat joycon) :
  holds J G T E h w -> J m -> holds J G T E h (set_sessions m w).
Proof. intros (HJ & HG & HT & HE) Hm. now repeat split. Qed.

Lemma moves_joycon_set (h : bool) (sd : nat) (f : joycon -> joycon) :
  (forall m j, m !! sd = Some j -> J m -> J (<[sd := f j]> m)) ->
  moves J G T E h h (joycon_set sd f).
Proof.
  intros Hf w H. unfold wp, joycon_set.
  destruct (sessions w !! sd) as [j|] eqn:Hs; [|exact I].
  apply holds_sessions; [exact H|]. apply Hf; [exact Hs|exact (proj1 H)].
Qed.

Lemma moves_glob_set (h : bool) (f : globals -> globals) :
  (forall g, G g -> G (f g)) -> moves J G T E h h (glob_set f).
Proof.
  intros Hf w (HJ & HG & HT & HE). unfold wp, glob_set.
  split; [exact HJ|]. split; [apply Hf, HG|]. now split.
Qed.

Lemma moves_emit (h h' : bool) (e : event) :
  (forall t, T h t -> T h' (t ++ [e])) -> moves J G T E h h' (emit e).
Proof.
  intros He w (HJ & HG & HT & HE). unfold wp, emit.
  split; [exact HJ|]. split; [exact HG|]. split; [apply He, HT|exact HE].
Qed.

Context (D : nat -> Prop) `{!RxInvariant D J G T}.

Lemma moves_printk (m : log) : moves J G T E false false (printk m).
Proof. apply moves_emit. intros t. apply rx_printk. Qed.

Lemma moves_lock : moves J G T E false true (mutex_lock joycon_input_lock).
Proof. apply moves_emit, rx_lock. Qed.

Lemma moves_unlock : moves J G T E true false (mutex_unlock joycon_input_lock).
Proof. apply moves_emit, rx_unlock. Qed.

(** [buttons &= ~MASK; buttons |= (joycon->buttons & MASK);] *)
Lemma moves_merge (h : bool) (sd : nat) (left : bool) :
  moves J G T E h h
    (glob_set (fun g => set_buttons
       (Z.land (buttons g)
          (u32 (Z.lnot (if left then JOYCON_BUTTONS_LEFT else JOYCON_BUTTONS_RIGHT)))) g) ;;;
     let* jb := joycon_get sd joycon_buttons in
     glob_set (fun g => set_buttons
       (Z.lor (buttons g)
          (Z.land jb (if left then JOYCON_BUTTONS_LEFT else JOYCON_BUTTONS_RIGHT))) g)).
Proof.
  eapply moves_bind; [apply moves_glob_set; intros g; apply rx_clear|intros _].
  eapply moves_bind; [apply moves_joycon_get|intros jb].
  apply moves_glob_set. intros g. apply rx_merge.
Qed.

(** The two stores to the stick values of one side. *)
Lemma moves_sticks (h : bool) (p : list byte) (left : bool) :
  moves J G T E h h
    (let* hi := rd p (if left then 7 else 10)%nat in
     let* lo := rd p (if left then 6 else 9)%nat in
     glob_set ((if left then set_stick_lx else set_stick_rx)
       (Z.lor (Z.shiftl (Z.land hi 0x0F) 4) (Z.shiftr (Z.land lo 0xF0) 4))) ;;;
     let* y := rd p (if left then 8 else 11)%nat in
     glob_set ((if left then set_stick_ly else set_stick_ry) (256 - y))).
Proof.
  apply moves_rd. intros hi. apply moves_rd. intros lo.
  eapply moves_bind.
  - apply moves_glob_set. intros g.
    destruct left; [apply (rx_stick_lx g lo hi)|apply (rx_stick_rx g lo hi)].
  - intros _. apply moves_rd. intros y. apply moves_glob_set. intros g.
    destruct left; [apply (rx_stick_ly g y)|apply (rx_stick_ry g y)].
Qed.

Lemma moves_extret_parse (sd : nat) (p : list byte) (size : Z) :
  D sd -> moves J G T E false false (joycon_extret_parse sd p size).
Proof.
  intros Hd. unfold joycon_extret_parse.
  eapply moves_bind; [apply moves_joycon_get|intros _].
  apply moves_rd. intros b0.
  destruct (u8 b0 =? JOYCON_EXT_INPUT); [|apply moves_printk].
  apply moves_rd. intros b3. apply moves_rd. intros b4. apply moves_rd. intros b5.
  eapply moves_bind;
    [apply moves_joycon_set; intros m j; now apply (rx_buttons m sd j b3 b4 b5)|intros _].
  eapply moves_bind; [apply moves_lock|intros _].
  eapply moves_bind; [apply moves_joycon_get|intros bs1].
  eapply moves_bind;
    [unfold when; destruct (negb _); [apply (moves_merge true sd true)|apply moves_ret]
    |intros _].
  eapply moves_bind; [apply moves_joycon_get|intros bs2].
  eapply moves_bind;
    [unfold when; destruct (negb _); [apply (moves_merge true sd false)|apply moves_ret]
    |intros _].
  eapply moves_bind; [apply moves_joycon_get|intros bs3].
  eapply moves_bind;
    [unfold when; destruct (negb _); [apply (moves_sticks true p true)|apply moves_ret]
    |intros _].
  eapply moves_bind; [apply moves_joycon_get|intros bs4].
  eapply moves_bind;
    [unfold when; destruct (negb _); [apply (moves_sticks true p false)|apply moves_ret]
    |intros _].
  eapply moves_bind; [apply moves_unlock|intros _].
  eapply moves_bind; [apply moves_joycon_get|intros n].
  apply moves_joycon_set. intros m j. now apply rx_sample.
Qed.

Lemma moves_mac_store (sd : nat) (i : Z) (b : byte) :
  D sd -> moves J G T E false false (mac_store sd i b).
Proof.
  intros Hd. unfold mac_store.
  destruct (Z.leb_spec 0 i); destruct (Z.ltb_spec i 6); cbn [andb];
    try (apply moves_emit; intros t; apply rx_stray; lia).
  apply moves_joycon_set. intros m j. apply rx_mac; [exact Hd|lia].
Qed.

Lemma moves_mac_loop (sd : nat) (p : list byte) (i : nat) :
  D sd -> forall j, moves J G T E false false (mac_loop sd p i j).
Proof.
  intros Hd. induction i as [|i IH]; intros j; rewrite mac_loop_eq.
  - apply moves_ret.
  - destruct (6 <=? S i)%nat; [|apply moves_ret].
    apply moves_rd_byte. intros b.
    eapply moves_bind; [now apply moves_mac_store|intros _]. apply IH.
Qed.

Lemma moves_initret_parse (sd : nat) (p : list byte) (size j0 : Z) :
  D sd -> moves J G T E false false (joycon_initret_parse sd p size j0).
Proof.
  intros Hd. unfold joycon_initret_parse. apply moves_rd. intros b0.
  destruct (u8 b0 =? JOYCON_INIT_MAC).
  - eapply moves_bind; [now apply moves_mac_loop|intros _].
    eapply moves_bind; [apply moves_joycon_get|intros m].
    eapply moves_bind; [apply moves_printk|intros _].
    eapply moves_bind; [apply moves_joycon_get|intros m'].
    apply moves_rd. intros m0.
    destruct (negb _); apply moves_joycon_set; intros mp j.
    + now apply (rx_side mp sd j true).
    + now apply (rx_side mp sd j false).
  - destruct (_ || _); [apply moves_ret|].
    destruct (_ =? _); [|apply moves_printk].
    eapply moves_bind; [|intros _; apply moves_printk].
    apply moves_emit. intros t. apply rx_baudrate.
Qed.

Lemma moves_packet_parse (sd : nat) (p : list byte) (size j0 : Z) :
  D sd -> moves J G T E false false (joycon_packet_parse sd p size j0).
Proof.
  intros Hd. unfold joycon_packet_parse. apply moves_rd. intros c.
  destruct (u8 c =? JOYCON_COMMAND_EXTRET).
  - apply moves_rd. intros d0. apply moves_rd. intros d1. now apply moves_extret_parse.
  - destruct (u8 c =? JOYCON_COMMAND_INITRET); [now apply moves_initret_parse|].
    destruct (u8 c =? JOYCON_COMMAND_HANDSHAKE); [|apply moves_printk].
    eapply moves_bind; [apply moves_printk|intros _].
    apply moves_joycon_set. intros m j. now apply rx_handshaken.
Qed.

Lemma moves_receive_buf (sd : nat) (buf : list byte) (j0 : Z) :
  D sd -> moves J G T E false false (joycon_serdev_receive_buf sd buf j0).
Proof.
  intros Hd. unfold joycon_serdev_receive_buf.
  eapply moves_bind; [apply moves_get_drvdata|intros [j|]].
  - destruct (negb _).
    + eapply moves_bind; [|intros _; apply moves_ret].
      apply moves_emit. intros t. apply rx_warn.
    + eapply moves_bind; [now apply moves_packet_parse|intros _]. apply moves_ret.
  - eapply moves_bind; [|intros _; apply moves_ret].
    apply moves_emit. intros t. apply rx_warn.
Qed.

Lemma moves_deliver (frames : list rx_frame) :
  (forall sd, D sd) -> moves J G T E false false (deliver frames).
Proof.
  intros Hd. induction frames as [|f frames IH]; simpl; [apply moves_ret|].
  eapply moves_bind; [apply moves_receive_buf, Hd|intros _]. exact IH.
Qed.

End Walk.

#[export] Instance rx_and_handshaken (D : nat -> Prop) (J : gmap nat joycon -> Prop)
    (G : globals -> Prop) (T : bool -> list event -> Prop) (sd : nat)
    `{!RxInvariant D J G T} :
  RxInvariant D (and_handshaken J sd) G T.
Proof.
  assert (Hkeep : forall (m : gmap nat joycon) sd' j (f : joycon -> joycon),
            m !! sd' = Some j ->
            (handshaken j = true -> handshaken (f j) = true) ->
            (forall j1, m !! sd = Some j1 -> handshaken j1 = true) ->
            forall j1, <[sd' := f j]> m !! sd = Some j1 -> handshaken j1 = true).
  { intros m sd' j f Hs Hf Hm j1. destruct (decide (sd' = sd)) as [->|Hne].
    - rewrite lookup_insert_eq. intros [= <-]. apply Hf. now apply Hm.
    - rewrite lookup_insert_ne by exact Hne. apply Hm. }
  split; unfold and_handshaken.
  - intros m sd' j b3 b4 b5 Hd Hs [H1 H2].
    split; [now apply rx_buttons|now apply Hkeep].
  - intros m sd' j n Hd Hs [H1 H2]. split; [now apply rx_sample|now apply Hkeep].
  - intros m sd' j i b Hd Hi Hs [H1 H2]. split; [now apply rx_mac|now apply Hkeep].
  - intros m sd' j left Hd Hs [H1 H2]. split; [now apply rx_side|now apply Hkeep].
  - intros m sd' j Hd Hs [H1 H2]. split; [now apply rx_handshaken|now apply Hkeep].
  - apply rx_clear.
  - apply rx_merge.
  - apply rx_stick_lx.
  - apply rx_stick_ly.
  - apply rx_stick_rx.
  - apply rx_stick_ry.
  - apply rx_lock.
  - apply rx_unlock.
  - apply rx_printk.
  - apply rx_warn.
  - apply rx_baudrate.
  - apply rx_stray.
Qed.

Section WalkBlocking.
Context (J : gmap nat joycon -> Prop) (G : globals -> Prop)
  (T : bool -> list event -> Prop) (E : list env_resp -> Prop)
  `{!RxInvariant (fun _ => True) J G T} `{!BlockingInvariant T E}.

Lemma moves_next_env : moves J G T E false false next_env.
Proof.
  intros w H. unfold wp, next_env.
  destruct (script w) as [|r s] eqn:Hsc; [exact H|].
  destruct H as (HJ & HG & HT & HE).
  split; [exact HJ|]. split; [exact HG|]. split; [exact HT|].
  simpl. apply (bl_answer r s). now rewrite <- Hsc.
Qed.

Lemma moves_write (sd : nat) (data : list byte) :
  In data driver_frames ->
  moves J G T E false false (serdev_device_write sd data 200).
Proof.
  intros Hd. unfold serdev_device_write.
  eapply moves_bind; [apply moves_emit; intros t; now apply bl_write|intros _].
  eapply moves_bind; [apply moves_next_env|intros r].
  eapply moves_bind; [now apply (moves_deliver J G T E (fun _ => True))|intros _].
  apply moves_ret.
Qed.

Lemma moves_usleep : moves J G T E false false (usleep_range 180000 200000).
Proof.
  unfold usleep_range.
  eapply moves_bind; [apply moves_emit; intros t; apply bl_sleep|intros _].
  eapply moves_bind; [apply moves_next_env|intros r].
  now apply (moves_deliver J G T E (fun _ => True)).
Qed.

Lemma moves_handshake_loop (sd : nat) (fuel : nat) :
  moves J G T E false false (handshake_loop fuel sd).
Proof.
  induction fuel as [|fuel IH]; simpl; [intros w H; exact H|].
  eapply moves_bind; [apply moves_joycon_get|intros hs].
  destruct hs; [apply moves_ret|].
  eapply moves_bind; [apply moves_write; simpl; tauto|intros e1].
  destruct (negb _); [apply moves_ret|].
  eapply moves_bind; [apply moves_write; simpl; tauto|intros e2].
  destruct (negb _); [apply moves_ret|].
  eapply moves_bind; [apply moves_usleep|intros _].
  eapply moves_bind; [now apply (moves_printk J G T E (fun _ => True))|intros _].
  exact IH.
Qed.

End WalkBlocking.

Section WalkWorks.
Context (J : gmap nat joycon -> Prop) (G : globals -> Prop)
  (T : bool -> list event -> Prop) (E : list env_resp -> Prop)
  `{!WorkInvariant J G T E}.

Lemma holds_forget_handshaken (sd : nat) (w : world) :
  holds (and_handshaken J sd) G T E false w -> holds J G T E false w.
Proof. intros ([HJ _] & HG & HT & HE). now repeat split. Qed.

(** The two stores that send a session back to the start. *)
Lemma triple_restart {A} (sd : nat) (k : M A) (Q : A -> world -> Prop) (B : world -> Prop) :
  triple (holds J G T E false) k Q B ->
  triple (holds J G T E false)
    (joycon_set sd (set_handshaken false) ;;; joycon_set sd (set_initialized false) ;;; k) Q B.
Proof.
  intros Hk w H. unfold wp, bind, joycon_set.
  destruct (sessions w !! sd) as [j|] eqn:Hs; [|exact I].
  cbn [sessions set_sessions]. rewrite lookup_insert_eq, insert_insert_eq.
  apply (Hk (set_sessions (<[sd := set_initialized false (set_handshaken false j)]>
                             (sessions w)) w)).
  apply holds_sessions; [exact H|]. apply wk_restart; [exact Hs|exact (proj1 H)].
Qed.

(** The loop keeps the invariant, and is left normally only with the
    session handshaken. *)
Lemma triple_handshake_loop (sd : nat) (fuel : nat) :
  triple (holds J G T E false) (handshake_loop fuel sd)
    (fun x w => holds J G T E false w
                /\ (x = loop_done ->
                    forall j, sessions w !! sd = Some j -> handshaken j = true))
    (holds J G T E false).
Proof.
  intros w H.
  pose proof (moves_handshake_loop J G T E sd fuel w H) as Hm.
  pose proof (handshake_loop_done sd fuel w) as Hd.
  unfold wp in *. destruct (handshake_loop fuel sd w) as [x w1|w1|]; [|exact Hm|exact I].
  split; [exact Hm|]. intros -> j Hs.
  destruct (Hd w1 eq_refl) as (j1 & Hs1 & Hh). congruence.
Qed.

(** The four requests are written while the session stays handshaken, so
    that [initialized] is set on a handshaken session. *)
Lemma triple_timeout_init (sd : nat) :
  triple (holds (and_handshaken J sd) G T E false) (timeout_init sd)
    (fun _ => holds J G T E false) (holds J G T E false).
Proof.
  assert (Hw : forall data, In data driver_frames ->
            triple (holds (and_handshaken J sd) G T E false)
              (serdev_device_write sd data 200)
              (fun _ => holds (and_handshaken J sd) G T E false) (holds J G T E false)).
  { intros data Hd.
    apply (triple_conseq _ _ _ _ _ _ _ (fun w H => H) (fun _ w H => H)
             (holds_forget_handshaken sd)).
    apply moves_write; [apply rx_and_handshaken; apply wk_rx|apply wk_blocking|exact Hd]. }
  unfold timeout_init.
  do 4 (eapply triple_bind; [apply Hw; simpl; tauto|intros ?; cbv beta]).
  intros w H. unfold wp, bind, joycon_set.
  destruct (sessions w !! sd) as [j|] eqn:Hs; [|exact I].
  cbn [sessions set_sessions]. rewrite lookup_insert_eq, insert_insert_eq.
  apply (holds_sessions J G T E false w);
    [now apply (holds_forget_handshaken sd)|].
  destruct (proj1 H) as [HJ Hh]. apply wk_init; auto.
Qed.

Lemma moves_timeout_fail (sd : nat) : moves J G T E false false (timeout_fail sd).
Proof.
  unfold timeout_fail.
  eapply moves_bind; [apply moves_joycon_get|intros n].
  eapply moves_bind;
    [apply moves_joycon_set; intros m j; apply wk_timeout_samples|intros _].
  apply moves_emit. intros t. apply (wk_queue t (work_timeout_poll sd)).
Qed.

Lemma moves_timeout_handler (sd : nat) : moves J G T E false false (timeout_handler sd).
Proof.
  unfold timeout_handler.
  eapply moves_bind; [apply moves_joycon_get|intros j].
  eapply moves_bind;
    [apply (moves_printk J G T E (fun _ => True)); apply wk_rx|intros _].
  eapply moves_bind; [|intros _; apply moves_timeout_fail].
  destruct (timeout_expired j); [|apply moves_ret].
  apply triple_restart.
  apply (triple_bind _ _ _ (fun _ => holds J G T E false));
    [intros w H; exact H|intros fuel].
  eapply triple_bind; [apply triple_handshake_loop|intros [|]; cbv beta].
  - intros w [H _]. exact H.
  - eapply triple_conseq; [| | |apply triple_timeout_init]; cbv beta.
    + intros w [(HJ & HG & HT & HE) Hh]. split; [|now repeat split].
      split; [exact HJ|now apply Hh].
    + auto.
    + auto.
Qed.

Lemma moves_input_handler (sd : nat) : moves J G T E false false (input_handler sd).
Proof.
  unfold input_handler.
  eapply moves_bind; [apply moves_joycon_get|intros init].
  apply (moves_bind _ _ _ _ false false false).
  - unfold when. destruct init; [|apply moves_ret].
    apply (moves_bind _ _ _ _ false false false); [|intros _; apply moves_ret].
    apply moves_write; [apply wk_rx|apply wk_blocking|simpl; tauto].
  - intros _. apply moves_emit. intros t. apply (wk_queue t (work_input_poll sd)).
Qed.

Lemma moves_report_keys (tbl : list Z) :
  forall i : nat,
    (forall k code, tbl !! k = Some code -> joycon_common_btn !! (i + k)%nat = Some code) ->
    moves J G T E true true (report_keys tbl (Z.of_nat i)).
Proof.
  induction tbl as [|code tbl IH]; intros i Htbl; [apply moves_fault|].
  cbn [report_keys]. destruct (Z.leb_spec 0 code) as [Hc|Hc]; [|apply moves_ret].
  intros w H. unfold wp, bind, glob_get, emit.
  replace (Z.of_nat i + 1) with (Z.of_nat (S i)) by lia.
  apply (IH (S i)).
  - intros k c Hk.
    replace (S i + k)%nat with (i + S k)%nat by lia.
    now apply (Htbl (S k)).
  - destruct H as (HJ & HG & HT & HE).
    split; [exact HJ|]. split; [exact HG|]. split; [|exact HE].
    cbn [trace set_trace]. apply wk_input_key; auto.
    specialize (Htbl 0%nat code eq_refl). now rewrite Nat.add_0_r in Htbl.
Qed.

Lemma moves_report_abs {A} (axis : Z) (f : globals -> Z) (k : M A) (h' : bool) :
  (forall g, In (axis, f g) [(ABS_X, stick_lx g); (ABS_Y, stick_ly g);
                             (ABS_RX, stick_rx g); (ABS_RY, stick_ry g)]) ->
  moves J G T E true h' k ->
  moves J G T E true h' (let* v := glob_get f in emit (InputReportAbs axis v) ;;; k).
Proof.
  intros Hf Hk w (HJ & HG & HT & HE). unfold wp, bind, glob_get, emit.
  apply (Hk (set_trace (trace w ++ [InputReportAbs axis (f (glob w))]) w)).
  split; [exact HJ|]. split; [exact HG|]. split; [|exact HE].
  cbn [trace set_trace]. apply (wk_input_abs _ (glob w)); auto.
Qed.

Lemma moves_sync_handler : moves J G T E false false sync_handler.
Proof.
  unfold sync_handler.
  eapply moves_bind;
    [apply (moves_lock J G T E (fun _ => True)); apply wk_rx|intros _].
  eapply moves_bind;
    [apply (moves_report_keys joycon_common_btn 0); intros k code Hk; exact Hk|intros _].
  apply moves_report_abs; [intros g; simpl; tauto|].
  apply moves_report_abs; [intros g; simpl; tauto|].
  apply moves_report_abs; [intros g; simpl; tauto|].
  apply moves_report_abs; [intros g; simpl; tauto|].
  apply (moves_bind _ _ _ _ true true false);
    [apply moves_emit; intros t; apply wk_input_sync|intros _].
  eapply moves_bind;
    [apply (moves_unlock J G T E (fun _ => True)); apply wk_rx|intros _].
  apply moves_emit. intros t. apply (wk_queue t work_sync_poll).
Qed.

Lemma moves_enter (e : entry) : moves J G T E false false (enter e).
Proof.
  destruct e as [sd buf j0|sd|sd|]; simpl.
  - eapply moves_bind; [|intros _; apply moves_ret].
    now apply (moves_receive_buf J G T E (fun _ => True)).
  - apply moves_timeout_handler.
  - apply moves_input_handler.
  - apply moves_sync_handler.
Qed.

End WalkWorks.

(** An invariant of the works holds in every reachable world. *)
Lemma reachable_holds (J : gmap nat joycon -> Prop) (G : globals -> Prop)
    (T : bool -> list event -> Prop)
    `{!WorkInvariant J G T (fun _ => True)} (w0 w : world) :
  holds J G T (fun _ => True) false w0 ->
  reachable w0 w ->
  holds J G T (fun _ => True) false w.
Proof.
  intros H0 Hr. induction Hr as [|w w' e s _ IH Hstep]; [exact H0|].
  apply (triple_outcome _ _ _ (moves_enter J G T (fun _ => True) e) (set_script s w) w');
    [|exact Hstep].
  destruct IH as (HJ & HG & HT & _). now repeat split.
Qed.

(** ** Invariants of the reachable worlds *)

Lemma run_calls_reachable (w0 : world) (calls : list (entry * list env_resp)) :
  forall w w', reachable w0 w -> run_calls calls w = Some w' -> reachable w0 w'.
Proof.
  induction calls as [|[e s] calls IH]; intros w w' Hr; simpl.
  - now intros [= <-].
  - destruct (outcome (enter e (set_script s w))) as [w1|] eqn:H1; [|discriminate].
    apply IH. now apply (reach_call w0 w w1 e s).
Qed.

Lemma every_session_insert (P : nat -> joycon -> Prop) (m : gmap nat joycon)
    (sd : nat) (j : joycon) :
  every_session P m -> P sd j -> every_session P (<[sd := j]> m).
Proof.
  intros Hm Hj sd' j'. destruct (decide (sd' = sd)) as [->|Hne].
  - rewrite lookup_insert_eq. now intros [= <-].
  - rewrite lookup_insert_ne by congruence. apply Hm.
Qed.

Lemma Forall_snoc {A} (P : A -> Prop) (l : list A) (x : A) :
  Forall P l -> P x -> Forall P (l ++ [x]).
Proof. intros Hl Hx. apply Forall_app. split; [exact Hl|]. now constructor. Qed.

(** *** Bits and ranges *)

Lemma bounded_bits (n z : Z) :
  0 <= n -> (0 <= z < 2 ^ n <-> forall k, n <= k -> Z.testbit z k = false).
Proof.
  intros Hn. split.
  - intros [H0 H1] k Hk. destruct (Z.eq_dec z 0) as [->|Hz]; [apply Z.bits_0|].
    apply Z.bits_above_log2; [exact H0|].
    assert (Z.log2 z < n) by (apply Z.log2_lt_pow2; lia). lia.
  - intros H. assert (Hm : z = z mod 2 ^ n).
    { apply Z.bits_inj'. intros k Hk. destruct (Z_lt_le_dec k n).
      - now rewrite Z.mod_pow2_bits_low.
      - rewrite Z.mod_pow2_bits_high by lia. now apply H. }
    rewrite Hm. apply Z.mod_pos_bound. now apply Z.pow_pos_nonneg.
Qed.

Lemma u8_bits (b : byte) (k : Z) : 8 <= k -> Z.testbit (u8 b) k = false.
Proof.
  intros Hk. apply (proj1 (bounded_bits 8 (u8 b) ltac:(lia))); [|exact Hk].
  pose proof (u8_range b). change (2 ^ 8) with 256. lia.
Qed.

Lemma report_buttons_range (b3 b4 b5 : byte) : 0 <= report_buttons b3 b4 b5 < 2 ^ 24.
Proof.
  apply (bounded_bits 24); [lia|]. intros k Hk. unfold report_buttons.
  rewrite !Z.lor_spec, !Z.shiftl_spec by lia.
  rewrite !u8_bits by lia. reflexivity.
Qed.

Lemma stick_x_range (lo hi : byte) : 0 <= stick_x lo hi <= 255.
Proof.
  enough (0 <= stick_x lo hi < 2 ^ 8) by (change (2 ^ 8) with 256 in *; lia).
  apply (bounded_bits 8); [lia|]. intros k Hk. unfold stick_x.
  rewrite Z.lor_spec, Z.shiftl_spec, Z.shiftr_spec, !Z.land_spec by lia.
  replace (Z.testbit 15 (k - 4)) with false.
  2:{ symmetry. apply (proj1 (bounded_bits 4 15 ltac:(lia))); [split; [lia|reflexivity]|lia]. }
  replace (Z.testbit 240 (k + 4)) with false.
  2:{ symmetry. apply (proj1 (bounded_bits 8 240 ltac:(lia))); [split; [lia|reflexivity]|lia]. }
  now rewrite !andb_false_r.
Qed.

Lemma stick_y_range (b : byte) : 1 <= stick_y b <= 256.
Proof. unfold stick_y. pose proof (u8_range b). lia. Qed.

Lemma mask_bits (left : bool) (k : Z) :
  24 <= k ->
  Z.testbit (if left then JOYCON_BUTTONS_LEFT else JOYCON_BUTTONS_RIGHT) k = false.
Proof.
  intros Hk. apply (proj1 (bounded_bits 24 _ ltac:(lia))); [|exact Hk].
  destruct left; split; first [discriminate | reflexivity].
Qed.

(** *** Sessions *)

Lemma joycon_zalloc_ok (sd : nat) : joycon_ok sd (joycon_zalloc sd).
Proof.
  unfold joycon_ok. simpl. repeat split; try discriminate; auto.
Qed.

#[export] Instance sessions_invariant :
  WorkInvariant (every_session joycon_ok) (fun _ => True) (fun _ _ => True) (fun _ => True).
Proof.
  split; [split|split|..]; try (intros; exact I);
    intros m sd j; intros;
    match goal with
    | Hs : ?m !! ?sd = Some ?j, Hm : every_session joycon_ok ?m |- _ =>
        apply every_session_insert; [exact Hm|];
        destruct (Hm sd j Hs) as (K1 & K2 & K3 & K4 & K5); unfold joycon_ok; simpl
    end.
  - pose proof (report_buttons_range b3 b4 b5). auto.
  - auto.
  - rewrite length_insert. auto.
  - destruct left; auto 10.
  - auto.
  - tauto.
  - auto.
  - auto.
Qed.

Lemma reachable_zeroed_reachable (w0 w : world) :
  reachable_zeroed w0 w -> reachable w0 w.
Proof.
  intros Hr. induction Hr as [|w w' e s _ IH _ Hstep]; [apply reach_start|].
  exact (reach_call w0 w w' e s IH Hstep).
Qed.

Lemma run_calls_reachable_zeroed (w0 : world) (calls : list (entry * list env_resp)) :
  Forall (fun c => index_zeroed (fst c)) calls ->
  forall w w', reachable_zeroed w0 w -> run_calls calls w = Some w' ->
               reachable_zeroed w0 w'.
Proof.
  induction 1 as [|[e s] calls He _ IH]; intros w w' Hr; simpl.
  - now intros [= <-].
  - destruct (outcome (enter e (set_script s w))) as [w1|] eqn:H1; [|discriminate].
    apply IH. exact (reachz_call w0 w w1 e s Hr He H1).
Qed.

Lemma example_calls_zeroed : Forall (fun c => index_zeroed (fst c)) example_calls.
Proof. repeat constructor. Qed.


Lemma fresh_sessions_ok : every_session joycon_ok (sessions fresh_world).
Proof.
  intros sd j H. unfold fresh_world, initial_world in H. simpl in H.
  apply lookup_singleton_Some in H as [<- <-]. apply joycon_zalloc_ok.
Qed.


(** *** Globals and input events *)

#[export] Instance globals_invariant :
  WorkInvariant (fun _ => True) globals_ok (fun _ t => Forall input_ok t) (fun _ => True).
Proof.
  split; [split|split|..]; try (intros; exact I);
    try (intros; apply Forall_snoc; [assumption|exact I]).
  - intros g left (Hb & Hs). split; [|exact Hs]. simpl.
    apply (bounded_bits 24); [lia|]. intros k Hk. rewrite Z.land_spec.
    now rewrite (proj1 (bounded_bits 24 _ ltac:(lia)) Hb k Hk).
  - intros g jb left (Hb & Hs). split; [|exact Hs]. simpl.
    apply (bounded_bits 24); [lia|]. intros k Hk. rewrite Z.lor_spec, Z.land_spec.
    rewrite (proj1 (bounded_bits 24 _ ltac:(lia)) Hb k Hk), mask_bits by exact Hk.
    now rewrite andb_false_r.
  - intros g lo hi (Hb & Hx & Hy & Hrx & Hry). pose proof (stick_x_range lo hi).
    repeat split; simpl; lia.
  - intros g b (Hb & Hx & Hy & Hrx & Hry). pose proof (stick_y_range b).
    repeat split; simpl; lia.
  - intros g lo hi (Hb & Hx & Hy & Hrx & Hry). pose proof (stick_x_range lo hi).
    repeat split; simpl; lia.
  - intros g b (Hb & Hx & Hy & Hrx & Hry). pose proof (stick_y_range b).
    repeat split; simpl; lia.
  - intros t g i code Hi Hc (Hb & _) Ht. apply Forall_snoc; [exact Ht|]. simpl.
    assert (Hlt : (i < 24)%nat).
    { pose proof (lookup_lt_Some _ _ _ Hi) as Hl.
      change (length joycon_common_btn) with 25%nat in Hl.
      destruct (decide (i = 24%nat)) as [->|]; [|lia].
      injection Hi as <-. lia. }
    exists i. split; [exact Hlt|]. split; [exact Hi|].
    rewrite land_BIT. destruct (Z.testbit (buttons g) (Z.of_nat i)); [right|now left].
    apply int32_id. unfold INT_MIN, INT_MAX.
    assert (0 < 2 ^ Z.of_nat i <= 2 ^ 23).
    { split; [apply Z.pow_pos_nonneg; lia|apply Z.pow_le_mono_r; lia]. }
    lia.
  - intros t g axis v Hin (Hb & Hx & Hy & Hrx & Hry) Ht. apply Forall_snoc; [exact Ht|].
    simpl in *.
    destruct Hin as [[= <- <-]|[[= <- <-]|[[= <- <-]|[[= <- <-]|[]]]]];
      (split; [tauto|lia]).
Qed.

(** X3.  The merged gamepad state stays in range, and so does everything
    reported to the input subsystem.  Started from globals in range (the
    zeroed ones are), whatever entry points are called with whatever
    buffers and answers: the merged button word keeps 24 bits, the X values
    stay between 0 and 255 and the Y values between 0 and 256; every key
    event is for one of the 24 codes of [joycon_common_btn] and carries 0 or
    the weight of that code's bit; every axis event is for one of the four
    axes and carries a value between 0 and 256. *)
Theorem input_events_in_range (w0 w : world) :
  globals_ok (glob w0) ->
  Forall input_ok (trace w0) ->
  reachable w0 w ->
  globals_ok (glob w) /\ Forall input_ok (trace w).
Proof.
  intros HG HT Hr.
  destruct (reachable_holds (fun _ => True) globals_ok (fun _ t => Forall input_ok t)
              w0 w) as (_ & HG' & HT' & _); [split; [exact I|tauto]|exact Hr|].
  now split.
Qed.

Lemma globals_init_ok : globals_ok globals_init.
Proof. unfold globals_ok. simpl. lia. Qed.

Lemma input_events_in_range_witness :
  (globals_ok (glob fresh_world) /\ Forall input_ok (trace fresh_world))
  /\ exists w,
       run_calls example_calls fresh_world = Some w
       /\ reachable fresh_world w
       /\ buttons (glob w) = 0xFFE900
       /\ globals_ok (glob w)
       /\ Forall input_ok (trace w).
Proof.
  split; [split; [exact globals_init_ok|constructor]|].
  eexists. split; [vm_compute; reflexivity|].
  assert (Hr : reachable fresh_world
                 (default fresh_world (run_calls example_calls fresh_world))).
  { apply (run_calls_reachable fresh_world example_calls fresh_world);
      [apply reach_start|vm_compute; reflexivity]. }
  split; [exact Hr|]. split; [reflexivity|].
  exact (input_events_in_range fresh_world _ globals_init_ok ltac:(constructor) Hr).
Defined.

(** *** The input lock *)

Lemma lock_state_snoc (t : list event) (e : event) :
  lock_state (t ++ [e]) = lock_step (lock_state t) e.
Proof. unfold lock_state. now rewrite fold_left_app. Qed.

#[export] Instance lock_invariant :
  WorkInvariant (fun _ => True) (fun _ => True) (fun h t => lock_state t = Some h)
    (fun _ => True).
Proof.
  split; [split|split|..]; try (intros; exact I);
    intros; rewrite lock_state_snoc;
    match goal with H : lock_state _ = _ |- _ => rewrite H end;
    reflexivity.
Qed.

(** X4.  The discipline of [joycon_input_lock].  In the trace of every
    reachable world the lock is taken only when it is free and released
    only when it is held, no other mutex is touched, input events are
    reported only while it is held, and nothing else is done while it is
    held: in particular no transport write and no sleep.  The lock is free
    whenever an entry point has returned or sits in a blocking call. *)
Theorem lock_discipline (w0 w : world) :
  lock_state (trace w0) = Some false ->
  reachable w0 w ->
  lock_state (trace w) = Some false.
Proof.
  intros H0 Hr.
  destruct (reachable_holds (fun _ => True) (fun _ => True)
              (fun h t => lock_state t = Some h) w0 w) as (_ & _ & HT & _);
    [split; [exact I|tauto]|exact Hr|exact HT].
Qed.

Lemma lock_discipline_witness :
  lock_state (trace fresh_world) = Some false
  /\ exists w,
       run_calls example_calls fresh_world = Some w
       /\ reachable fresh_world w
       /\ In (MutexLock joycon_input_lock) (trace w)
       /\ lock_state (trace w) = Some false.
Proof.
  split; [reflexivity|].
  eexists. split; [vm_compute; reflexivity|].
  assert (Hr : reachable fresh_world
                 (default fresh_world (run_calls example_calls fresh_world))).
  { apply (run_calls_reachable fresh_world example_calls fresh_world);
      [apply reach_start|vm_compute; reflexivity]. }
  split; [exact Hr|]. split; [vm_compute; tauto|].
  exact (lock_discipline fresh_world _ eq_refl Hr).
Defined.

(** *** What is asked of the transport and of the work queue *)

#[export] Instance io_invariant :
  WorkInvariant (fun _ => True) (fun _ => True) (fun _ t => Forall io_ok t)
    (fun _ => True).
Proof.
  split; [split|split|..]; try (intros; exact I);
    intros; (apply Forall_snoc; [assumption|]); simpl; auto.
Qed.

(** X5.  What the driver asks of the transport and of the work queue.  In
    the trace of every reachable world, every transport write carries one
    of the seven constant frames [magic_start], [handshake_start],
    [get_mac], [unk_1], [unk_2], [unk_3], [controller_status] with a
    timeout of 200 ms (never [switch_baud], and never a byte that was
    received); the only baud rate ever set is 3125000; the only sleep is
    that of the handshake loop; and each work is queued with the delay of
    its kind: 200 ms for the liveness work, 16 ms for the status poll,
    10 ms for the output sync. *)
Theorem transport_discipline (w0 w : world) :
  Forall io_ok (trace w0) ->
  reachable w0 w ->
  Forall io_ok (trace w).
Proof.
  intros H0 Hr.
  destruct (reachable_holds (fun _ => True) (fun _ => True)
              (fun _ t => Forall io_ok t) w0 w) as (_ & _ & HT & _);
    [split; [exact I|tauto]|exact Hr|exact HT].
Qed.

Lemma transport_discipline_witness :
  Forall io_ok (trace fresh_world)
  /\ exists w,
       run_calls example_calls fresh_world = Some w
       /\ reachable fresh_world w
       /\ In (SerdevWrite 1 controller_status 200) (trace w)
       /\ Forall io_ok (trace w).
Proof.
  split; [constructor|].
  eexists. split; [vm_compute; reflexivity|].
  assert (Hr : reachable fresh_world
                 (default fresh_world (run_calls example_calls fresh_world))).
  { apply (run_calls_reachable fresh_world example_calls fresh_world);
      [apply reach_start|vm_compute; reflexivity]. }
  split; [exact Hr|]. split; [vm_compute; tauto|].
  exact (transport_discipline fresh_world _ ltac:(constructor) Hr).
Defined.

(** ** What a delivery can touch *)

Lemma rx_session_refl (j : joycon) : rx_session j j.
Proof. unfold rx_session. auto. Qed.

Lemma rx_session_trans (j1 j2 j3 : joycon) :
  rx_session j1 j2 -> rx_session j2 j3 -> rx_session j1 j3.
Proof.
  unfold rx_session. intros (A1 & A2 & A3 & A4 & A5) (B1 & B2 & B3 & B4 & B5).
  repeat split; try congruence. auto.
Qed.

Lemma rx_footprint_insert (sd : nat) (m0 m : gmap nat joycon) (j j' : joycon) :
  m !! sd = Some j ->
  rx_session j j' ->
  rx_footprint sd m0 m ->
  rx_footprint sd m0 (<[sd := j']> m).
Proof.
  intros Hs Hj [Hother Hsd]. split.
  - intros sd' Hne. rewrite lookup_insert_ne by congruence. now apply Hother.
  - intros j0 H0. destruct (Hsd j0 H0) as (j1 & H1 & Hr).
    exists j'. rewrite lookup_insert_eq. split; [reflexivity|].
    apply (rx_session_trans j0 j); [|exact Hj]. congruence.
Qed.

#[export] Instance footprint_invariant (sd : nat) (m0 : gmap nat joycon) (t0 : list event) :
  RxInvariant (eq sd) (rx_footprint sd m0) (fun _ => True)
    (fun _ t => exists t', t = t0 ++ t' /\ Forall rx_event t').
Proof.
  split; try (intros; exact I);
    try (intros m sd' j; intros; subst sd';
         match goal with
         | Hs : ?m !! sd = Some ?j |- _ =>
             apply (rx_footprint_insert sd m0 m j); [exact Hs| |assumption];
             unfold rx_session; simpl; rewrite ?length_insert; auto
         end);
    try (intros;
         match goal with
         | H : exists t', _ |- _ =>
             destruct H as (t' & -> & Ht); eexists; rewrite <- app_assoc;
             split; [reflexivity|]; apply Forall_snoc; [exact Ht|exact I]
         end).
Qed.

(** X6.  The footprint of a delivery.  A call of
    [joycon_serdev_receive_buf] for device [sd], the copy index starting at
    0, that returns has returned 0 or the length of the buffer; it has
    consumed no answer of the environment; it has appended to the trace
    nothing but log lines, the warning, the input lock and its release, a
    change of baud rate or a store outside [mac]: no transport write, no
    sleep, no queued work and no input event; it has left every session
    other than that of [sd] as it was; and in the session of [sd] it has
    left [serdev], [initialized] and [timeout_samples] as they were and has
    not cleared [handshaken]. *)
Theorem receive_buf_footprint (w w' : world) (sd : nat) (buf : list byte) (r : Z) :
  joycon_serdev_receive_buf sd buf 0 w = Done r w' ->
  (r = 0 \/ r = int32 (Z.of_nat (length buf)))
  /\ script w' = script w
  /\ (exists t, trace w' = trace w ++ t /\ Forall rx_event t)
  /\ rx_footprint sd (sessions w) (sessions w').
Proof.
  intros Hrun. split.
  - rewrite receive_buf_eq in Hrun.
    destruct (sessions w !! sd) as [j|]; [|injection Hrun as <- _; now left].
    destruct (negb (sd =? serdev j)%nat); [injection Hrun as <- _; now left|].
    destruct (joycon_packet_parse sd buf _ 0 w); [|discriminate..].
    injection Hrun as <- _. now right.
  - pose proof (moves_receive_buf (rx_footprint sd (sessions w)) (fun _ => True)
                  (fun _ t => exists t', t = trace w ++ t' /\ Forall rx_event t')
                  (fun s => s = script w) (eq sd) sd buf 0 eq_refl w) as H.
    unfold wp in H. rewrite Hrun in H.
    destruct H as (HJ & _ & HT & HE).
    + split; [|split; [exact I|split; [|reflexivity]]].
      * split; [reflexivity|]. intros j Hj. exists j. split; [exact Hj|apply rx_session_refl].
      * exists []. rewrite app_nil_r. split; [reflexivity|constructor].
    + split; [exact HE|]. split; [exact HT|exact HJ].
Qed.

Lemma receive_buf_footprint_witness :
  joycon_serdev_receive_buf 1 all_left_report 0 pair_world =
    Done 24 (default pair_world
               (outcome (joycon_serdev_receive_buf 1 all_left_report 0 pair_world)))
  /\ exists w',
       outcome (joycon_serdev_receive_buf 1 all_left_report 0 pair_world) = Some w'
       /\ script w' = script pair_world
       /\ sessions w' !! 2%nat = Some (right_joycon 2)
       /\ exists j', sessions w' !! 1%nat = Some j' /\ initialized j' = true.
Proof.
  assert (Hrun : joycon_serdev_receive_buf 1 all_left_report 0 pair_world =
                 Done 24 (default pair_world
                            (outcome (joycon_serdev_receive_buf 1 all_left_report 0
                                        pair_world))))
    by (vm_compute; reflexivity).
  split; [exact Hrun|].
  destruct (receive_buf_footprint _ _ _ _ _ Hrun) as (_ & Hsc & _ & Hother & Hsd).
  eexists. split; [rewrite Hrun; reflexivity|].
  split; [exact Hsc|]. split.
  - rewrite (Hother 2%nat ltac:(discriminate)). reflexivity.
  - destruct (Hsd (left_joycon 1) eq_refl) as (j' & Hj & _ & Hi & _).
    exists j'. split; [exact Hj|]. rewrite Hi. reflexivity.
Defined.

(** ** Frames that are dropped *)

Lemma eqb_excl (z a b : Z) : a <> b -> (z =? a) = true -> (z =? b) = false.
Proof. intros Hne Ha%Z.eqb_eq. apply Z.eqb_neq. congruence. Qed.

(** X7.  Only three kinds of frame change anything.  Unless a buffer
    carries a handshake reply, an input report or an identifier reply, its
    handling leaves every session, the globals and the answers of the
    environment as they were, provided the buffer has the bytes that are
    read: the callback returns the buffer's length and the trace gains
    [ignored_trace], which is a log line for an unknown command, an unknown
    extended reply or an unknown initialisation reply, nothing at all for
    the replies [0x11], [0x10] and [0x12], and for the baud rate reply the
    switch of the device to 3125000 baud followed by a log line. *)
Theorem ignored_frame (w : world) (sd : nat) (j : joycon) (buf : list byte) (j0 : Z) :
  sessions w !! sd = Some j ->
  serdev j = sd ->
  changes_state buf = false ->
  (frame_need (button_set j) buf <= length buf)%nat ->
  joycon_serdev_receive_buf sd buf j0 w =
    Done (int32 (Z.of_nat (length buf)))
      (set_trace (trace w ++ ignored_trace sd buf) w).
Proof.
  intros Hs Hsd Hch Hlen.
  rewrite receive_buf_eq, Hs, Hsd, Nat.eqb_refl. cbn [negb].
  revert Hch Hlen. unfold changes_state, frame_need, ignored_trace, joycon_packet_parse.
  unfold bind at 1. unfold rd at 1.
  destruct (buf !! offsetof_command) as [c|] eqn:Hc.
  2:{ intros _ Hlen. apply lookup_ge_None in Hc. unfold offsetof_command in Hc. lia. }
  destruct (u8 c =? JOYCON_COMMAND_EXTRET) eqn:Hext.
  - rewrite (eqb_excl (u8 c) JOYCON_COMMAND_EXTRET JOYCON_COMMAND_HANDSHAKE) by
      (discriminate || assumption).
    rewrite (eqb_excl (u8 c) JOYCON_COMMAND_EXTRET JOYCON_COMMAND_INITRET) by
      (discriminate || assumption).
    cbn [orb andb]. intros Hch Hlen.
    pose proof (extret_need_range (button_set j) (drop sizeof_joycon_uart_header buf)).
    unfold sizeof_joycon_uart_header, offsetof_data in *.
    destruct (lookup_lt_is_Some_2 buf 6) as [d0 Hd0]; [lia|].
    destruct (lookup_lt_is_Some_2 buf (6 + 1)) as [d1 Hd1]; [lia|].
    destruct (lookup_lt_is_Some_2 buf 12) as [s Hs12]; [lia|].
    rewrite Hs12 in Hch |- *. rewrite orb_false_r in Hch.
    unfold bind, rd. rewrite Hd0, Hd1.
    unfold joycon_extret_parse, bind, joycon_get, rd, printk, emit.
    rewrite Hs, lookup_drop, Nat.add_0_r, Hs12, Hch. reflexivity.
  - destruct (u8 c =? JOYCON_COMMAND_INITRET) eqn:Hini.
    + rewrite (eqb_excl (u8 c) JOYCON_COMMAND_INITRET JOYCON_COMMAND_HANDSHAKE) by
        (discriminate || assumption).
      cbn [orb andb]. intros Hch Hlen.
      pose proof (initret_need_range (drop (sizeof_joycon_uart_initial + 1) buf)).
      unfold sizeof_joycon_uart_initial in *.
      destruct (lookup_lt_is_Some_2 buf (5 + 1)) as [s Hs6]; [lia|].
      rewrite Hs6 in Hch |- *.
      unfold joycon_initret_parse, bind, rd, printk, emit.
      rewrite lookup_drop, Nat.add_0_r, Hs6, Hch.
      destruct ((u8 s =? JOYCON_INIT_UNK1) || (u8 s =? JOYCON_INIT_UNK2)
                || (u8 s =? JOYCON_INIT_UNK3)).
      * unfold ret, set_trace. rewrite app_nil_r. now destruct w.
      * destruct (u8 s =? JOYCON_INIT_BAUDRATE); [|reflexivity].
        unfold set_trace. simpl. now rewrite <- app_assoc.
    + cbn [orb andb]. rewrite !orb_false_r. intros -> _. reflexivity.
Qed.

Lemma ignored_frame_witness :
  (sessions ready_world !! 1%nat = Some (ready_joycon 1)
   /\ serdev (ready_joycon 1) = 1%nat
   /\ changes_state (take 6 (mac_reply x00) ++ [x20]) = false
   /\ (frame_need (button_set (ready_joycon 1)) (take 6 (mac_reply x00) ++ [x20])
       <= length (take 6 (mac_reply x00) ++ [x20]))%nat)
  /\ joycon_serdev_receive_buf 1 (take 6 (mac_reply x00) ++ [x20]) 0 ready_world =
       Done 7 (set_trace [SerdevSetBaudrate 1 3125000; Printk LogBaudrateShifted]
                 ready_world).
Proof.
  split; [repeat split; vm_compute; first [reflexivity | lia]|].
  rewrite (ignored_frame ready_world 1 (ready_joycon 1)
             (take 6 (mac_reply x00) ++ [x20]) 0 eq_refl eq_refl eq_refl);
    [vm_compute; reflexivity|vm_compute; lia].
Defined.

(** ** The merge, bit by bit *)

Lemma testbit_u32 (z n : Z) :
  0 <= n -> Z.testbit (u32 z) n = (n <? 32) && Z.testbit z n.
Proof.
  intros Hn. unfold u32. destruct (Z.ltb_spec n 32).
  - now rewrite Z.mod_pow2_bits_low.
  - now rewrite Z.mod_pow2_bits_high by lia.
Qed.

Lemma testbit_clear (b mask n : Z) :
  0 <= n ->
  Z.testbit (Z.land b (u32 (Z.lnot mask))) n =
    Z.testbit b n && (n <? 32) && negb (Z.testbit mask n).
Proof.
  intros Hn. rewrite Z.land_spec, testbit_u32, Z.lnot_spec by exact Hn.
  now rewrite andb_assoc.
Qed.

Lemma owned_mask_bit (bs n : Z) :
  Z.testbit (owned_mask bs) n =
    (owns bs JOYCON_BUTTONSET_LEFT && Z.testbit JOYCON_BUTTONS_LEFT n)
    || (owns bs JOYCON_BUTTONSET_RIGHT && Z.testbit JOYCON_BUTTONS_RIGHT n).
Proof.
  unfold owned_mask. rewrite Z.lor_spec.
  destruct (owns bs JOYCON_BUTTONSET_LEFT), (owns bs JOYCON_BUTTONSET_RIGHT);
    cbn [andb]; rewrite ?Z.bits_0; reflexivity.
Qed.

Lemma merged_buttons_bit (bs jb : Z) (b6 b7 b8 b9 b10 b11 : byte) (g : globals) (n : Z) :
  0 <= n < 32 ->
  Z.testbit (buttons (merged bs jb b6 b7 b8 b9 b10 b11 g)) n =
    merged_bit bs jb (buttons g) n.
Proof.
  intros Hn. unfold merged_bit. rewrite owned_mask_bit. unfold merged.
  assert (Hlt : (n <? 32) = true) by (apply Z.ltb_lt; lia).
  destruct (owns bs JOYCON_BUTTONSET_LEFT), (owns bs JOYCON_BUTTONSET_RIGHT);
    cbn [andb orb buttons set_buttons set_stick_lx set_stick_ly set_stick_rx set_stick_ry];
    repeat first [ rewrite Z.lor_spec | rewrite Z.land_spec
                 | rewrite testbit_u32 by lia | rewrite Z.lnot_spec by lia ];
    rewrite ?Hlt;
    destruct (Z.testbit JOYCON_BUTTONS_LEFT n), (Z.testbit JOYCON_BUTTONS_RIGHT n),
      (Z.testbit jb n), (Z.testbit (buttons g) n); reflexivity.
Qed.

Lemma merged_sticks (bs jb : Z) (b6 b7 b8 b9 b10 b11 : byte) (g : globals) :
  (owns bs JOYCON_BUTTONSET_LEFT = false ->
   stick_lx (merged bs jb b6 b7 b8 b9 b10 b11 g) = stick_lx g
   /\ stick_ly (merged bs jb b6 b7 b8 b9 b10 b11 g) = stick_ly g)
  /\ (owns bs JOYCON_BUTTONSET_RIGHT = false ->
      stick_rx (merged bs jb b6 b7 b8 b9 b10 b11 g) = stick_rx g
      /\ stick_ry (merged bs jb b6 b7 b8 b9 b10 b11 g) = stick_ry g).
Proof.
  unfold merged.
  split; intros H; rewrite H;
    destruct (owns bs JOYCON_BUTTONSET_LEFT), (owns bs JOYCON_BUTTONSET_RIGHT);
    try discriminate; split; reflexivity.
Qed.

(** The run of an input report, for any owner. *)
Lemma receive_input_report (w : world) (sd : nat) (j : joycon) (hdr : list byte)
    (b1 b2 b3 b4 b5 b6 b7 b8 b9 b10 b11 : byte) (tail : list byte) (j0 : Z) :
  sessions w !! sd = Some j ->
  serdev j = sd ->
  length hdr = sizeof_joycon_uart_header ->
  hdr !! offsetof_command = Some x92 ->
  joycon_serdev_receive_buf sd
    (input_report hdr b1 b2 b3 b4 b5 b6 b7 b8 b9 b10 b11 tail) j0 w =
  Done (int32 (Z.of_nat (length (input_report hdr b1 b2 b3 b4 b5 b6 b7 b8 b9 b10 b11 tail))))
    (set_sessions
       (<[sd := set_num_samples (int32 (num_samples j + 1))
                  (set_joycon_buttons (report_buttons b3 b4 b5) j)]> (sessions w))
       (set_glob
          (merged (button_set j) (report_buttons b3 b4 b5) b6 b7 b8 b9 b10 b11 (glob w))
          (set_trace
             (trace w ++ [MutexLock joycon_input_lock; MutexUnlock joycon_input_lock])
             w))).
Proof.
  intros Hs Hsd Hlen Hc. unfold input_report.
  destruct (receive_extret w sd j hdr
              (x30 :: b1 :: b2 :: b3 :: b4 :: b5 :: b6 :: b7 :: b8
                   :: b9 :: b10 :: b11 :: tail) j0 Hs Hsd Hlen Hc) as [size ->].
  now rewrite (extret_input w sd j b1 b2 b3 b4 b5 b6 b7 b8 b9 b10 b11 tail size Hs).
Qed.

(** X8.  What a report does to the merged state.  After an input report
    from a session with button set [bs], every bit of the merged word that
    lies in a mask of a side the session owns is the bit of the report, and
    every other bit is as it was; the stick values of a side the session
    does not own are as they were.  So a session never changes a bit
    outside the masks of its sides. *)
Theorem report_merge_bits (w : world) (sd : nat) (j : joycon) (hdr : list byte)
    (b1 b2 b3 b4 b5 b6 b7 b8 b9 b10 b11 : byte) (tail : list byte) (j0 : Z) :
  sessions w !! sd = Some j ->
  serdev j = sd ->
  length hdr = sizeof_joycon_uart_header ->
  hdr !! offsetof_command = Some x92 ->
  exists r w',
    joycon_serdev_receive_buf sd
      (input_report hdr b1 b2 b3 b4 b5 b6 b7 b8 b9 b10 b11 tail) j0 w = Done r w'
    /\ (forall n, 0 <= n < 32 ->
          Z.testbit (buttons (glob w')) n =
            merged_bit (button_set j) (report_buttons b3 b4 b5) (buttons (glob w)) n)
    /\ (forall n, 0 <= n < 32 ->
          Z.testbit (owned_mask (button_set j)) n = false ->
          Z.testbit (buttons (glob w')) n = Z.testbit (buttons (glob w)) n)
    /\ (owns (button_set j) JOYCON_BUTTONSET_LEFT = false ->
        stick_lx (glob w') = stick_lx (glob w) /\ stick_ly (glob w') = stick_ly (glob w))
    /\ (owns (button_set j) JOYCON_BUTTONSET_RIGHT = false ->
        stick_rx (glob w') = stick_rx (glob w) /\ stick_ry (glob w') = stick_ry (glob w)).
Proof.
  intros Hs Hsd Hlen Hc. eexists. eexists.
  split;
    [exact (receive_input_report w sd j hdr b1 b2 b3 b4 b5 b6 b7 b8 b9 b10 b11 tail j0
              Hs Hsd Hlen Hc)|].
  cbn [glob set_sessions set_glob].
  split; [intros n Hn; now apply merged_buttons_bit|].
  split.
  - intros n Hn Hm. rewrite merged_buttons_bit by exact Hn.
    unfold merged_bit. now rewrite Hm.
  - apply merged_sticks.
Qed.

Lemma report_merge_bits_witness :
  (sessions pair_world !! 2%nat = Some (right_joycon 2)
   /\ serdev (right_joycon 2) = 2%nat
   /\ length (take 12 idle_report) = sizeof_joycon_uart_header
   /\ take 12 idle_report !! offsetof_command = Some x92
   /\ Z.testbit (owned_mask (button_set (right_joycon 2))) 23 = false
   /\ owns (button_set (right_joycon 2)) JOYCON_BUTTONSET_LEFT = false)
  /\ exists r w',
       joycon_serdev_receive_buf 2 all_right_report 0 pair_world = Done r w'
       /\ Z.testbit (buttons (glob w')) 23 = Z.testbit (buttons (glob pair_world)) 23
       /\ stick_lx (glob w') = stick_lx (glob pair_world).
Proof.
  split; [repeat split; reflexivity|].
  destruct (report_merge_bits pair_world 2 (right_joycon 2) (take 12 idle_report)
              x00 x00 xff x76 x00 x00 x08 x80 x00 x08 x80 [] 0
              eq_refl eq_refl eq_refl eq_refl) as (r & w' & Hrun & _ & Hout & HL & _).
  exists r, w'. split; [exact Hrun|]. split.
  - apply Hout; [lia|reflexivity].
  - exact (proj1 (HL eq_refl)).
Defined.

(** ** The latest report of a session wins *)

Lemma merged_buttons_again (bs jb1 jb2 b : Z) (left : bool) :
  let mask := if left then JOYCON_BUTTONS_LEFT else JOYCON_BUTTONS_RIGHT in
  Z.lor (Z.land (Z.lor (Z.land b (u32 (Z.lnot mask))) (Z.land jb1 mask))
                (u32 (Z.lnot mask)))
        (Z.land jb2 mask) =
  Z.lor (Z.land b (u32 (Z.lnot mask))) (Z.land jb2 mask).
Proof.
  intros mask. apply Z.bits_inj'. intros n Hn.
  repeat first [ rewrite Z.lor_spec | rewrite Z.land_spec
               | rewrite testbit_u32 by lia | rewrite Z.lnot_spec by lia ].
  destruct (n <? 32), (Z.testbit mask n), (Z.testbit b n), (Z.testbit jb1 n),
    (Z.testbit jb2 n); reflexivity.
Qed.

Lemma merged_twice (bs jb1 jb2 : Z) (b6 b7 b8 b9 b10 b11 c6 c7 c8 c9 c10 c11 : byte)
    (g : globals) :
  merged bs jb2 c6 c7 c8 c9 c10 c11 (merged bs jb1 b6 b7 b8 b9 b10 b11 g) =
  merged bs jb2 c6 c7 c8 c9 c10 c11 g.
Proof.
  destruct g as [b lx ly rx ry].
  destruct (owns bs JOYCON_BUTTONSET_LEFT) eqn:HL,
           (owns bs JOYCON_BUTTONSET_RIGHT) eqn:HR;
    cbv beta iota zeta delta
      [merged buttons stick_lx stick_ly stick_rx stick_ry
       set_buttons set_stick_lx set_stick_ly set_stick_rx set_stick_ry];
    rewrite ?HL, ?HR;
    cbv beta iota zeta delta
      [buttons stick_lx stick_ly stick_rx stick_ry
       set_buttons set_stick_lx set_stick_ly set_stick_rx set_stick_ry].
  - f_equal. apply Z.bits_inj'. intros n Hn.
    repeat first [ rewrite Z.lor_spec | rewrite Z.land_spec
                 | rewrite testbit_u32 by lia | rewrite Z.lnot_spec by lia ].
    destruct (n <? 32), (Z.testbit JOYCON_BUTTONS_LEFT n),
      (Z.testbit JOYCON_BUTTONS_RIGHT n), (Z.testbit b n), (Z.testbit jb1 n),
      (Z.testbit jb2 n); reflexivity.
  - f_equal. apply (merged_buttons_again bs jb1 jb2 b true).
  - f_equal. apply (merged_buttons_again bs jb1 jb2 b false).
  - reflexivity.
Qed.

(** X9.  The merged state keeps only the latest report of a session.  Two
    input reports handled one after the other for the same session leave
    the globals as the second report alone would have: the merge is a
    replacement of the owned bits and stick values, never an accumulation,
    so a button reported down stays down only until the next report of that
    session.  The session's sample counter has been incremented twice. *)
Theorem latest_report_wins (w : world) (sd : nat) (j : joycon) (hdr hdr' : list byte)
    (b1 b2 b3 b4 b5 b6 b7 b8 b9 b10 b11 : byte) (tail : list byte)
    (c1 c2 c3 c4 c5 c6 c7 c8 c9 c10 c11 : byte) (tail' : list byte) (j0 j0' : Z) :
  sessions w !! sd = Some j ->
  serdev j = sd ->
  length hdr = sizeof_joycon_uart_header ->
  hdr !! offsetof_command = Some x92 ->
  length hdr' = sizeof_joycon_uart_header ->
  hdr' !! offsetof_command = Some x92 ->
  let first := input_report hdr b1 b2 b3 b4 b5 b6 b7 b8 b9 b10 b11 tail in
  let second := input_report hdr' c1 c2 c3 c4 c5 c6 c7 c8 c9 c10 c11 tail' in
  exists r w2 r' w2',
    (joycon_serdev_receive_buf sd first j0 ;;;
     joycon_serdev_receive_buf sd second j0') w = Done r w2
    /\ joycon_serdev_receive_buf sd second j0' w = Done r' w2'
    /\ glob w2 = glob w2'
    /\ (joycon_buttons <$> sessions w2 !! sd) = (joycon_buttons <$> sessions w2' !! sd)
    /\ (num_samples <$> sessions w2 !! sd) = Some (int32 (int32 (num_samples j + 1) + 1)).
Proof.
  intros Hs Hsd Hlen Hc Hlen' Hc' first second. subst first second.
  eexists. eexists. eexists. eexists.
  split; [|split].
  - unfold bind.
    rewrite (receive_input_report w sd j hdr b1 b2 b3 b4 b5 b6 b7 b8 b9 b10 b11 tail j0
               Hs Hsd Hlen Hc).
    erewrite receive_input_report;
      [reflexivity|simpl; apply lookup_insert_eq|exact Hsd|exact Hlen'|exact Hc'].
  - exact (receive_input_report w sd j hdr' c1 c2 c3 c4 c5 c6 c7 c8 c9 c10 c11 tail' j0'
             Hs Hsd Hlen' Hc').
  - cbn [glob sessions set_sessions set_glob set_trace button_set
         set_num_samples set_joycon_buttons].
    split; [apply merged_twice|].
    rewrite !lookup_insert_eq. split; reflexivity.
Qed.

Lemma latest_report_wins_witness :
  (sessions pair_world !! 1%nat = Some (left_joycon 1)
   /\ serdev (left_joycon 1) = 1%nat
   /\ length (take 12 idle_report) = sizeof_joycon_uart_header
   /\ take 12 idle_report !! offsetof_command = Some x92)
  /\ exists r w2 r' w2',
       (joycon_serdev_receive_buf 1 all_left_report 0 ;;;
        joycon_serdev_receive_buf 1 idle_report 0) pair_world = Done r w2
       /\ joycon_serdev_receive_buf 1 idle_report 0 pair_world = Done r' w2'
       /\ glob w2 = glob w2'.
Proof.
  split; [repeat split; reflexivity|].
  destruct (latest_report_wins pair_world 1 (left_joycon 1)
              (take 12 idle_report) (take 12 idle_report)
              x00 x00 x00 xe9 xff x00 x08 x80 x00 x08 x80 []
              x00 x00 x00 x00 x00 x00 x00 x00 x00 x00 x00 [] 0 0
              eq_refl eq_refl eq_refl eq_refl eq_refl eq_refl)
    as (r & w2 & r' & w2' & H1 & H2 & H3 & _).
  exists r, w2, r', w2'. split; [exact H1|]. split; [exact H2|exact H3].
Defined.

(** ** Stick values *)

Lemma all_bytes_complete (b : byte) : In b all_bytes.
Proof.
  assert (H : existsb (Byte.eqb b) all_bytes = true)
    by (destruct b; vm_compute; reflexivity).
  apply existsb_exists in H as (x & Hin & Heq).
  apply Byte.byte_dec_bl in Heq. now subst.
Qed.

Lemma stick_x_top_bits (lo hi : byte) :
  stick_x lo hi = (u8 lo + 256 * u8 hi) mod 4096 / 16
  /\ stick_x lo hi = (u8 hi mod 16) * 16 + u8 lo / 16.
Proof.
  assert (H : forallb (fun lo => forallb (fun hi =>
                (stick_x lo hi =? (u8 lo + 256 * u8 hi) mod 4096 / 16)
                && (stick_x lo hi =? (u8 hi mod 16) * 16 + u8 lo / 16))
                all_bytes) all_bytes = true)
    by (vm_compute; reflexivity).
  rewrite forallb_forall in H. specialize (H lo (all_bytes_complete lo)).
  rewrite forallb_forall in H. specialize (H hi (all_bytes_complete hi)).
  apply andb_true_iff in H as [H1 H2]. apply Z.eqb_eq in H1, H2. now split.
Qed.

(** X10.  What the X value of a stick is.  The two bytes an X value is
    decoded from are the low 16 bits of the stick's data, least significant
    byte first; the stored value is bits 4 to 11 of them, that is the upper
    eight bits of the 12-bit value in bits 0 to 11: the low nibble of the
    first byte and the high nibble of the second play no part.  It lies
    between 0 and 255 (the registered range is 32 to 223).  This holds of
    the left stick for a session that owns the left side (payload bytes 6
    and 7) and of the right stick for one that owns the right side (bytes 9
    and 10). *)
Theorem stick_x_is_top_byte (w : world) (sd : nat) (j : joycon) (hdr : list byte)
    (b1 b2 b3 b4 b5 b6 b7 b8 b9 b10 b11 : byte) (tail : list byte) (j0 : Z) :
  sessions w !! sd = Some j ->
  serdev j = sd ->
  length hdr = sizeof_joycon_uart_header ->
  hdr !! offsetof_command = Some x92 ->
  exists r w',
    joycon_serdev_receive_buf sd
      (input_report hdr b1 b2 b3 b4 b5 b6 b7 b8 b9 b10 b11 tail) j0 w = Done r w'
    /\ (owns (button_set j) JOYCON_BUTTONSET_LEFT = true ->
        stick_lx (glob w') = (u8 b6 + 256 * u8 b7) mod 4096 / 16
        /\ stick_lx (glob w') = (u8 b7 mod 16) * 16 + u8 b6 / 16
        /\ 0 <= stick_lx (glob w') <= 255)
    /\ (owns (button_set j) JOYCON_BUTTONSET_RIGHT = true ->
        stick_rx (glob w') = (u8 b9 + 256 * u8 b10) mod 4096 / 16
        /\ stick_rx (glob w') = (u8 b10 mod 16) * 16 + u8 b9 / 16
        /\ 0 <= stick_rx (glob w') <= 255).
Proof.
  intros Hs Hsd Hlen Hc. eexists. eexists.
  split;
    [exact (receive_input_report w sd j hdr b1 b2 b3 b4 b5 b6 b7 b8 b9 b10 b11 tail j0
              Hs Hsd Hlen Hc)|].
  cbn [glob set_sessions set_glob].
  split; intros Hown.
  - assert (Hx : stick_lx (merged (button_set j) (report_buttons b3 b4 b5)
                             b6 b7 b8 b9 b10 b11 (glob w)) = stick_x b6 b7).
    { unfold merged. rewrite Hown.
      destruct (owns (button_set j) JOYCON_BUTTONSET_RIGHT); reflexivity. }
    rewrite Hx. destruct (stick_x_top_bits b6 b7) as [H1 H2].
    split; [exact H1|]. split; [exact H2|apply stick_x_range].
  - assert (Hx : stick_rx (merged (button_set j) (report_buttons b3 b4 b5)
                             b6 b7 b8 b9 b10 b11 (glob w)) = stick_x b9 b10).
    { unfold merged. rewrite Hown. reflexivity. }
    rewrite Hx. destruct (stick_x_top_bits b9 b10) as [H1 H2].
    split; [exact H1|]. split; [exact H2|apply stick_x_range].
Qed.

Lemma stick_x_is_top_byte_witness :
  (sessions pair_world !! 1%nat = Some (left_joycon 1)
   /\ serdev (left_joycon 1) = 1%nat
   /\ length (take 12 idle_report) = sizeof_joycon_uart_header
   /\ take 12 idle_report !! offsetof_command = Some x92
   /\ owns (button_set (left_joycon 1)) JOYCON_BUTTONSET_LEFT = true)
  /\ exists r w',
       joycon_serdev_receive_buf 1
         (input_report (take 12 idle_report)
            x00 x00 x00 x00 x00 xcd xab x00 x00 x00 x00 []) 0 pair_world = Done r w'
       /\ stick_lx (glob w') = 0xBC.
Proof.
  split; [repeat split; reflexivity|].
  destruct (stick_x_is_top_byte pair_world 1 (left_joycon 1) (take 12 idle_report)
              x00 x00 x00 x00 x00 xcd xab x00 x00 x00 x00 [] 0
              eq_refl eq_refl eq_refl eq_refl) as (r & w' & Hrun & HL & _).
  exists r, w'. split; [exact Hrun|].
  rewrite (proj1 (HL eq_refl)). reflexivity.
Defined.

(** ** From a report to the input events *)

Lemma sync_handler_run (w : world) :
  sync_handler w =
    Done tt
      (set_trace
         (trace w
          ++ [MutexLock joycon_input_lock]
          ++ key_events (buttons (glob w)) 0 (take 24 joycon_common_btn)
          ++ [InputReportAbs ABS_X (stick_lx (glob w));
              InputReportAbs ABS_Y (stick_ly (glob w));
              InputReportAbs ABS_RX (stick_rx (glob w));
              InputReportAbs ABS_RY (stick_ry (glob w));
              InputSync;
              MutexUnlock joycon_input_lock;
              QueueDelayedWork work_sync_poll 10]) w).
Proof.
  unfold sync_handler.
  unfold bind at 1. unfold mutex_lock, emit.
  unfold bind at 1.
  rewrite (report_keys_run (take 24 joycon_common_btn) (-1) []);
    [|repeat constructor; discriminate|reflexivity].
  destruct w as [m g t s]. munfold. unfold set_trace.
  cbn [sessions glob trace script].
  rewrite <- !app_assoc. reflexivity.
Qed.

Lemma key_events_lookup (b : Z) (i : nat) (code : Z) :
  (i < 24)%nat ->
  joycon_common_btn !! i = Some code ->
  key_events b 0 (take 24 joycon_common_btn) !! i =
    Some (InputReportKey code (if Z.testbit b (Z.of_nat i) then 2 ^ Z.of_nat i else 0)).
Proof.
  intros Hi Hc. unfold key_events. rewrite list_lookup_imap.
  rewrite lookup_take_lt by exact Hi. rewrite Hc. simpl. do 2 f_equal.
  change (0 + Z.of_nat i) with (Z.of_nat i). rewrite land_BIT.
  destruct (Z.testbit b (Z.of_nat i)); [|reflexivity].
  apply int32_id. unfold INT_MIN, INT_MAX.
  assert (0 < 2 ^ Z.of_nat i <= 2 ^ 23).
  { split; [apply Z.pow_pos_nonneg; lia|apply Z.pow_le_mono_r; lia]. }
  lia.
Qed.

(** X11.  From a report to the input events.  An input report followed by
    a run of the output sync: the sync reports, for each of the 24 codes of
    the table, the weight of the code's bit if that bit is set and 0
    otherwise, where the bit is the report's if it lies in a mask of a side
    the reporting session owns and the one merged before otherwise; then
    the four stick values as the report left them.  In particular the bit
    of a report that lies in no mask of its session never reaches the input
    subsystem. *)
Theorem report_reaches_input (w : world) (sd : nat) (j : joycon) (hdr : list byte)
    (b1 b2 b3 b4 b5 b6 b7 b8 b9 b10 b11 : byte) (tail : list byte) (j0 : Z) :
  sessions w !! sd = Some j ->
  serdev j = sd ->
  length hdr = sizeof_joycon_uart_header ->
  hdr !! offsetof_command = Some x92 ->
  let g' := merged (button_set j) (report_buttons b3 b4 b5) b6 b7 b8 b9 b10 b11 (glob w) in
  exists w2 keys,
    (joycon_serdev_receive_buf sd
       (input_report hdr b1 b2 b3 b4 b5 b6 b7 b8 b9 b10 b11 tail) j0 ;;;
     sync_handler) w = Done tt w2
    /\ trace w2 =
         trace w
         ++ [MutexLock joycon_input_lock; MutexUnlock joycon_input_lock;
             MutexLock joycon_input_lock]
         ++ keys
         ++ [InputReportAbs ABS_X (stick_lx g'); InputReportAbs ABS_Y (stick_ly g');
             InputReportAbs ABS_RX (stick_rx g'); InputReportAbs ABS_RY (stick_ry g');
             InputSync; MutexUnlock joycon_input_lock;
             QueueDelayedWork work_sync_poll 10]
    /\ length keys = 24%nat
    /\ forall (i : nat) (code : Z),
         (i < 24)%nat ->
         joycon_common_btn !! i = Some code ->
         keys !! i =
           Some (InputReportKey code
                   (if merged_bit (button_set j) (report_buttons b3 b4 b5)
                         (buttons (glob w)) (Z.of_nat i)
                    then 2 ^ Z.of_nat i else 0)).
Proof.
  intros Hs Hsd Hlen Hc g'.
  eexists. exists (key_events (buttons g') 0 (take 24 joycon_common_btn)).
  split; [|split; [|split]].
  - unfold bind.
    rewrite (receive_input_report w sd j hdr b1 b2 b3 b4 b5 b6 b7 b8 b9 b10 b11 tail j0
               Hs Hsd Hlen Hc).
    rewrite sync_handler_run. reflexivity.
  - cbn [trace glob set_trace set_glob set_sessions]. fold g'.
    rewrite <- !app_assoc. reflexivity.
  - unfold key_events. rewrite length_imap. reflexivity.
  - intros i code Hi Hcode. rewrite (key_events_lookup _ i code Hi Hcode).
    subst g'. rewrite merged_buttons_bit by lia. reflexivity.
Qed.

Lemma report_reaches_input_witness :
  (sessions pair_world !! 1%nat = Some (left_joycon 1)
   /\ serdev (left_joycon 1) = 1%nat
   /\ length (take 12 idle_report) = sizeof_joycon_uart_header
   /\ take 12 idle_report !! offsetof_command = Some x92
   /\ joycon_common_btn !! 0%nat = Some BTN_Y
   /\ joycon_common_btn !! 23%nat = Some BTN_TL2)
  /\ exists (w2 : world) (keys : list event),
       (joycon_serdev_receive_buf 1
          (input_report (take 12 idle_report)
             x00 x00 xff xff xff x00 x00 x00 x00 x00 x00 []) 0 ;;;
        sync_handler) pair_world = Done tt w2
       /\ keys !! 0%nat = Some (InputReportKey BTN_Y 0)
       /\ keys !! 23%nat = Some (InputReportKey BTN_TL2 (2 ^ 23)).
Proof.
  split; [repeat split; reflexivity|].
  destruct (report_reaches_input pair_world 1 (left_joycon 1) (take 12 idle_report)
              x00 x00 xff xff xff x00 x00 x00 x00 x00 x00 [] 0
              eq_refl eq_refl eq_refl eq_refl) as (w2 & keys & Hrun & _ & _ & Hk).
  exists w2, keys. split; [exact Hrun|]. split.
  - rewrite (Hk 0%nat BTN_Y ltac:(lia) eq_refl). reflexivity.
  - rewrite (Hk 23%nat BTN_TL2 ltac:(lia) eq_refl). reflexivity.
Defined.

(** ** Runs of the liveness work against a script *)

(** X12.  The handshake is retried until it is answered.  On an expired
    session, if the transport accepts every write, nothing is received
    during [n] turns of the loop and the handshake reply arrives during the
    sleep of the next turn, the run leaves the loop after exactly [n + 1]
    turns, writes the four requests (whatever those writes return), and
    ends with the session handshaken and initialized, both counters at 0,
    the work queued again, and every answer up to there consumed.  The next
    run then finds the session alive. *)
Theorem handshake_after_retries (w : world) (sd : nat) (j : joycon) (n : nat)
    (e1 e2 e3 e4 : Z) (s : list env_resp) :
  sessions w !! sd = Some j ->
  serdev j = sd ->
  timeout_expired j = true ->
  script w = concat (replicate n retry_round) ++ ack_round sd
             ++ answer e1 :: answer e2 :: answer e3 :: answer e4 :: s ->
  let j' := set_timeout_samples 0
              (set_initialized true (set_num_samples 0 (set_handshaken true j))) in
  timeout_handler sd w =
    Done tt
      {| sessions := <[sd := j']> (sessions w);
         glob := glob w;
         trace := trace w ++ [timeout_log j]
                  ++ concat (replicate n (round_trace sd ++ [Printk LogSentHandshake]))
                  ++ round_trace sd ++ [Printk LogGotHandshake; Printk LogSentHandshake]
                  ++ [SerdevWrite sd get_mac 200; SerdevWrite sd unk_1 200;
                      SerdevWrite sd unk_2 200; SerdevWrite sd unk_3 200;
                      QueueDelayedWork (work_timeout_poll sd) 200];
         script := s |}
  /\ timeout_expired j' = false.
Proof.
  intros Hs Hsd He Hsc j'. split.
  - exact (timeout_handler_handshakes w sd j n e1 e2 e3 e4 s Hs Hsd He Hsc).
  - reflexivity.
Qed.

Lemma handshake_after_retries_witness :
  (sessions fresh_world !! 1%nat = Some (joycon_zalloc 1)
   /\ serdev (joycon_zalloc 1) = 1%nat
   /\ timeout_expired (joycon_zalloc 1) = true)
  /\ exists w',
       timeout_handler 1
         (set_script (concat (replicate 2 retry_round) ++ ack_round 1
                      ++ [answer 0; answer 0; answer 0; answer 0]) fresh_world) =
         Done tt w'
       /\ sessions w' !! 1%nat = Some (ready_joycon 1)
       /\ length (trace w') = 19%nat.
Proof.
  split; [repeat split; reflexivity|].
  eexists. split.
  - apply (proj1 (handshake_after_retries
                    (set_script (concat (replicate 2 retry_round) ++ ack_round 1
                                 ++ [answer 0; answer 0; answer 0; answer 0]) fresh_world)
                    1 (joycon_zalloc 1) 2 0 0 0 0 [] eq_refl eq_refl eq_refl eq_refl)).
  - split; reflexivity.
Defined.

(** The loop is left through [goto fail] by the first write that fails. *)
Lemma handshake_loop_aborts (sd : nat) (n : nat) :
  forall (fuel : nat) (w : world) (j : joycon) (second : bool) (e : Z)
         (s : list env_resp),
    sessions w !! sd = Some j ->
    handshaken j = false ->
    e <> 0 ->
    script w = concat (replicate n retry_round)
               ++ (if second then [quiet] else []) ++ answer e :: s ->
    (n + 1 <= fuel)%nat ->
    handshake_loop fuel sd w =
      Done goto_fail
        {| sessions := sessions w;
           glob := glob w;
           trace := trace w
                    ++ concat (replicate n (round_trace sd ++ [Printk LogSentHandshake]))
                    ++ SerdevWrite sd magic_start 200
                       :: (if second then [SerdevWrite sd handshake_start 200] else []);
           script := s |}.
Proof.
  induction n as [|n IH]; intros fuel w j second e s Hs Hh He Hsc Hfuel.
  - destruct fuel as [|fuel]; [lia|].
    destruct w as [m g t sc]. simpl in Hs, Hsc. subst sc.
    apply Z.eqb_neq in He.
    cbn [handshake_loop]. unfold bind at 1. unfold joycon_get at 1. simpl sessions.
    rewrite Hs, Hh. unfold bind at 1.
    destruct second.
    + erewrite write_answered by reflexivity.
      cbn [negb Z.eqb]. unfold bind at 1. erewrite write_answered by reflexivity.
      rewrite He. simpl. rewrite <- !app_assoc. reflexivity.
    + erewrite write_answered by reflexivity.
      rewrite He. simpl. reflexivity.
  - destruct fuel as [|fuel]; [lia|].
    destruct w as [m g t sc]. simpl in Hs, Hsc. subst sc.
    cbn [handshake_loop]. unfold bind at 1. unfold joycon_get at 1. simpl sessions.
    rewrite Hs, Hh.
    unfold bind at 1. erewrite write_answered by reflexivity.
    cbn [negb Z.eqb]. unfold bind at 1. erewrite write_answered by reflexivity.
    cbn [negb Z.eqb]. unfold bind at 1.
    erewrite usleep_quiet by reflexivity.
    unfold bind at 1. unfold printk, emit.
    erewrite (IH fuel _ j second e s); [|exact Hs|exact Hh|exact He|reflexivity|lia].
    simpl. rewrite <- !app_assoc. reflexivity.
Qed.

(** X13.  A failed write ends the attempt at once.  On an expired session,
    after [n] unanswered turns of the loop, if the write of [magic_start]
    fails, or that one succeeds and the write of [handshake_start] fails,
    the run goes straight to its last statements: nothing is written after
    the failed write, there is no sleep and none of the four requests, the
    session is left neither handshaken nor initialized with
    [timeout_samples] equal to [num_samples], and the work is queued again;
    whatever the counters are, the session is then one that the next run
    restarts. *)
Theorem handshake_abort (w : world) (sd : nat) (j : joycon) (n : nat) (second : bool)
    (e : Z) (s : list env_resp) :
  sessions w !! sd = Some j ->
  timeout_expired j = true ->
  e <> 0 ->
  script w = concat (replicate n retry_round)
             ++ (if second then [quiet] else []) ++ answer e :: s ->
  let j' := set_timeout_samples (num_samples j)
              (set_initialized false (set_handshaken false j)) in
  timeout_handler sd w =
    Done tt
      {| sessions := <[sd := j']> (sessions w);
         glob := glob w;
         trace := trace w ++ [timeout_log j]
                  ++ concat (replicate n (round_trace sd ++ [Printk LogSentHandshake]))
                  ++ SerdevWrite sd magic_start 200
                     :: (if second then [SerdevWrite sd handshake_start 200] else [])
                  ++ [QueueDelayedWork (work_timeout_poll sd) 200];
         script := s |}
  /\ timeout_expired j' = true.
Proof.
  intros Hs Hexp He Hsc j'. split.
  - rewrite (timeout_handler_expired w sd j Hs Hexp).
    unfold bind at 1. unfold bind at 1.
    erewrite (handshake_loop_aborts sd n _ (restarted sd j w)
                (set_initialized false (set_handshaken false j)) second e s);
      [|simpl; apply lookup_insert_eq|reflexivity|exact He|exact Hsc
       |rewrite Hsc, length_app, length_rounds; simpl; lia].
    unfold ret at 1.
    erewrite timeout_fail_run by (simpl; apply lookup_insert_eq).
    destruct w as [m g t sc]. destruct j. subst j'.
    unfold restarted, set_sessions, set_trace. simpl.
    rewrite !insert_insert_eq, <- !app_assoc. simpl.
    destruct second; reflexivity.
  - subst j'. unfold timeout_expired. simpl. now rewrite orb_true_r.
Qed.

Lemma handshake_abort_witness :
  (sessions stalled_world !! 1%nat = Some stalled_joycon
   /\ timeout_expired stalled_joycon = true
   /\ -110 <> 0)
  /\ exists w',
       timeout_handler 1
         (set_script (concat (replicate 1 retry_round) ++ [quiet] ++ [answer (-110)])
            stalled_world) = Done tt w'
       /\ (initialized <$> sessions w' !! 1%nat) = Some false
       /\ trace w' =
            [timeout_log stalled_joycon;
             SerdevWrite 1 magic_start 200; SerdevWrite 1 handshake_start 200;
             UsleepRange 180000 200000; Printk LogSentHandshake;
             SerdevWrite 1 magic_start 200; SerdevWrite 1 handshake_start 200;
             QueueDelayedWork (work_timeout_poll 1) 200].
Proof.
  split; [repeat split; first [reflexivity | discriminate]|].
  eexists. split.
  - apply (proj1 (handshake_abort
                    (set_script (concat (replicate 1 retry_round) ++ [quiet]
                                 ++ [answer (-110)]) stalled_world)
                    1 stalled_joycon 1 true (-110) []
                    eq_refl eq_refl ltac:(discriminate) eq_refl)).
  - split; [vm_compute; reflexivity|reflexivity].
Defined.

(** * Binding and unbinding a device *)

Ltac krun :=
  unfold joycon_serdev_probe, joycon_serdev_remove, input_exists, fail1, fail2, kfree,
    start_work, devm_kzalloc, input_allocate_device, input_register_device,
    input_free_device, input_unregister_device, input_set_abs_params, input_dev_update,
    input_dev_is_set, serdev_device_set_drvdata, kcall, kbind, kret, kfault.

Lemma input_exists_eq (env : probe_env) (sd : nat) (k : kernel) :
  input_exists env sd k = input_exists_result env sd k.
Proof.
  destruct k as [w d f c]. destruct env as [a b e c1 c2 c3].
  unfold input_exists_result, input_exists_calls, add_calls, installed. krun.
  cbn [kmalloc_timeout_ok kmalloc_input_ok].
  destruct c2, c3; cbn; rewrite <- ?app_assoc; reflexivity.
Qed.

Lemma keybits_rails :
  ({[BTN_TL2]} ∪ ({[BTN_TL]} ∪ ({[BTN_3]} ∪ ({[BTN_2]} ∪ ({[BTN_DPAD_LEFT]} ∪
   ({[BTN_DPAD_RIGHT]} ∪ ({[BTN_DPAD_UP]} ∪ ({[BTN_DPAD_DOWN]} ∪ ({[BTN_5]} ∪
   ({[BTN_4]} ∪ ({[BTN_Z]} ∪ ({[BTN_MODE]} ∪ ({[BTN_THUMBL]} ∪ ({[BTN_THUMBR]} ∪
   ({[BTN_START]} ∪ ({[BTN_SELECT]} ∪ ({[BTN_TR2]} ∪ ({[BTN_TR]} ∪ ({[BTN_1]} ∪
   ({[BTN_0]} ∪ ({[BTN_A]} ∪ ({[BTN_B]} ∪ ({[BTN_X]} ∪ ({[BTN_Y]} ∪ ∅)))))))))))))))))))))))
   : gset Z) = list_to_set (take 24 joycon_common_btn).
Proof. vm_compute. reflexivity. Qed.

Lemma kbind_kcall {A} (e : bind_event) (f : unit -> K A) (k : kernel) :
  kbind (kcall e) f k = f tt (add_calls [e] k).
Proof. reflexivity. Qed.

Lemma add_calls_app (c1 c2 : list bind_event) (k : kernel) :
  add_calls c2 (add_calls c1 k) = add_calls (c1 ++ c2) k.
Proof. unfold add_calls, set_calls. cbn. now rewrite app_assoc. Qed.

Lemma kbind_update {A} (f : input_device -> input_device) (g : unit -> K A)
    (d : input_device) (k : kernel) :
  kbind (input_dev_update f) g (set_input_dev (Some d) k)
  = g tt (set_input_dev (Some (f d)) k).
Proof. reflexivity. Qed.

Lemma set_keybits_cons {A} (c : Z) (tbl : list Z) (g : unit -> K A) (k : kernel)
    n i p e kb ab r rl :
  0 <= c ->
  kbind (set_keybits (c :: tbl)) g (set_input_dev (Some (InputDevice n i p e kb ab r rl)) k)
  = kbind (set_keybits tbl) g
      (set_input_dev (Some (InputDevice n i p e ({[ c ]} ∪ kb) ab r rl)) k).
Proof.
  intros Hc. cbn [set_keybits]. destruct (Z.leb_spec 0 c) as [_|]; [|lia]. reflexivity.
Qed.

Lemma set_keybits_end {A} (c : Z) (tbl : list Z) (g : unit -> K A) (k : kernel) :
  c < 0 -> kbind (set_keybits (c :: tbl)) g k = g tt k.
Proof.
  intros Hc. cbn [set_keybits]. destruct (Z.leb_spec 0 c) as [|_]; [lia|]. reflexivity.
Qed.

Lemma add_calls_input_dev (c : list bind_event) (d : option input_device) (k : kernel) :
  add_calls c (set_input_dev d k) = set_input_dev d (add_calls c k).
Proof. reflexivity. Qed.

Lemma set_input_dev_twice (d1 d2 : option input_device) (k : kernel) :
  set_input_dev d2 (set_input_dev d1 k) = set_input_dev d2 k.
Proof. reflexivity. Qed.

Ltac knorm := rewrite ?add_calls_input_dev, ?add_calls_app, ?set_input_dev_twice.

Lemma kbind_kret {A B} (a : A) (f : A -> K B) (k : kernel) :
  kbind (kret a) f k = f a k.
Proof. reflexivity. Qed.

Lemma kcall_eq (e : bind_event) (k : kernel) : kcall e k = Some (tt, add_calls [e] k).
Proof. reflexivity. Qed.

Lemma probe_eq (env : probe_env) (sd : nat) (k : kernel) :
  joycon_serdev_probe env sd k = probe_result env sd k.
Proof.
  unfold joycon_serdev_probe, probe_result.
  rewrite kbind_kcall. unfold devm_kzalloc. 
  unfold kbind at 1. rewrite kbind_kcall. unfold kret at 1.
  destruct (devm_kzalloc_ok env); cbn [negb].
  2:{ unfold fail2, kfree. unfold kbind at 1. rewrite kbind_kcall. cbn.
      rewrite add_calls_app, add_calls_app. reflexivity. }
  unfold kbind at 1. unfold input_dev_is_set at 1. cbn [input_dev add_calls set_calls].
  destruct (input_dev k) as [d|] eqn:Hd.
  { rewrite bool_decide_eq_true_2 by eauto. rewrite input_exists_eq, add_calls_app.
    reflexivity. }
  rewrite bool_decide_eq_false_2 by (intros [? ?]; discriminate).
  unfold input_allocate_device. unfold kbind at 1. rewrite kbind_kcall.
  rewrite add_calls_app. 
  unfold kbind at 1. unfold input_dev_is_set at 1. cbn [input_dev set_input_dev].
  destruct (input_allocate_device_ok env); cbn [negb].
  2:{ rewrite bool_decide_eq_false_2 by (intros [? ?]; discriminate). cbn [negb].
      unfold fail2, kfree. unfold kbind at 1. rewrite kbind_kcall. cbn.
      rewrite add_calls_app. unfold session_freed, add_calls, set_calls, set_input_dev, set_freed_sessions. cbn. 
      rewrite <- !app_assoc. rewrite Hd. reflexivity. }
  rewrite bool_decide_eq_true_2 by eauto. cbn [negb].
  rewrite !kbind_update.
  cbv [set_in_name set_in_id set_in_parent set_evbit0 input_device_zalloc
       in_name in_id in_parent evbit0 keybit absinfo registered released].
  unfold joycon_common_btn.
  rewrite !set_keybits_cons by (cbv; discriminate).
  rewrite set_keybits_end by reflexivity.
  unfold input_set_abs_params. rewrite !kbind_update.
  cbv [set_absinfo in_name in_id in_parent evbit0 keybit absinfo registered released].
  match goal with
  | |- context [Some (InputDevice ?n ?i ?p ?e ?kb ?ab false false)] =>
      replace (InputDevice n i p e kb ab false false)
        with (set_registered false (joycon_rails sd)) by (vm_compute; reflexivity)
  end.
  rewrite !add_calls_app.
  unfold input_register_device.
  unfold kbind at 1. rewrite kbind_kcall. knorm.
  destruct (input_register_device_err env =? 0) eqn:He; cbn [negb].
  - rewrite kbind_update. unfold kret at 1. rewrite He. cbn [negb].
    unfold start_work. unfold kbind at 1. rewrite kbind_kcall. knorm.
    destruct (kmalloc_sync_ok env).
    + rewrite kbind_kret, kcall_eq. knorm.
      rewrite input_exists_eq. unfold probe_prologue. cbn [app].
      reflexivity.
    + reflexivity.
  - rewrite kbind_kret. unfold kret at 1. rewrite He. cbn [negb].
    unfold fail1, fail2, input_free_device, kfree.
    unfold kbind at 1. rewrite kbind_kcall. knorm. cbn [input_dev set_input_dev fmap option_fmap option_map].
    unfold kbind at 1. rewrite kbind_kcall. knorm.
    reflexivity.
Qed.

Lemma remove_eq (sd : nat) (k : kernel) :
  joycon_serdev_remove sd k = remove_result sd k.
Proof.
  unfold joycon_serdev_remove, remove_result.
  unfold kbind at 1. rewrite kbind_kcall.
  destruct (sessions (driver k) !! sd) as [j|]; [|reflexivity].
  unfold input_unregister_device, kfree.
  unfold kbind at 1. rewrite kbind_kcall.
  unfold input_dev_update at 1. cbn [input_dev add_calls set_calls].
  destruct (input_dev k) as [d|] eqn:Hd; [|reflexivity].
  rewrite kbind_kcall. knorm. cbn [app].
  unfold session_freed, set_freed_sessions, set_input_dev, add_calls, set_calls. cbn.
  reflexivity.
Qed.

Lemma input_exists_result_inv (env : probe_env) (sd : nat) (k k' : kernel) (r : Z) :
  input_exists_result env sd k = Some (r, k') ->
  r = 0 /\ k' = add_calls (input_exists_calls sd) (installed sd k).
Proof.
  unfold input_exists_result.
  destruct (kmalloc_timeout_ok env), (kmalloc_input_ok env); intros H; inversion H; auto.
Qed.

Ltac kfin :=
  cbn; repeat split; auto; try discriminate;
  try (let Hin := fresh in
       intros Hin;
       repeat (apply elem_of_cons in Hin as [Hin|Hin]; [discriminate|]);
       now apply elem_of_nil in Hin);
  try set_solver.

(** X14.  What a call of probe leaves behind, whatever the allocations and
    the registration answer.  The call returns 0, [-ENOMEM] or the error
    of [input_register_device], and touches neither the merged state nor
    what the handlers have logged.  When it returns 0 the device has a fresh
    session as its driver data, an input device is pointed to, nothing was
    freed, and the liveness and the status work of the device are the last
    works queued, both at 200 ms, after the sync work when this call
    registered the input device.  When it returns an error the handlers'
    state is as before, no work was queued, the port was not opened, and the
    session, when it was allocated, has been given to [kfree] although it
    is device-managed memory. *)
Theorem probe_outcome (env : probe_env) (sd : nat) (k k' : kernel) (r : Z) :
  joycon_serdev_probe env sd k = Some (r, k') ->
  exists c,
    calls k' = calls k ++ c
    /\ glob (driver k') = glob (driver k)
    /\ trace (driver k') = trace (driver k)
    /\ script (driver k') = script (driver k)
    /\ (r = 0 \/ r = - ENOMEM \/ r = input_register_device_err env)
    /\ if r =? 0 then
         sessions (driver k') = <[sd := joycon_zalloc sd]> (sessions (driver k))
         /\ is_Some (input_dev k')
         /\ freed_sessions k' = freed_sessions k
         /\ filter queues_work c =
              (match input_dev k with
               | Some _ => []
               | None => [Handler (QueueDelayedWork work_sync_poll 10)]
               end)
              ++ [Handler (QueueDelayedWork (work_timeout_poll sd) 200);
                  Handler (QueueDelayedWork (work_input_poll sd) 200)]
       else
         driver k' = driver k
         /\ filter queues_work c = []
         /\ (SerdevDeviceOpen sd ∉ c)
         /\ (devm_kzalloc_ok env = true ->
             DevmKzalloc sd ∈ c /\ Kfree (Some sd) ∈ c /\ sd ∈ freed_sessions k').
Proof.
  rewrite probe_eq. unfold probe_result. intros H.
  destruct (devm_kzalloc_ok env); cbn [negb] in H.
  2:{ inversion H; subst; clear H. eexists. split; [reflexivity|]. kfin. }
  destruct (input_dev k) as [d|] eqn:Hd.
  { apply input_exists_result_inv in H as [-> ->].
    eexists. split; [cbn; rewrite <- app_assoc; reflexivity|].
    cbn. rewrite Hd. repeat split; eauto. }
  destruct (input_allocate_device_ok env); cbn [negb] in H.
  2:{ inversion H; subst; clear H. eexists. split; [reflexivity|]. kfin. }
  destruct (input_register_device_err env =? 0) eqn:He; cbn [negb] in H.
  2:{ inversion H; subst; clear H. eexists. split; [reflexivity|].
      rewrite He. kfin. }
  destruct (kmalloc_sync_ok env); [|discriminate].
  apply input_exists_result_inv in H as [-> ->].
  eexists. split; [cbn; rewrite <- app_assoc; reflexivity|].
  cbn. repeat split; eauto.
Qed.

Lemma probe_outcome_witness :
  joycon_serdev_probe all_ok 1 kernel_init = Some (0, bound_kernel)
  /\ exists c,
       calls bound_kernel = c
       /\ sessions (driver bound_kernel) = {[ 1%nat := joycon_zalloc 1 ]}
       /\ filter queues_work c =
            [Handler (QueueDelayedWork work_sync_poll 10);
             Handler (QueueDelayedWork (work_timeout_poll 1) 200);
             Handler (QueueDelayedWork (work_input_poll 1) 200)].
Proof.
  split; [vm_compute; reflexivity|].
  destruct (probe_outcome all_ok 1 kernel_init bound_kernel 0 ltac:(vm_compute; reflexivity))
    as (c & Hc & _ & _ & _ & _ & Hs & _ & _ & Hq).
  exists c. split; [exact Hc|]. split; [exact Hs|exact Hq].
Defined.

(** ** One step of the whole driver *)

Lemma probe_step (env : probe_env) (sd : nat) (k k' : kernel) (r : Z) :
  joycon_serdev_probe env sd k = Some (r, k') ->
  exists c,
    calls k' = calls k ++ c
    /\ driver k' = (if r =? 0
                    then set_sessions (<[sd := joycon_zalloc sd]> (sessions (driver k)))
                           (driver k)
                    else driver k)
    /\ match input_dev k with
       | Some d0 =>
           input_dev k' = Some d0 /\ filter makes_input_dev c = []
           /\ filter registers c = [] /\ filter starts_sync c = []
       | None =>
           (input_dev k' = None /\ filter registers c = [] /\ filter starts_sync c = []
            /\ r <> 0)
           \/ (input_dev k' = Some (set_released true (set_registered false (joycon_rails sd)))
               /\ filter registers c = [InputRegisterDevice]
               /\ filter starts_sync c = [] /\ r <> 0)
           \/ (input_dev k' = Some (joycon_rails sd)
               /\ filter registers c = [InputRegisterDevice]
               /\ filter starts_sync c = [Handler (QueueDelayedWork work_sync_poll 10)]
               /\ r = 0)
       end.
Proof.
  rewrite probe_eq. unfold probe_result. intros H.
  destruct (devm_kzalloc_ok env); cbn [negb] in H.
  2:{ inversion H; subst; clear H. eexists. split; [reflexivity|]. split; [reflexivity|].
      cbn. destruct (input_dev k); [|left]; repeat split. discriminate. }
  destruct (input_dev k) as [d|] eqn:Hd.
  { apply input_exists_result_inv in H as [-> ->].
    eexists. split; [cbn; rewrite <- app_assoc; reflexivity|]. split; [reflexivity|].
    repeat split. exact Hd. }
  destruct (input_allocate_device_ok env); cbn [negb] in H.
  2:{ inversion H; subst; clear H. eexists. split; [reflexivity|]. split; [reflexivity|].
      left. repeat split. - exact Hd. - discriminate. }
  destruct (input_register_device_err env =? 0) eqn:He; cbn [negb] in H.
  2:{ inversion H; subst; clear H. eexists. split; [reflexivity|].
      rewrite He. split; [reflexivity|].
      right. left. repeat split. intros E. rewrite E in He. discriminate. }
  destruct (kmalloc_sync_ok env); [|discriminate].
  apply input_exists_result_inv in H as [-> ->].
  eexists. split; [cbn; rewrite <- app_assoc; reflexivity|]. split; [reflexivity|].
  right. right. repeat split.
Qed.

Lemma remove_step (sd : nat) (k k' : kernel) :
  joycon_serdev_remove sd k = Some (tt, k') ->
  exists d,
    input_dev k = Some d
    /\ is_Some (sessions (driver k) !! sd)
    /\ k' = session_freed sd
              (set_input_dev (Some (set_released true (set_registered false d)))
                 (add_calls [BindPrintk "Joy-Con remove!"%string;
                             InputUnregisterDevice; Kfree (Some sd)] k)).
Proof.
  rewrite remove_eq. unfold remove_result.
  destruct (sessions (driver k) !! sd) as [j|]; [|discriminate].
  destruct (input_dev k) as [d|]; [|discriminate].
  intros H. inversion H. eauto.
Qed.

Lemma probe_marks (env : probe_env) (sd : nat) (k k' : kernel) (r : Z) :
  joycon_serdev_probe env sd k = Some (r, k') ->
  exists c,
    calls k' = calls k ++ c
    /\ match input_dev k with
       | Some _ => is_Some (input_dev k') /\ filter registers_or_starts c = []
       | None =>
           (input_dev k' = None /\ filter registers_or_starts c = [])
           \/ (is_Some (input_dev k')
               /\ (filter registers_or_starts c = [InputRegisterDevice]
                   \/ filter registers_or_starts c
                      = [InputRegisterDevice;
                         Handler (QueueDelayedWork work_sync_poll 10)]))
       end.
Proof.
  rewrite probe_eq. unfold probe_result. intros H.
  destruct (devm_kzalloc_ok env); cbn [negb] in H.
  2:{ inversion H; subst; clear H. eexists. split; [reflexivity|].
      cbn. destruct (input_dev k); [split; [eauto|reflexivity]|left; now split]. }
  destruct (input_dev k) as [d|] eqn:Hd.
  { apply input_exists_result_inv in H as [-> ->].
    eexists. split; [cbn; rewrite <- app_assoc; reflexivity|].
    split; [cbn; rewrite Hd; eauto|reflexivity]. }
  destruct (input_allocate_device_ok env); cbn [negb] in H.
  2:{ inversion H; subst; clear H. eexists. split; [reflexivity|].
      left. split; [exact Hd|reflexivity]. }
  destruct (input_register_device_err env =? 0) eqn:He; cbn [negb] in H.
  2:{ inversion H; subst; clear H. eexists. split; [reflexivity|].
      right. split; [cbn; eauto|left; reflexivity]. }
  destruct (kmalloc_sync_ok env); [|discriminate].
  apply input_exists_result_inv in H as [-> ->].
  eexists. split; [cbn; rewrite <- app_assoc; reflexivity|].
  right. split; [cbn; eauto|right; reflexivity].
Qed.

(** X15.  The input device is registered once.  From the loading of the
    module on, whatever devices are bound and unbound, in whatever order,
    whatever the allocations and the registration answer, and whatever the
    handlers do in between, the calls that register an input device or
    start the sync work are, in the order they were made: none; or one call
    of [input_register_device]; or one call of [input_register_device]
    followed by one start of the sync work, at 10 ms.  So the device is
    registered at most once, the sync work is started at most once and only
    after the registration, and neither has happened while [input_dev] is
    null. *)
Theorem input_dev_registered_once (k : kernel) :
  driver_reachable kernel_init k ->
  (filter registers_or_starts (calls k) = []
   \/ filter registers_or_starts (calls k) = [InputRegisterDevice]
   \/ filter registers_or_starts (calls k)
      = [InputRegisterDevice; Handler (QueueDelayedWork work_sync_poll 10)])
  /\ (input_dev k = None -> filter registers_or_starts (calls k) = []).
Proof.
  intros Hr.
  assert (H : registered_once k).
  { induction Hr as [|k k' _ IH Hstep]; [reflexivity|].
    destruct Hstep as [env sd k k' r Hp|sd k k' Hp|e s k w' _].
    - apply probe_marks in Hp as (c & Hc & Hd).
      unfold registered_once in *. rewrite Hc, filter_app.
      destruct (input_dev k) as [d|].
      + destruct Hd as ([d' ->] & ->). rewrite app_nil_r. exact IH.
      + rewrite IH. cbn [app].
        destruct Hd as [(-> & ->)|([d' ->] & Hm)]; [reflexivity|exact Hm].
    - apply remove_step in Hp as (d & Hd & _ & ->).
      unfold registered_once in *. rewrite Hd in IH.
      cbn [input_dev calls session_freed set_freed_sessions set_input_dev add_calls
           set_calls].
      rewrite filter_app. simpl. rewrite app_nil_r. exact IH.
    - exact IH. }
  unfold registered_once in H.
  destruct (input_dev k); [split; [tauto|discriminate]|].
  split; [now left|intros _; exact H].
Qed.

Lemma bound_kernel_reachable : driver_reachable kernel_init bound_kernel.
Proof.
  apply (driver_next kernel_init kernel_init bound_kernel (driver_start kernel_init)).
  apply (step_probe all_ok 1 kernel_init bound_kernel 0). vm_compute. reflexivity.
Qed.

Lemma unbound_kernel_reachable : driver_reachable kernel_init unbound_kernel.
Proof.
  apply (driver_next kernel_init bound_kernel unbound_kernel bound_kernel_reachable).
  apply (step_remove 1 bound_kernel unbound_kernel). vm_compute. reflexivity.
Qed.

Lemma input_dev_registered_once_witness :
  driver_reachable kernel_init unbound_kernel
  /\ filter registers_or_starts (calls unbound_kernel)
     = [InputRegisterDevice; Handler (QueueDelayedWork work_sync_poll 10)]
  /\ (input_dev unbound_kernel = None ->
      filter registers_or_starts (calls unbound_kernel) = []).
Proof.
  split; [exact unbound_kernel_reachable|].
  split; [vm_compute; reflexivity|].
  exact (proj2 (input_dev_registered_once unbound_kernel unbound_kernel_reachable)).
Defined.

(** ** An input device that is not registered *)

Lemma released_unregistered (d : input_device) :
  registered d = false -> released d = true ->
  set_released true (set_registered false d) = d.
Proof. destruct d. simpl. now intros -> ->. Qed.

(** Once [input_dev] points to a device that is released and not
    registered, it does so for good. *)
Lemma dead_forever (k1 k2 : kernel) (d : input_device) :
  input_dev k1 = Some d -> registered d = false -> released d = true ->
  driver_reachable k1 k2 ->
  input_dev k2 = Some d
  /\ filter makes_input_dev (calls k2) = filter makes_input_dev (calls k1)
  /\ filter starts_sync (calls k2) = filter starts_sync (calls k1).
Proof.
  intros Hd Hreg Hrel Hr.
  induction Hr as [|k k' _ IH Hstep]; [auto|].
  destruct IH as (IHd & IHm & IHs).
  destruct Hstep as [env sd k k' r Hp|sd k k' Hp|e s k w' _].
  - apply probe_step in Hp as (c & Hc & _ & Hk). rewrite IHd in Hk.
    destruct Hk as (-> & Hm & _ & Hs). rewrite Hc, !filter_app, Hm, Hs, !app_nil_r. auto.
  - apply remove_step in Hp as (d' & Hd' & _ & ->). rewrite IHd in Hd'.
    injection Hd' as <-.
    cbn [input_dev calls session_freed set_freed_sessions set_input_dev add_calls set_calls].
    rewrite released_unregistered, !filter_app by assumption.
    simpl. rewrite !app_nil_r. auto.
  - auto.
Qed.

(** With an input device pointed to, a probe whose allocations succeed
    returns 0 and leaves the pointer alone. *)
Lemma probe_on_existing (sd : nat) (k : kernel) (d : input_device) :
  input_dev k = Some d ->
  exists k', joycon_serdev_probe all_ok sd k = Some (0, k')
             /\ input_dev k' = Some d
             /\ sessions (driver k') !! sd = Some (joycon_zalloc sd).
Proof.
  intros Hd. rewrite probe_eq. unfold probe_result. cbn [all_ok devm_kzalloc_ok negb].
  rewrite Hd. unfold input_exists_result. cbn [all_ok kmalloc_timeout_ok kmalloc_input_ok].
  eexists. split; [reflexivity|]. split; [exact Hd|].
  cbn. apply lookup_insert_eq.
Qed.

(** X16.  Unbinding one device takes the shared input device away for
    good.  A call of remove that returns leaves the handlers' world as it
    was (the device keeps its session as driver data, although the session
    has been given to [kfree], and no work is cancelled), and unregisters
    and releases the input device without resetting [input_dev].  In every
    state reached afterwards [input_dev] still points to that released,
    unregistered device; no input device is allocated or registered again
    and the sync work is not started again; and a probe, of any device,
    whose allocations succeed returns 0 and binds the device with that
    pointer. *)
Theorem remove_unregisters_for_good (sd sd' : nat) (k k1 k2 : kernel) :
  joycon_serdev_remove sd k = Some (tt, k1) ->
  driver_reachable k1 k2 ->
  driver k1 = driver k
  /\ is_Some (sessions (driver k1) !! sd)
  /\ sd ∈ freed_sessions k1
  /\ exists d,
       input_dev k2 = Some d /\ registered d = false /\ released d = true
       /\ filter makes_input_dev (calls k2) = filter makes_input_dev (calls k)
       /\ filter starts_sync (calls k2) = filter starts_sync (calls k)
       /\ exists k3,
            joycon_serdev_probe all_ok sd' k2 = Some (0, k3)
            /\ input_dev k3 = Some d.
Proof.
  intros Hrm Hr. apply remove_step in Hrm as (d & Hd & Hs & ->).
  split; [reflexivity|]. split; [exact Hs|]. split; [cbn; set_solver|].
  destruct (fun H => dead_forever _ k2 (set_released true (set_registered false d))
                        H eq_refl eq_refl Hr) as (Hd2 & Hm & Hsy); [reflexivity|].
  exists (set_released true (set_registered false d)).
  split; [exact Hd2|]. split; [reflexivity|]. split; [reflexivity|].
  split; [rewrite Hm; cbn; rewrite filter_app; simpl; now rewrite app_nil_r|].
  split; [rewrite Hsy; cbn; rewrite filter_app; simpl; now rewrite app_nil_r|].
  destruct (probe_on_existing sd' k2 _ Hd2) as (k3 & Hp & Hd3 & _). eauto.
Qed.

Lemma remove_unregisters_for_good_witness :
  (joycon_serdev_remove 1 bound_kernel = Some (tt, unbound_kernel)
   /\ driver_reachable unbound_kernel unbound_kernel)
  /\ driver unbound_kernel = driver bound_kernel
  /\ input_dev bound_kernel = Some (joycon_rails 1)
  /\ exists d k3,
       input_dev unbound_kernel = Some d /\ registered d = false
       /\ joycon_serdev_probe all_ok 2 unbound_kernel = Some (0, k3)
       /\ input_dev k3 = Some d.
Proof.
  split; [split; [vm_compute; reflexivity|apply driver_start]|].
  destruct (remove_unregisters_for_good 1 2 bound_kernel unbound_kernel unbound_kernel
              ltac:(vm_compute; reflexivity) (driver_start unbound_kernel))
    as (Hw & _ & _ & d & Hd & Hreg & _ & _ & _ & k3 & Hp & Hd3).
  split; [exact Hw|]. split; [vm_compute; reflexivity|].
  exists d, k3. auto.
Defined.

(** X17.  A failed registration is not recovered from.  When [input_dev]
    is null, the session and the input device are allocated and
    [input_register_device] returns an error, probe returns that error
    with the handlers' world untouched and the session given to [kfree],
    and leaves [input_dev] pointing to the device it has just handed to
    [input_free_device].  In every state reached afterwards the pointer is
    still that released, unregistered device: no input device is allocated
    or registered again, the sync work is never started, and a probe, of any
    device, whose allocations succeed returns 0 and binds the device with
    that pointer. *)
Theorem failed_registration_sticks (env : probe_env) (sd sd' : nat) (k k2 : kernel) :
  input_dev k = None ->
  devm_kzalloc_ok env = true ->
  input_allocate_device_ok env = true ->
  input_register_device_err env <> 0 ->
  exists k1,
    joycon_serdev_probe env sd k = Some (input_register_device_err env, k1)
    /\ driver k1 = driver k
    /\ sd ∈ freed_sessions k1
    /\ input_dev k1 = Some (set_released true (set_registered false (joycon_rails sd)))
    /\ (driver_reachable k1 k2 ->
        input_dev k2 = input_dev k1
        /\ filter makes_input_dev (calls k2)
           = filter makes_input_dev (calls k) ++ [InputAllocateDevice; InputRegisterDevice]
        /\ filter starts_sync (calls k2) = filter starts_sync (calls k)
        /\ exists k3,
             joycon_serdev_probe all_ok sd' k2 = Some (0, k3)
             /\ input_dev k3 = input_dev k1).
Proof.
  intros Hd Ha Hb He. apply Z.eqb_neq in He.
  eexists. split.
  { rewrite probe_eq. unfold probe_result. rewrite Ha, Hd, Hb, He. cbn [negb]. reflexivity. }
  split; [reflexivity|]. split; [cbn; set_solver|]. split; [reflexivity|].
  intros Hr.
  destruct (fun H => dead_forever _ k2
                       (set_released true (set_registered false (joycon_rails sd)))
                       H eq_refl eq_refl Hr) as (Hd2 & Hm & Hsy); [reflexivity|].
  split; [exact Hd2|].
  split; [rewrite Hm; cbn; rewrite filter_app; reflexivity|].
  split; [rewrite Hsy; cbn; rewrite filter_app; simpl; now rewrite app_nil_r|].
  destruct (probe_on_existing sd' k2 _ Hd2) as (k3 & Hp & Hd3 & _). eauto.
Qed.

Lemma failed_registration_sticks_witness :
  (input_dev kernel_init = None
   /\ devm_kzalloc_ok registration_fails = true
   /\ input_allocate_device_ok registration_fails = true
   /\ input_register_device_err registration_fails <> 0)
  /\ exists k1 k3,
       joycon_serdev_probe registration_fails 1 kernel_init = Some (-22, k1)
       /\ sessions (driver k1) = ∅
       /\ joycon_serdev_probe all_ok 2 k1 = Some (0, k3)
       /\ (registered <$> input_dev k3) = Some false.
Proof.
  split; [repeat split; discriminate|].
  destruct (failed_registration_sticks registration_fails 1 2 kernel_init
              (default kernel_init
                 (snd <$> joycon_serdev_probe registration_fails 1 kernel_init))
              eq_refl eq_refl eq_refl ltac:(discriminate))
    as (k1 & Hp & Hw & _ & Hd1 & Hlater).
  assert (E : default kernel_init
                (snd <$> joycon_serdev_probe registration_fails 1 kernel_init) = k1)
    by (rewrite Hp; reflexivity).
  rewrite E in Hlater.
  destruct (Hlater (driver_start k1)) as (_ & _ & _ & k3 & Hp3 & Hd3).
  exists k1, k3. split; [exact Hp|]. split; [rewrite Hw; reflexivity|].
  split; [exact Hp3|]. rewrite Hd3, Hd1. reflexivity.
Defined.

(** ** The handlers' invariants, from the loading of the module *)

#[export] Instance live_sessions_invariant (freed : gset nat) :
  WorkInvariant (every_session (live_session_ok freed)) (fun _ => True)
    (fun _ _ => True) (fun _ => True).
Proof.
  split; [split|split|..]; try (intros; exact I);
    intros m sd j; intros;
    match goal with
    | Hs : ?m !! ?sd = Some ?j, Hm : every_session (live_session_ok freed) ?m |- _ =>
        apply every_session_insert; [exact Hm|];
        intros Hlive;
        destruct (Hm sd j Hs Hlive) as (K1 & K2 & K3 & K4 & K5); unfold joycon_ok; simpl
    end.
  - pose proof (report_buttons_range b3 b4 b5). auto.
  - auto.
  - rewrite length_insert. auto.
  - destruct left; auto 10.
  - auto.
  - tauto.
  - auto.
  - auto.
Qed.

Lemma probe_freed (env : probe_env) (sd : nat) (k k' : kernel) (r : Z) :
  joycon_serdev_probe env sd k = Some (r, k') ->
  freed_sessions k ⊆ freed_sessions k'.
Proof.
  rewrite probe_eq. unfold probe_result. intros H.
  destruct (devm_kzalloc_ok env); cbn [negb] in H.
  2:{ inversion H; subst; clear H. reflexivity. }
  destruct (input_dev k) as [d|].
  { apply input_exists_result_inv in H as [-> ->]. reflexivity. }
  destruct (input_allocate_device_ok env); cbn [negb] in H.
  2:{ inversion H; subst; clear H. cbn. set_solver. }
  destruct (input_register_device_err env =? 0); cbn [negb] in H.
  2:{ inversion H; subst; clear H. cbn. set_solver. }
  destruct (kmalloc_sync_ok env); [|discriminate].
  apply input_exists_result_inv in H as [-> ->]. reflexivity.
Qed.

Lemma enter_keeps_ok (e : entry) (s : list env_resp) (k : kernel) (w' : world) :
  driver_ok k -> outcome (enter e (set_script s (driver k))) = Some w' ->
  driver_ok (set_driver w' k).
Proof.
  intros (HJ & HG & HI & HL & HO) Hstep.
  assert (Hr : reachable (driver k) w')
    by exact (reach_call _ _ w' e s (reach_start _) Hstep).
  pose proof (reachable_holds (every_session (live_session_ok (freed_sessions k)))
                (fun _ => True) (fun _ _ => True) (driver k) w') as H1.
  pose proof (reachable_holds (fun _ => True) globals_ok (fun _ t => Forall input_ok t)
                (driver k) w') as H2.
  pose proof (reachable_holds (fun _ => True) (fun _ => True)
                (fun h t => lock_state t = Some h) (driver k) w') as H3.
  pose proof (reachable_holds (fun _ => True) (fun _ => True)
                (fun _ t => Forall io_ok t) (driver k) w') as H4.
  unfold holds in *.
  destruct H1 as (K1 & _); [tauto|exact Hr|].
  destruct H2 as (_ & K2 & K3 & _); [tauto|exact Hr|].
  destruct H3 as (_ & _ & K4 & _); [tauto|exact Hr|].
  destruct H4 as (_ & _ & K5 & _); [tauto|exact Hr|].
  exact (conj K1 (conj K2 (conj K3 (conj K4 K5)))).
Qed.


Lemma run_calls_driver_reachable (k0 : kernel) (cs : list (entry * list env_resp)) :
  forall k w',
    driver_reachable k0 k -> run_calls cs (driver k) = Some w' ->
    driver_reachable k0 (set_driver w' k).
Proof.
  induction cs as [|[e s] cs IH]; intros k w' Hr; simpl.
  - intros [= <-]. now destruct k.
  - destruct (outcome (enter e (set_script s (driver k)))) as [w1|] eqn:H1; [|discriminate].
    intros H. apply (IH (set_driver w1 k) w') in H.
    + exact H.
    + exact (driver_next k0 k _ Hr (step_enter e s k w1 H1)).
Qed.

Lemma run_calls_live_reachable (k0 : kernel) (cs : list (entry * list env_resp)) :
  Forall (fun c => index_zeroed (fst c)) cs ->
  forall k w',
    freed_sessions k = ∅ ->
    live_reachable k0 k -> run_calls cs (driver k) = Some w' ->
    live_reachable k0 (set_driver w' k).
Proof.
  induction 1 as [|[e s] cs He _ IH]; intros k w' Hf Hr; simpl.
  - intros [= <-]. now destruct k.
  - destruct (outcome (enter e (set_script s (driver k)))) as [w1|] eqn:H1; [|discriminate].
    intros H. apply (IH (set_driver w1 k) w') in H.
    + exact H.
    + exact Hf.
    + apply (live_next k0 k _ Hr). apply (live_enter e s k w1 He); [|exact H1].
      intros sd _. rewrite Hf. apply not_elem_of_empty.
Qed.


(** ** From binding to the first handshake *)

Lemma input_handler_idle (w : world) (sd : nat) (j : joycon) :
  sessions w !! sd = Some j ->
  initialized j = false ->
  input_handler sd w =
    Done tt (set_trace (trace w ++ [QueueDelayedWork (work_input_poll sd) 16]) w).
Proof.
  intros Hs Hi. destruct w as [m g t s]. simpl in Hs.
  unfold input_handler. munfold. mrun Hs. rewrite Hi. reflexivity.
Qed.

(** X19.  From binding to the first handshake.  After a probe that
    returned 0 the session of the device is a zeroed one.  Until the
    liveness work has run, a run of the status poll writes nothing and only
    queues itself again at 16 ms.  The first run of the liveness work
    takes the zeroed session for an expired one: it restarts the handshake,
    and when the reply arrives after [n] unanswered turns it sends the four
    requests and leaves the session handshaken and initialized, both
    counters at 0, with the merged state as it was before the probe. *)
Theorem bring_up_after_probe (env : probe_env) (sd : nat) (k k1 : kernel) (n : nat)
    (e1 e2 e3 e4 : Z) (s : list env_resp) :
  joycon_serdev_probe env sd k = Some (0, k1) ->
  sessions (driver k1) !! sd = Some (joycon_zalloc sd)
  /\ input_handler sd (driver k1) =
       Done tt (set_trace (trace (driver k) ++ [QueueDelayedWork (work_input_poll sd) 16])
                  (driver k1))
  /\ timeout_handler sd
       (set_script (concat (replicate n retry_round) ++ ack_round sd
                    ++ answer e1 :: answer e2 :: answer e3 :: answer e4 :: s) (driver k1)) =
       Done tt
         {| sessions := <[sd := ready_joycon sd]> (sessions (driver k));
            glob := glob (driver k);
            trace := trace (driver k) ++ [timeout_log (joycon_zalloc sd)]
                     ++ concat (replicate n (round_trace sd ++ [Printk LogSentHandshake]))
                     ++ round_trace sd ++ [Printk LogGotHandshake; Printk LogSentHandshake]
                     ++ [SerdevWrite sd get_mac 200; SerdevWrite sd unk_1 200;
                         SerdevWrite sd unk_2 200; SerdevWrite sd unk_3 200;
                         QueueDelayedWork (work_timeout_poll sd) 200];
            script := s |}.
Proof.
  intros Hp. apply probe_step in Hp as (c & _ & Hw & _). cbn [Z.eqb] in Hw.
  rewrite Hw. split; [apply lookup_insert_eq|]. split.
  - erewrite input_handler_idle; [reflexivity|apply lookup_insert_eq|reflexivity].
  - erewrite (timeout_handler_handshakes _ sd (joycon_zalloc sd) n e1 e2 e3 e4 s);
      [|apply lookup_insert_eq|reflexivity|reflexivity|reflexivity].
    cbn [sessions glob trace set_script set_sessions].
    rewrite insert_insert_eq. reflexivity.
Qed.

Lemma bring_up_after_probe_witness :
  joycon_serdev_probe all_ok 1 kernel_init = Some (0, bound_kernel)
  /\ exists w',
       timeout_handler 1
         (set_script (concat (replicate 2 retry_round) ++ ack_round 1
                      ++ [answer 0; answer 0; answer 0; answer 0]) (driver bound_kernel))
       = Done tt w'
       /\ sessions w' = {[ 1%nat := ready_joycon 1 ]}
       /\ length (trace w') = 19%nat.
Proof.
  split; [vm_compute; reflexivity|].
  eexists. split.
  - exact (proj2 (proj2 (bring_up_after_probe all_ok 1 kernel_init bound_kernel 2 0 0 0 0 []
                           ltac:(vm_compute; reflexivity)))).
  - split; reflexivity.
Defined.

(** ** What the input device has declared *)

Lemma capabilities_from_load (k : kernel) (d : input_device) :
  driver_reachable kernel_init k -> input_dev k = Some d -> capabilities_set d.
Proof.
  intros Hr. revert d. induction Hr as [|k k' _ IH Hstep]; [discriminate|].
  intros d Hd. destruct Hstep as [env sd k k' r Hp|sd k k' Hp|e s k w' _].
  - apply probe_step in Hp as (c & _ & _ & Hk).
    destruct (input_dev k) as [d0|].
    + destruct Hk as (Hk & _). rewrite Hk in Hd. injection Hd as <-. now apply IH.
    + destruct Hk as [(Hk & _)|[(Hk & _)|(Hk & _)]]; rewrite Hk in Hd;
        [discriminate| |]; injection Hd as <-; repeat split.
  - apply remove_step in Hp as (d' & Hd' & _ & ->). cbn in Hd. injection Hd as <-.
    exact (IH d' Hd').
  - now apply IH.
Qed.

Lemma input_ok_from_load (k : kernel) :
  driver_reachable kernel_init k ->
  globals_ok (glob (driver k)) /\ Forall input_ok (trace (driver k)).
Proof.
  intros Hr. induction Hr as [|k k' _ IH Hstep].
  - split; [exact globals_init_ok|constructor].
  - destruct Hstep as [env sd k k' r Hp|sd k k' Hp|e s k w' Hstep].
    + apply probe_step in Hp as (c & _ & -> & _). now destruct (r =? 0).
    + apply remove_step in Hp as (d & _ & _ & ->). exact IH.
    + destruct (reachable_holds (fun _ => True) globals_ok
                  (fun _ t => Forall input_ok t) (driver k) w')
        as (_ & HG & HT & _);
        [split; [exact I|tauto]
        |exact (reach_call _ _ w' e s (reach_start _) Hstep)
        |now split].
Qed.

Lemma input_ok_declared (d : input_device) (e : event) :
  capabilities_set d -> input_ok e -> declared d e.
Proof.
  intros (_ & Hk & Ha) He. destruct e; try exact I.
  - destruct He as (i & Hi & Hc & _). simpl. rewrite Hk.
    apply elem_of_list_to_set, elem_of_take. exists i. now split.
  - destruct He as (Hin & _). simpl. rewrite Ha.
    simpl in Hin. destruct Hin as [<-|[<-|[<-|[<-|[]]]]]; vm_compute; eauto.
Qed.

(** X20.  The input device declares what is reported to it.  From the
    loading of the module on, whenever [input_dev] is not null the device
    it points to carries the capabilities probe gave it, however often
    devices were bound and unbound since: key and axis events enabled, the
    24 codes of [joycon_common_btn] before its terminating entry as keys,
    and the four axes each with minimum 32, maximum 223, fuzz 0 and flat 4.
    Every key event the handlers have reported is for a declared code and
    every axis event for a declared axis. *)
Theorem reports_are_declared (k : kernel) (d : input_device) :
  driver_reachable kernel_init k ->
  input_dev k = Some d ->
  capabilities_set d /\ Forall (declared d) (trace (driver k)).
Proof.
  intros Hr Hd. pose proof (capabilities_from_load k d Hr Hd) as Hc.
  split; [exact Hc|].
  destruct (input_ok_from_load k Hr) as (_ & HT).
  eapply Forall_impl; [exact HT|]. intros e. now apply input_ok_declared.
Qed.

Lemma played_kernel_reachable : driver_reachable kernel_init played_kernel.
Proof.
  apply (run_calls_driver_reachable kernel_init example_calls bound_kernel);
    [exact bound_kernel_reachable|vm_compute; reflexivity].
Qed.

Lemma reports_are_declared_witness :
  (driver_reachable kernel_init played_kernel
   /\ input_dev played_kernel = Some (joycon_rails 1))
  /\ In (InputReportKey BTN_TL2 0x800000) (trace (driver played_kernel))
  /\ Forall (declared (joycon_rails 1)) (trace (driver played_kernel)).
Proof.
  split; [split; [exact played_kernel_reachable|reflexivity]|].
  split; [vm_compute; tauto|].
  exact (proj2 (reports_are_declared played_kernel (joycon_rails 1)
                  played_kernel_reachable eq_refl)).
Defined.
